(** * Bigben controller driver: protocol translation and device I/O pipeline

  A shallow embedding of the driver sources
  - [Shared/BigbenProtocol.h] and [Shared/HIDReportDescriptor.h]
    (wire formats),
  - [BigbenControllerDriver/Sources/InputTranslator.cpp]
    (button, D-pad, stick and trigger shaping),
  - [BigbenControllerDriver/Sources/BigbenHIDDevice.cpp]
    (output frames),
  - [BigbenControllerDriver/Sources/BigbenUSBDriver.cpp]
    (the asynchronous read cycle),
  followed by the properties of the specification proved over it.

  Fixed-width C integers are integers of [Z] with the conversions of
  the C code written out: [uint8], [uint16], [int16] and [uint64] are
  the truncations an assignment to a variable of that type performs. *)

From Stdlib Require Import ZArith List Bool Lia.
Import ListNotations.
Local Open Scope Z_scope.

(* ===================================================================== *)
(** ** Fixed-width integers *)
(* ===================================================================== *)

Module CInt.

Definition uint8 (z : Z) : Z := z mod 256.
Definition uint16 (z : Z) : Z := z mod 65536.
Definition uint64 (z : Z) : Z := z mod 18446744073709551616.

(** Conversion to [int16_t]: two's complement wrap-around. *)
Definition int16 (z : Z) : Z := (z + 32768) mod 65536 - 32768.

Definition is_uint8 (z : Z) : Prop := 0 <= z <= 255.
Definition is_uint16 (z : Z) : Prop := 0 <= z <= 65535.

End CInt.

(* ===================================================================== *)
(** ** Wire formats ([BigbenProtocol.h], [HIDReportDescriptor.h]) *)
(* ===================================================================== *)

Module Protocol.

Definition BIGBEN_REPORT_ID_INPUT : Z := 0x01.
Definition BIGBEN_REPORT_ID_LED : Z := 0x01.
Definition BIGBEN_REPORT_ID_RUMBLE : Z := 0x02.

Definition BIGBEN_INPUT_REPORT_SIZE : Z := 64.
Definition BIGBEN_OUTPUT_REPORT_SIZE : Z := 8.

Definition BIGBEN_DPAD_NEUTRAL : Z := 8.

(** [BigbenInputReport], packed, 64 bytes. *)
Record BigbenInputReport := mkInputReport {
  in_reportId : Z;
  in_leftStickX : Z;
  in_leftStickY : Z;
  in_rightStickX : Z;
  in_rightStickY : Z;
  in_dpad : Z;
  in_buttons : Z;
  in_leftTrigger : Z;
  in_rightTrigger : Z;
  in_reserved : list Z
}.

(** 1+1+1+1+1+1+2+1+1+54 *)
Definition sizeof_BigbenInputReport : Z := 64.

(** [BigbenHIDReport], packed, the report handed to the host. *)
Record BigbenHIDReport := mkHIDReport {
  reportId : Z;
  buttons : Z;
  leftStickX : Z;
  leftStickY : Z;
  rightStickX : Z;
  rightStickY : Z;
  leftTrigger : Z;
  rightTrigger : Z;
  hatSwitch : Z
}.

(** [BigbenRumbleReport], packed, 8 bytes. *)
Record BigbenRumbleReport := mkRumbleReport {
  rr_reportId : Z;
  rr_reserved1 : Z;
  rr_rightMotorOn : Z;
  rr_leftMotorForce : Z;
  rr_duration : Z;
  rr_padding : list Z
}.

(** [BigbenLEDReport], packed, 8 bytes. *)
Record BigbenLEDReport := mkLEDReport {
  lr_reportId : Z;
  lr_reserved1 : Z;
  lr_ledState : Z;
  lr_padding : list Z
}.

(** The bytes of a rumble report in memory order. *)
Definition rumble_bytes (r : BigbenRumbleReport) : list Z :=
  [rr_reportId r; rr_reserved1 r; rr_rightMotorOn r; rr_leftMotorForce r;
   rr_duration r] ++ rr_padding r.

End Protocol.

(* ===================================================================== *)
(** ** [InputTranslator.cpp] *)
(* ===================================================================== *)

Module InputTranslator.
Import CInt Protocol.

Definition INPUT_TRANSLATOR_DEFAULT_DEADZONE : Z := 12.
Definition INPUT_TRANSLATOR_AXIS_CENTER : Z := 128.
Definition INPUT_TRANSLATOR_AXIS_MIN : Z := 0.
Definition INPUT_TRANSLATOR_AXIS_MAX : Z := 255.
Definition INPUT_TRANSLATOR_HAT_NEUTRAL : Z := 8.

(** The two configuration members of the class. *)
Record t := mk {
  m_deadzone : Z;
  m_triggerDeadzone : Z
}.

(** [InputTranslator::InputTranslator()] *)
Definition new : t :=
  {| m_deadzone := INPUT_TRANSLATOR_DEFAULT_DEADZONE; m_triggerDeadzone := 0 |}.

(** [InputTranslator::InputTranslator(uint8_t deadzone)] *)
Definition new_with (deadzone : Z) : t :=
  {| m_deadzone := if deadzone >? 127 then 127 else deadzone;
     m_triggerDeadzone := 0 |}.

(** [setDeadzone] *)
Definition setDeadzone (deadzone : Z) (tr : t) : t :=
  {| m_deadzone := if deadzone >? 127 then 127 else deadzone;
     m_triggerDeadzone := m_triggerDeadzone tr |}.

(** [setTriggerDeadzone] *)
Definition setTriggerDeadzone (deadzone : Z) (tr : t) : t :=
  {| m_deadzone := m_deadzone tr; m_triggerDeadzone := deadzone |}.

(** [translateButtons]: [bigbenButtons & 0x1FFF]. *)
Definition translateButtons (bigbenButtons : Z) : Z :=
  uint16 (Z.land bigbenButtons 0x1FFF).

(** [translateDPadToHat] *)
Definition translateDPadToHat (dpad : Z) : Z :=
  if dpad >? BIGBEN_DPAD_NEUTRAL then INPUT_TRANSLATOR_HAT_NEUTRAL
  else dpad.

(** [applyDeadzone].  [offset], [activeRange], [adjusted] and [result]
    are [int16_t]; the arithmetic between them is done on [int]
    (products of two [int16_t] fit), the division is C's, truncating
    towards zero ([Z.quot]). *)
Definition applyDeadzone (value deadzone : Z) : Z :=
  let offset := int16 (value - INPUT_TRANSLATOR_AXIS_CENTER) in
  if (offset >? - deadzone) && (offset <? deadzone) then
    INPUT_TRANSLATOR_AXIS_CENTER
  else
    let offset :=
      if (deadzone >? 0) && (deadzone <? 128) then
        let maxRange := 127 in
        let activeRange := int16 (maxRange - deadzone) in
        if activeRange >? 0 then
          if offset >? 0 then
            let adjusted := int16 (offset - deadzone) in
            int16 (Z.quot (adjusted * maxRange) activeRange)
          else
            let adjusted := int16 (offset + deadzone) in
            int16 (Z.quot (adjusted * maxRange) activeRange)
        else offset
      else offset in
    let result := int16 (offset + INPUT_TRANSLATOR_AXIS_CENTER) in
    if result <? INPUT_TRANSLATOR_AXIS_MIN then INPUT_TRANSLATOR_AXIS_MIN
    else if result >? INPUT_TRANSLATOR_AXIS_MAX then INPUT_TRANSLATOR_AXIS_MAX
    else uint8 result.

(** [applyTriggerDeadzone].  [activeRange], [adjusted] and [scaled] are
    [uint16_t]. *)
Definition applyTriggerDeadzone (value deadzone : Z) : Z :=
  if value <? deadzone then 0
  else if (deadzone >? 0) && (deadzone <? 255) then
    let activeRange := uint16 (255 - deadzone) in
    let adjusted := uint16 (value - deadzone) in
    let scaled := uint16 (Z.quot (adjusted * 255) activeRange) in
    if scaled >? 255 then 255 else uint8 scaled
  else value.

(** [translate], for non-null [input] and [output]: the report written
    to [*output] (the function then returns [true]). *)
Definition translate (tr : t) (input : BigbenInputReport) : BigbenHIDReport :=
  {| reportId := BIGBEN_REPORT_ID_INPUT;
     buttons := translateButtons (in_buttons input);
     leftStickX := applyDeadzone (in_leftStickX input) (m_deadzone tr);
     leftStickY := applyDeadzone (in_leftStickY input) (m_deadzone tr);
     rightStickX := applyDeadzone (in_rightStickX input) (m_deadzone tr);
     rightStickY := applyDeadzone (in_rightStickY input) (m_deadzone tr);
     leftTrigger := applyTriggerDeadzone (in_leftTrigger input) (m_triggerDeadzone tr);
     rightTrigger := applyTriggerDeadzone (in_rightTrigger input) (m_triggerDeadzone tr);
     hatSwitch := translateDPadToHat (in_dpad input) |}.

(** [initializeNeutralReport], for a non-null [report]. *)
Definition initializeNeutralReport : BigbenHIDReport :=
  {| reportId := BIGBEN_REPORT_ID_INPUT;
     buttons := 0;
     leftStickX := INPUT_TRANSLATOR_AXIS_CENTER;
     leftStickY := INPUT_TRANSLATOR_AXIS_CENTER;
     rightStickX := INPUT_TRANSLATOR_AXIS_CENTER;
     rightStickY := INPUT_TRANSLATOR_AXIS_CENTER;
     leftTrigger := 0;
     rightTrigger := 0;
     hatSwitch := INPUT_TRANSLATOR_HAT_NEUTRAL |}.

End InputTranslator.

(* ===================================================================== *)
(** ** Return codes of the driver runtime *)
(* ===================================================================== *)

Module IOKit.

(** The [IOReturn] codes the driver names.  Their numeric values live
    in the platform headers; the driver only compares a status with
    these names, so a code is kept as its name and every other code as
    [kIOReturnOther] with its number. *)
Inductive IOReturn : Type :=
| kIOReturnSuccess
| kIOReturnAborted
| kIOReturnNotResponding
| kIOReturnNotReady
| kIOReturnNotFound
| kIOReturnNotAttached
| kIOReturnNoMemory
| kIOReturnInvalid
| kIOReturnInternalError
| kIOReturnBadArgument
| kIOReturnUnsupported
| kIOReturnUnderrun
| kIOReturnOther (code : Z).

(** [ret == kIOReturnSuccess] *)
Definition is_success (r : IOReturn) : bool :=
  match r with kIOReturnSuccess => true | _ => false end.

(** [status == kIOReturnAborted] *)
Definition is_aborted (r : IOReturn) : bool :=
  match r with kIOReturnAborted => true | _ => false end.

(** [status == kIOReturnNotResponding] *)
Definition is_not_responding (r : IOReturn) : bool :=
  match r with kIOReturnNotResponding => true | _ => false end.

End IOKit.

(* ===================================================================== *)
(** ** [BigbenHIDDevice.cpp]: output frames *)
(* ===================================================================== *)

Module BigbenHIDDevice.
Import CInt Protocol IOKit.

(** [BigbenHIDDevice_IVars]; [usbDriver] and [reportDescriptor] are
    pointers, kept as "is not null". *)
Record IVars := mkIVars {
  usbDriver : bool;
  reportDescriptor : bool;
  currentLEDState : Z;
  isStarted : bool;
  translator : InputTranslator.t;
  lastReport : BigbenHIDReport;
  hasValidReport : bool
}.

(** [sendRumbleToUSB(leftMotor, rightMotor)].  [ivars] is [None] for a
    null pointer.  The result is the returned status and, when control
    reaches it, the local [rumbleReport] the function builds. *)
Definition sendRumbleToUSB (ivars : option IVars) (leftMotor rightMotor : Z)
  : IOReturn * option BigbenRumbleReport :=
  match ivars with
  | None => (kIOReturnNotReady, None)
  | Some iv =>
    if negb (usbDriver iv) then (kIOReturnNotReady, None)
    else
      let rumbleReport :=
        {| rr_reportId := BIGBEN_REPORT_ID_RUMBLE;
           rr_reserved1 := 0x08;
           rr_rightMotorOn := if rightMotor >? 0 then 1 else 0;
           rr_leftMotorForce := leftMotor;
           rr_duration := 0xFF;
           rr_padding := [0; 0; 0] |} in
      (kIOReturnSuccess, Some rumbleReport)
  end.

End BigbenHIDDevice.

(* ===================================================================== *)
(** ** [BigbenUSBDriver.cpp]: the read cycle *)
(* ===================================================================== *)

Module BigbenUSBDriver.
Import CInt Protocol IOKit.

Definition kBigbenInputReportSize : Z := 64.
Definition kBigbenOutputReportSize : Z := 8.

(** [BigbenUSBDriver_IVars].  The eight object pointers are kept as
    "is not null"; [lastReport] holds the 64 raw bytes [memcpy] stores;
    the three statistics are [uint64_t]. *)
Record IVars := mkIVars {
  interface : bool;
  inputPipe : bool;
  outputPipe : bool;
  inputBuffer : bool;
  outputBuffer : bool;
  hidDescriptor : bool;
  readAction : bool;
  writeAction : bool;
  isStarted : bool;
  isPolling : bool;
  deviceConnected : bool;
  lastReport : list Z;
  hasLastReport : bool;
  reportsReceived : Z;
  reportErrors : Z;
  outputReportsSent : Z
}.

(** Assignments to one member: [ivars->member = v]. *)
Definition set_interface (v : bool) (s : IVars) : IVars :=
  {| interface := v; inputPipe := inputPipe s; outputPipe := outputPipe s;
     inputBuffer := inputBuffer s; outputBuffer := outputBuffer s;
     hidDescriptor := hidDescriptor s; readAction := readAction s;
     writeAction := writeAction s; isStarted := isStarted s; isPolling :=
     isPolling s; deviceConnected := deviceConnected s; lastReport :=
     lastReport s; hasLastReport := hasLastReport s; reportsReceived :=
     reportsReceived s; reportErrors := reportErrors s; outputReportsSent
     := outputReportsSent s |}.

Definition set_inputPipe (v : bool) (s : IVars) : IVars :=
  {| interface := interface s; inputPipe := v; outputPipe := outputPipe s;
     inputBuffer := inputBuffer s; outputBuffer := outputBuffer s;
     hidDescriptor := hidDescriptor s; readAction := readAction s;
     writeAction := writeAction s; isStarted := isStarted s; isPolling :=
     isPolling s; deviceConnected := deviceConnected s; lastReport :=
     lastReport s; hasLastReport := hasLastReport s; reportsReceived :=
     reportsReceived s; reportErrors := reportErrors s; outputReportsSent
     := outputReportsSent s |}.

Definition set_outputPipe (v : bool) (s : IVars) : IVars :=
  {| interface := interface s; inputPipe := inputPipe s; outputPipe := v;
     inputBuffer := inputBuffer s; outputBuffer := outputBuffer s;
     hidDescriptor := hidDescriptor s; readAction := readAction s;
     writeAction := writeAction s; isStarted := isStarted s; isPolling :=
     isPolling s; deviceConnected := deviceConnected s; lastReport :=
     lastReport s; hasLastReport := hasLastReport s; reportsReceived :=
     reportsReceived s; reportErrors := reportErrors s; outputReportsSent
     := outputReportsSent s |}.

Definition set_inputBuffer (v : bool) (s : IVars) : IVars :=
  {| interface := interface s; inputPipe := inputPipe s; outputPipe :=
     outputPipe s; inputBuffer := v; outputBuffer := outputBuffer s;
     hidDescriptor := hidDescriptor s; readAction := readAction s;
     writeAction := writeAction s; isStarted := isStarted s; isPolling :=
     isPolling s; deviceConnected := deviceConnected s; lastReport :=
     lastReport s; hasLastReport := hasLastReport s; reportsReceived :=
     reportsReceived s; reportErrors := reportErrors s; outputReportsSent
     := outputReportsSent s |}.

Definition set_outputBuffer (v : bool) (s : IVars) : IVars :=
  {| interface := interface s; inputPipe := inputPipe s; outputPipe :=
     outputPipe s; inputBuffer := inputBuffer s; outputBuffer := v;
     hidDescriptor := hidDescriptor s; readAction := readAction s;
     writeAction := writeAction s; isStarted := isStarted s; isPolling :=
     isPolling s; deviceConnected := deviceConnected s; lastReport :=
     lastReport s; hasLastReport := hasLastReport s; reportsReceived :=
     reportsReceived s; reportErrors := reportErrors s; outputReportsSent
     := outputReportsSent s |}.

Definition set_hidDescriptor (v : bool) (s : IVars) : IVars :=
  {| interface := interface s; inputPipe := inputPipe s; outputPipe :=
     outputPipe s; inputBuffer := inputBuffer s; outputBuffer :=
     outputBuffer s; hidDescriptor := v; readAction := readAction s;
     writeAction := writeAction s; isStarted := isStarted s; isPolling :=
     isPolling s; deviceConnected := deviceConnected s; lastReport :=
     lastReport s; hasLastReport := hasLastReport s; reportsReceived :=
     reportsReceived s; reportErrors := reportErrors s; outputReportsSent
     := outputReportsSent s |}.

Definition set_readAction (v : bool) (s : IVars) : IVars :=
  {| interface := interface s; inputPipe := inputPipe s; outputPipe :=
     outputPipe s; inputBuffer := inputBuffer s; outputBuffer :=
     outputBuffer s; hidDescriptor := hidDescriptor s; readAction := v;
     writeAction := writeAction s; isStarted := isStarted s; isPolling :=
     isPolling s; deviceConnected := deviceConnected s; lastReport :=
     lastReport s; hasLastReport := hasLastReport s; reportsReceived :=
     reportsReceived s; reportErrors := reportErrors s; outputReportsSent
     := outputReportsSent s |}.

Definition set_writeAction (v : bool) (s : IVars) : IVars :=
  {| interface := interface s; inputPipe := inputPipe s; outputPipe :=
     outputPipe s; inputBuffer := inputBuffer s; outputBuffer :=
     outputBuffer s; hidDescriptor := hidDescriptor s; readAction :=
     readAction s; writeAction := v; isStarted := isStarted s; isPolling
     := isPolling s; deviceConnected := deviceConnected s; lastReport :=
     lastReport s; hasLastReport := hasLastReport s; reportsReceived :=
     reportsReceived s; reportErrors := reportErrors s; outputReportsSent
     := outputReportsSent s |}.

Definition set_isStarted (v : bool) (s : IVars) : IVars :=
  {| interface := interface s; inputPipe := inputPipe s; outputPipe :=
     outputPipe s; inputBuffer := inputBuffer s; outputBuffer :=
     outputBuffer s; hidDescriptor := hidDescriptor s; readAction :=
     readAction s; writeAction := writeAction s; isStarted := v; isPolling
     := isPolling s; deviceConnected := deviceConnected s; lastReport :=
     lastReport s; hasLastReport := hasLastReport s; reportsReceived :=
     reportsReceived s; reportErrors := reportErrors s; outputReportsSent
     := outputReportsSent s |}.

Definition set_isPolling (v : bool) (s : IVars) : IVars :=
  {| interface := interface s; inputPipe := inputPipe s; outputPipe :=
     outputPipe s; inputBuffer := inputBuffer s; outputBuffer :=
     outputBuffer s; hidDescriptor := hidDescriptor s; readAction :=
     readAction s; writeAction := writeAction s; isStarted := isStarted s;
     isPolling := v; deviceConnected := deviceConnected s; lastReport :=
     lastReport s; hasLastReport := hasLastReport s; reportsReceived :=
     reportsReceived s; reportErrors := reportErrors s; outputReportsSent
     := outputReportsSent s |}.

Definition set_deviceConnected (v : bool) (s : IVars) : IVars :=
  {| interface := interface s; inputPipe := inputPipe s; outputPipe :=
     outputPipe s; inputBuffer := inputBuffer s; outputBuffer :=
     outputBuffer s; hidDescriptor := hidDescriptor s; readAction :=
     readAction s; writeAction := writeAction s; isStarted := isStarted s;
     isPolling := isPolling s; deviceConnected := v; lastReport :=
     lastReport s; hasLastReport := hasLastReport s; reportsReceived :=
     reportsReceived s; reportErrors := reportErrors s; outputReportsSent
     := outputReportsSent s |}.

Definition set_lastReport (v : list Z) (s : IVars) : IVars :=
  {| interface := interface s; inputPipe := inputPipe s; outputPipe :=
     outputPipe s; inputBuffer := inputBuffer s; outputBuffer :=
     outputBuffer s; hidDescriptor := hidDescriptor s; readAction :=
     readAction s; writeAction := writeAction s; isStarted := isStarted s;
     isPolling := isPolling s; deviceConnected := deviceConnected s;
     lastReport := v; hasLastReport := hasLastReport s; reportsReceived :=
     reportsReceived s; reportErrors := reportErrors s; outputReportsSent
     := outputReportsSent s |}.

Definition set_hasLastReport (v : bool) (s : IVars) : IVars :=
  {| interface := interface s; inputPipe := inputPipe s; outputPipe :=
     outputPipe s; inputBuffer := inputBuffer s; outputBuffer :=
     outputBuffer s; hidDescriptor := hidDescriptor s; readAction :=
     readAction s; writeAction := writeAction s; isStarted := isStarted s;
     isPolling := isPolling s; deviceConnected := deviceConnected s;
     lastReport := lastReport s; hasLastReport := v; reportsReceived :=
     reportsReceived s; reportErrors := reportErrors s; outputReportsSent
     := outputReportsSent s |}.

Definition set_reportsReceived (v : Z) (s : IVars) : IVars :=
  {| interface := interface s; inputPipe := inputPipe s; outputPipe :=
     outputPipe s; inputBuffer := inputBuffer s; outputBuffer :=
     outputBuffer s; hidDescriptor := hidDescriptor s; readAction :=
     readAction s; writeAction := writeAction s; isStarted := isStarted s;
     isPolling := isPolling s; deviceConnected := deviceConnected s;
     lastReport := lastReport s; hasLastReport := hasLastReport s;
     reportsReceived := v; reportErrors := reportErrors s;
     outputReportsSent := outputReportsSent s |}.

Definition set_reportErrors (v : Z) (s : IVars) : IVars :=
  {| interface := interface s; inputPipe := inputPipe s; outputPipe :=
     outputPipe s; inputBuffer := inputBuffer s; outputBuffer :=
     outputBuffer s; hidDescriptor := hidDescriptor s; readAction :=
     readAction s; writeAction := writeAction s; isStarted := isStarted s;
     isPolling := isPolling s; deviceConnected := deviceConnected s;
     lastReport := lastReport s; hasLastReport := hasLastReport s;
     reportsReceived := reportsReceived s; reportErrors := v;
     outputReportsSent := outputReportsSent s |}.

Definition set_outputReportsSent (v : Z) (s : IVars) : IVars :=
  {| interface := interface s; inputPipe := inputPipe s; outputPipe :=
     outputPipe s; inputBuffer := inputBuffer s; outputBuffer :=
     outputBuffer s; hidDescriptor := hidDescriptor s; readAction :=
     readAction s; writeAction := writeAction s; isStarted := isStarted s;
     isPolling := isPolling s; deviceConnected := deviceConnected s;
     lastReport := lastReport s; hasLastReport := hasLastReport s;
     reportsReceived := reportsReceived s; reportErrors := reportErrors s;
     outputReportsSent := v |}.

(** What the driver does to its collaborators, in call order. *)
Inductive Effect : Type :=
| InputAsyncIO (ret : IOReturn)
    (** [inputPipe->AsyncIO(inputBuffer, 64, readAction, 0)] and the
        code it returned; [kIOReturnSuccess] means a read is now
        outstanding *)
| InputAbort
    (** [inputPipe->Abort(kIOUSBAbortAsyncOption, kIOReturnAborted)] *)
| HandleReport (timestamp : Z) (report : list Z) (reportLength : Z)
    (** [super::handleReport(timestamp, inputBuffer, length, Input, 0)]:
        delivery to the host-report sink *)
| InterfaceClose
| SuperStop
| RegisterService.

(** What the runtime answers while the driver is being started. *)
Record Provider := mkProvider {
  super_Start : IOReturn;
  super_Stop : IOReturn;
  cast_interface : bool;
  interface_Open : IOReturn;
  CopyPipe_input : IOReturn * bool;
  Create_inputBuffer : IOReturn * bool;
  CreateActionReadComplete : IOReturn * bool;
  CopyPipe_output : IOReturn * bool;
  Create_outputBuffer : IOReturn * bool;
  CreateActionWriteComplete : IOReturn * bool;
  Create_hidDescriptor : IOReturn * bool;
  cast_hidDescriptor : bool;
  Map_hidDescriptor : IOReturn
}.

(** What the transport answers during one entry into the driver: the
    code [AsyncIO] on the input pipe returns, what [Map] on the input
    buffer returns (code and address), the bytes the buffer holds, and
    the clock. *)
Record Host := mkHost {
  AsyncIO_input : IOReturn;
  Map_inputBuffer : IOReturn * Z;
  inputData : list Z;
  mach_absolute_time : Z
}.

(** *** State, effects and faults

    A driver method is a function of the instance variables that
    either faults (a null object pointer is dereferenced) or ends with
    a result, the new instance variables and the effects it caused. *)
Definition Drv (A : Type) : Type := IVars -> option (A * IVars * list Effect).

Definition ret {A} (a : A) : Drv A := fun s => Some (a, s, []).

Definition bind {A B} (m : Drv A) (k : A -> Drv B) : Drv B :=
  fun s =>
    match m s with
    | None => None
    | Some (a, s1, e1) =>
      match k a s1 with
      | None => None
      | Some (b, s2, e2) => Some (b, s2, e1 ++ e2)
      end
    end.

Definition get : Drv IVars := fun s => Some (s, s, []).
Definition modify (f : IVars -> IVars) : Drv unit := fun s => Some (tt, f s, []).
Definition emit (e : Effect) : Drv unit := fun s => Some (tt, s, [e]).
Definition fault {A} : Drv A := fun _ => None.

(** [p->method(...)] on a pointer member [p]: a fault when [p] is null. *)
Definition deref {A} (p : IVars -> bool) (m : Drv A) : Drv A :=
  fun s => if p s then m s else None.

Declare Scope drv_scope.
Delimit Scope drv_scope with drv.
Notation "x <- m ;; k" := (bind m (fun x => k))
  (at level 61, m at next level, right associativity) : drv_scope.
Notation "m ;; k" := (bind m (fun _ => k))
  (at level 61, right associativity) : drv_scope.
Local Open Scope drv_scope.

(** [init()]: the zeroed instance variables. *)
Definition init : IVars :=
  {| interface := false; inputPipe := false; outputPipe := false;
     inputBuffer := false; outputBuffer := false; hidDescriptor := false;
     readAction := false; writeAction := false;
     isStarted := false; isPolling := false; deviceConnected := false;
     lastReport := repeat 0 64; hasLastReport := false;
     reportsReceived := 0; reportErrors := 0; outputReportsSent := 0 |}.

(** [ret != kIOReturnSuccess || ptr == nullptr], and the code returned
    then: [ret != kIOReturnSuccess ? ret : fallback]. *)
Definition creation_failed (r : IOReturn * bool) : bool :=
  negb (is_success (fst r)) || negb (snd r).
Definition creation_error (r : IOReturn * bool) (fallback : IOReturn) : IOReturn :=
  if negb (is_success (fst r)) then fst r else fallback.

(** [inputPipe->AsyncIO(inputBuffer, kBigbenInputReportSize, readAction, 0)] *)
Definition inputPipe_AsyncIO (h : Host) : Drv IOReturn :=
  deref inputPipe (emit (InputAsyncIO (AsyncIO_input h)) ;; ret (AsyncIO_input h)).

(** [reportErrors++], [reportsReceived++], [outputReportsSent++] *)
Definition incr_reportErrors : Drv unit :=
  modify (fun s => set_reportErrors (uint64 (reportErrors s + 1)) s).
Definition incr_reportsReceived : Drv unit :=
  modify (fun s => set_reportsReceived (uint64 (reportsReceived s + 1)) s).
Definition incr_outputReportsSent : Drv unit :=
  modify (fun s => set_outputReportsSent (uint64 (outputReportsSent s + 1)) s).

(** [ConfigureDevice] *)
Definition ConfigureDevice : Drv IOReturn :=
  s <- get ;;
  if negb (interface s) then ret kIOReturnNotAttached
  else ret kIOReturnSuccess.

(** [OpenInterface] *)
Definition OpenInterface (p : Provider) : Drv IOReturn :=
  s <- get ;;
  if negb (interface s) then ret kIOReturnNotAttached
  else
    if negb (is_success (interface_Open p)) then ret (interface_Open p)
    else ret kIOReturnSuccess.

(** [SetupInterruptInEndpoint] *)
Definition SetupInterruptInEndpoint (p : Provider) : Drv IOReturn :=
  s <- get ;;
  if negb (interface s) then ret kIOReturnNotAttached
  else
    modify (set_inputPipe (snd (CopyPipe_input p))) ;;
    if creation_failed (CopyPipe_input p)
    then ret (creation_error (CopyPipe_input p) kIOReturnNotFound)
    else
      modify (set_inputBuffer (snd (Create_inputBuffer p))) ;;
      if creation_failed (Create_inputBuffer p)
      then ret (creation_error (Create_inputBuffer p) kIOReturnNoMemory)
      else
        modify (set_readAction (snd (CreateActionReadComplete p))) ;;
        if creation_failed (CreateActionReadComplete p)
        then ret (creation_error (CreateActionReadComplete p) kIOReturnNoMemory)
        else ret kIOReturnSuccess.

(** [SetupInterruptOutEndpoint]: the output endpoint is optional. *)
Definition SetupInterruptOutEndpoint (p : Provider) : Drv IOReturn :=
  s <- get ;;
  if negb (interface s) then ret kIOReturnNotAttached
  else
    modify (set_outputPipe (snd (CopyPipe_output p))) ;;
    if creation_failed (CopyPipe_output p)
    then ret kIOReturnSuccess
    else
      modify (set_outputBuffer (snd (Create_outputBuffer p))) ;;
      if creation_failed (Create_outputBuffer p)
      then ret (creation_error (Create_outputBuffer p) kIOReturnNoMemory)
      else
        modify (set_writeAction (snd (CreateActionWriteComplete p))) ;;
        if creation_failed (CreateActionWriteComplete p)
        then ret (creation_error (CreateActionWriteComplete p) kIOReturnNoMemory)
        else ret kIOReturnSuccess.

(** [CreateHIDReportDescriptor] *)
Definition CreateHIDReportDescriptor (p : Provider) : Drv IOReturn :=
  modify (set_hidDescriptor (snd (Create_hidDescriptor p))) ;;
  if creation_failed (Create_hidDescriptor p)
  then ret (creation_error (Create_hidDescriptor p) kIOReturnNoMemory)
  else
    if negb (cast_hidDescriptor p) then ret kIOReturnInternalError
    else
      if negb (is_success (Map_hidDescriptor p)) then ret (Map_hidDescriptor p)
      else ret kIOReturnSuccess.

(** [StartInputPolling] *)
Definition StartInputPolling (h : Host) : Drv IOReturn :=
  s <- get ;;
  if negb (inputPipe s) || negb (inputBuffer s) || negb (readAction s)
  then ret kIOReturnNotReady
  else
    if isPolling s then ret kIOReturnSuccess
    else
      r <- inputPipe_AsyncIO h ;;
      if negb (is_success r) then ret r
      else
        modify (set_isPolling true) ;;
        ret kIOReturnSuccess.

(** [StopInputPolling] *)
Definition StopInputPolling : Drv unit :=
  s <- get ;;
  if negb (isPolling s) then ret tt
  else
    modify (set_isPolling false) ;;
    (if inputPipe s then emit InputAbort else ret tt).

(** [ParseInputReport(data, length)]: checks the size and the report
    identifier, then stores the report for change detection. *)
Definition ParseInputReport (data : list Z) (length : Z) : Drv unit :=
  if length <? sizeof_BigbenInputReport then ret tt
  else
    if negb (nth 0 data 0 =? BIGBEN_REPORT_ID_INPUT) then ret tt
    else
      modify (set_lastReport (firstn 64 data)) ;;
      modify (set_hasLastReport true).

(** [handleReport]: forwards to the parent class. *)
Definition handleReport (timestamp : Z) (report : list Z) (reportLength : Z)
  : Drv unit :=
  emit (HandleReport timestamp report reportLength).

(** The re-arm at the end of both branches of [ReadComplete]:
    [if (isPolling && deviceConnected) { ret = AsyncIO(...);
       if (ret != kIOReturnSuccess) isPolling = false; }] *)
Definition rearm (h : Host) : Drv unit :=
  s <- get ;;
  if isPolling s && deviceConnected s then
    r <- inputPipe_AsyncIO h ;;
    if negb (is_success r) then modify (set_isPolling false) else ret tt
  else ret tt.

(** [ReadComplete(action, status, actualByteCount)] *)
Definition ReadComplete (h : Host) (status : IOReturn) (actualByteCount : Z)
  : Drv unit :=
  if is_aborted status || is_not_responding status then ret tt
  else
    if negb (is_success status) then
      incr_reportErrors ;;
      rearm h
    else
      (if actualByteCount <? sizeof_BigbenInputReport then
         incr_reportErrors
       else
         deref inputBuffer
           (if is_success (fst (Map_inputBuffer h))
               && negb (snd (Map_inputBuffer h) =? 0)
            then
              ParseInputReport (inputData h) actualByteCount ;;
              incr_reportsReceived ;;
              handleReport (mach_absolute_time h) (inputData h) actualByteCount
            else ret tt)) ;;
      rearm h.

(** [WriteComplete] *)
Definition WriteComplete (status : IOReturn) (actualByteCount : Z) : Drv unit :=
  if negb (is_success status) then ret tt
  else incr_outputReportsSent.

(** [CleanupResources] *)
Definition CleanupResources : Drv unit :=
  modify (set_readAction false) ;;
  modify (set_writeAction false) ;;
  modify (set_inputBuffer false) ;;
  modify (set_outputBuffer false) ;;
  modify (set_hidDescriptor false) ;;
  modify (set_inputPipe false) ;;
  modify (set_outputPipe false) ;;
  s <- get ;;
  if interface s then
    emit InterfaceClose ;;
    modify (set_interface false)
  else ret tt.

(** A step of [Start] that returns a code: on failure the parent is
    stopped and the code returned, otherwise [Start] goes on. *)
Definition or_stop (step : Drv IOReturn) (k : Drv IOReturn) : Drv IOReturn :=
  r <- step ;;
  if negb (is_success r) then emit SuperStop ;; ret r
  else k.

(** [Start(provider)], for allocated instance variables. *)
Definition Start (p : Provider) (h : Host) : Drv IOReturn :=
  if negb (is_success (super_Start p)) then ret (super_Start p)
  else
    modify (set_interface (cast_interface p)) ;;
    if negb (cast_interface p) then emit SuperStop ;; ret kIOReturnNotFound
    else
      or_stop ConfigureDevice
      (or_stop (OpenInterface p)
      (or_stop (SetupInterruptInEndpoint p)
      (or_stop (SetupInterruptOutEndpoint p)
      (or_stop (CreateHIDReportDescriptor p)
      (or_stop (StartInputPolling h)
        (modify (set_isStarted true) ;;
         modify (set_deviceConnected true) ;;
         emit RegisterService ;;
         ret kIOReturnSuccess)))))).

(** [Stop(provider)], for allocated instance variables. *)
Definition Stop (p : Provider) : Drv IOReturn :=
  modify (set_isStarted false) ;;
  modify (set_deviceConnected false) ;;
  StopInputPolling ;;
  CleanupResources ;;
  emit SuperStop ;;
  ret (super_Stop p).

(** One completion as the transport delivers it. *)
Record Completion := mkCompletion {
  c_host : Host;
  c_status : IOReturn;
  c_actualByteCount : Z
}.

(** The completions of a list delivered one after the other (the
    runtime dispatches them serially). *)
Fixpoint deliver (cs : list Completion) : Drv unit :=
  match cs with
  | [] => ret tt
  | c :: cs' =>
    ReadComplete (c_host c) (c_status c) (c_actualByteCount c) ;;
    deliver cs'
  end.

End BigbenUSBDriver.

(* ===================================================================== *)
(** ** Reading the effects of a run *)
(* ===================================================================== *)

Module Trace.
Import CInt Protocol IOKit BigbenUSBDriver.

(** An effect that submits a read to the input pipe. *)
Definition is_arm (e : Effect) : bool :=
  match e with InputAsyncIO _ => true | _ => false end.

(** An effect that hands a report to the host-report sink. *)
Definition is_delivery (e : Effect) : bool :=
  match e with HandleReport _ _ _ => true | _ => false end.

(** The disconnect statuses of [ReadComplete]. *)
Definition is_disconnect (status : IOReturn) : bool :=
  is_aborted status || is_not_responding status.

(** The state [ParseInputReport] leaves for a full-size buffer. *)
Definition parsed (data : list Z) (s : IVars) : IVars :=
  if nth 0 data 0 =? BIGBEN_REPORT_ID_INPUT
  then set_hasLastReport true (set_lastReport (firstn 64 data) s)
  else s.

End Trace.

(* ===================================================================== *)
(** ** Concrete runs used below *)
(* ===================================================================== *)

Module Scenario.
Import CInt Protocol IOKit BigbenUSBDriver.
Local Open Scope drv_scope.

(** A runtime in which every set-up call succeeds. *)
Definition provider : Provider :=
  {| super_Start := kIOReturnSuccess;
     super_Stop := kIOReturnSuccess;
     cast_interface := true;
     interface_Open := kIOReturnSuccess;
     CopyPipe_input := (kIOReturnSuccess, true);
     Create_inputBuffer := (kIOReturnSuccess, true);
     CreateActionReadComplete := (kIOReturnSuccess, true);
     CopyPipe_output := (kIOReturnSuccess, true);
     Create_outputBuffer := (kIOReturnSuccess, true);
     CreateActionWriteComplete := (kIOReturnSuccess, true);
     Create_hidDescriptor := (kIOReturnSuccess, true);
     cast_hidDescriptor := true;
     Map_hidDescriptor := kIOReturnSuccess |}.

(** A neutral 64-byte input report carrying report identifier [id]:
    sticks centred, D-pad released, no button, triggers released. *)
Definition report (id : Z) : list Z :=
  [id; 128; 128; 128; 128; 8; 0; 0; 0; 0] ++ repeat 0 54.

(** A transport that accepts every read and whose buffer holds
    [report id]. *)
Definition host (id : Z) : Host :=
  {| AsyncIO_input := kIOReturnSuccess;
     Map_inputBuffer := (kIOReturnSuccess, 4096);
     inputData := report id;
     mach_absolute_time := 1000 |}.

(** A transport whose pipe refuses every read. *)
Definition refusing_host : Host :=
  {| AsyncIO_input := kIOReturnNotResponding;
     Map_inputBuffer := (kIOReturnSuccess, 4096);
     inputData := report 1;
     mach_absolute_time := 1000 |}.

(** The instance variables [Start] leaves when everything succeeds:
    all objects present, polling, connected, nothing received yet. *)
Definition started : IVars :=
  {| interface := true; inputPipe := true; outputPipe := true;
     inputBuffer := true; outputBuffer := true; hidDescriptor := true;
     readAction := true; writeAction := true;
     isStarted := true; isPolling := true; deviceConnected := true;
     lastReport := repeat 0 64; hasLastReport := false;
     reportsReceived := 0; reportErrors := 0; outputReportsSent := 0 |}.

(** [started] after [StopInputPolling]. *)
Definition stopped : IVars := set_isPolling false started.

(** [started] after [Stop]: every object released, all three flags
    cleared, statistics and cache kept. *)
Definition released : IVars :=
  {| interface := false; inputPipe := false; outputPipe := false;
     inputBuffer := false; outputBuffer := false; hidDescriptor := false;
     readAction := false; writeAction := false;
     isStarted := false; isPolling := false; deviceConnected := false;
     lastReport := repeat 0 64; hasLastReport := false;
     reportsReceived := 0; reportErrors := 0; outputReportsSent := 0 |}.

(** An instance of the HID device with a USB driver attached. *)
Definition hid : BigbenHIDDevice.IVars :=
  {| BigbenHIDDevice.usbDriver := true;
     BigbenHIDDevice.reportDescriptor := true;
     BigbenHIDDevice.currentLEDState := 1;
     BigbenHIDDevice.isStarted := true;
     BigbenHIDDevice.translator := InputTranslator.new;
     BigbenHIDDevice.lastReport := InputTranslator.initializeNeutralReport;
     BigbenHIDDevice.hasValidReport := false |}.

End Scenario.

(* ===================================================================== *)
(** ** [InputTranslator.h]: button queries *)
(* ===================================================================== *)

Module HIDButton.
Import CInt Protocol.

(** The enumerators of [HIDButton] are the bit indices 0 to 15. *)
Definition HID_BTN_A : Z := 0.
Definition HID_BTN_START : Z := 9.
Definition HID_BTN_HOME : Z := 12.
Definition HID_BTN_RESERVED_14 : Z := 13.
Definition HID_BTN_RESERVED_16 : Z := 15.

(** [InputTranslator::isButtonPressed(report, button)]; [report] is
    [None] for a null pointer. *)
Definition isButtonPressed (report : option BigbenHIDReport) (button : Z) : bool :=
  match report with
  | None => false
  | Some r =>
    if button >? HID_BTN_RESERVED_16 then false
    else negb (Z.land (buttons r) (Z.shiftl 1 button) =? 0)
  end.

End HIDButton.

(* ===================================================================== *)
(** ** [BigbenHIDDevice.cpp]: report handling *)
(* ===================================================================== *)

Module BigbenHIDDeviceIO.
Import CInt Protocol IOKit BigbenHIDDevice.

(** [kIOReturnNoSpace], one of the codes outside the named ones. *)
Definition kIOReturnNoSpace : IOReturn := kIOReturnOther 0xe00002db.

Definition BIGBEN_LED_1 : Z := 1.

(** [sizeof(BigbenHIDReport)]: 1+2+1+1+1+1+1+1+1, and the two output
    structures. *)
Definition sizeof_BigbenHIDReport : Z := 10.
Definition sizeof_BigbenLEDReport : Z := 8.
Definition sizeof_BigbenRumbleReport : Z := 8.

Inductive IOHIDReportType : Type :=
| kIOHIDReportTypeInput
| kIOHIDReportTypeOutput
| kIOHIDReportTypeFeature.

Definition is_input (t : IOHIDReportType) : bool :=
  match t with kIOHIDReportTypeInput => true | _ => false end.
Definition is_output (t : IOHIDReportType) : bool :=
  match t with kIOHIDReportTypeOutput => true | _ => false end.

(** An [IOMemoryDescriptor] handed in by the caller: what [Map] returns
    on it and the bytes it holds; the mapped length is their number. *)
Record MemoryDescriptor := mkMemory {
  Map_ret : IOReturn;
  mem_bytes : list Z
}.

Definition mem_length (m : MemoryDescriptor) : Z := Z.of_nat (length (mem_bytes m)).

(** Byte [i] of a buffer. *)
Definition byte_at (data : list Z) (i : nat) : Z := nth i data 0.

(** The 64 bytes of a buffer read as a [BigbenInputReport].  The struct
    is packed; [buttons] is read as the host reads a [uint16_t], low byte
    first (the driver's hosts are little-endian). *)
Definition as_BigbenInputReport (data : list Z) : BigbenInputReport :=
  {| in_reportId := byte_at data 0;
     in_leftStickX := byte_at data 1;
     in_leftStickY := byte_at data 2;
     in_rightStickX := byte_at data 3;
     in_rightStickY := byte_at data 4;
     in_dpad := byte_at data 5;
     in_buttons := byte_at data 6 + 256 * byte_at data 7;
     in_leftTrigger := byte_at data 8;
     in_rightTrigger := byte_at data 9;
     in_reserved := firstn 54 (skipn 10 data) |}.

(** What the device does to the outside. *)
Inductive Effect : Type :=
| CompleteReport (status : IOReturn) (actualByteCount : Z)
    (** [CompleteReport(action, status, actualByteCount)] *)
| HandleReport (timestamp : Z) (report : BigbenHIDReport)
    (** [handleReport(timestamp, reportBuffer, Input, None)] with the
        report copied into [reportBuffer] *)
| RegisterService.

(** [init()]: the instance variables are allocated zero-filled, then
    assigned.  [translator] is not assigned, it keeps the zero bytes. *)
Definition init : IVars :=
  {| usbDriver := false;
     reportDescriptor := false;
     currentLEDState := BIGBEN_LED_1;
     isStarted := false;
     translator := {| InputTranslator.m_deadzone := 0;
                      InputTranslator.m_triggerDeadzone := 0 |};
     lastReport := InputTranslator.initializeNeutralReport;
     hasValidReport := false |}.

(** [setUSBDriver(driver)], for allocated instance variables. *)
Definition setUSBDriver (driver : bool) (iv : IVars) : IVars :=
  {| usbDriver := driver;
     reportDescriptor := reportDescriptor iv;
     currentLEDState := currentLEDState iv;
     isStarted := isStarted iv;
     translator := translator iv;
     lastReport := lastReport iv;
     hasValidReport := hasValidReport iv |}.

(** What the runtime answers during [Start]. *)
Record StartHost := mkStartHost {
  super_Start : IOReturn;
  newReportDescriptor_ok : bool;
  Create_descriptorBuffer : IOReturn * bool;
  RegisterService_ret : IOReturn
}.

(** [Start(provider)], for allocated instance variables: the returned
    code, the instance variables and the effects. *)
Definition Start (h : StartHost) (iv : IVars) : IOReturn * IVars * list Effect :=
  if negb (is_success (super_Start h)) then (super_Start h, iv, [])
  else
    let cached :=
      if newReportDescriptor_ok h then
        if is_success (fst (Create_descriptorBuffer h))
           && snd (Create_descriptorBuffer h)
        then true
        else reportDescriptor iv
      else reportDescriptor iv in
    (kIOReturnSuccess,
     {| usbDriver := usbDriver iv;
        reportDescriptor := cached;
        currentLEDState := currentLEDState iv;
        isStarted := true;
        translator := translator iv;
        lastReport := lastReport iv;
        hasValidReport := hasValidReport iv |},
     [RegisterService]).

(** [Stop(provider)], for allocated instance variables; the code is the
    parent's. *)
Definition Stop (super_Stop : IOReturn) (iv : IVars) : IOReturn * IVars :=
  (super_Stop,
   {| usbDriver := usbDriver iv;
      reportDescriptor := reportDescriptor iv;
      currentLEDState := currentLEDState iv;
      isStarted := false;
      translator := translator iv;
      lastReport := lastReport iv;
      hasValidReport := hasValidReport iv |}).

(** [sendLEDToUSB(ledMask)], for allocated instance variables: the
    returned code, the instance variables and, when control reaches it,
    the local [ledReport]. *)
Definition sendLEDToUSB (iv : IVars) (ledMask : Z)
  : IOReturn * IVars * option BigbenLEDReport :=
  let iv' :=
    {| usbDriver := usbDriver iv;
       reportDescriptor := reportDescriptor iv;
       currentLEDState := ledMask;
       isStarted := isStarted iv;
       translator := translator iv;
       lastReport := lastReport iv;
       hasValidReport := hasValidReport iv |} in
  if negb (usbDriver iv) then (kIOReturnNotReady, iv', None)
  else
    let ledReport :=
      {| lr_reportId := BIGBEN_REPORT_ID_LED;
         lr_reserved1 := 0x08;
         lr_ledState := ledMask;
         lr_padding := [0; 0; 0; 0; 0] |} in
    (kIOReturnSuccess, iv', Some ledReport).

(** The frame a call of [setReport] built for the USB side. *)
Inductive OutputFrame : Type :=
| LEDFrame (f : BigbenLEDReport)
| RumbleFrame (f : BigbenRumbleReport).

(** The bytes of an LED report in memory order. *)
Definition led_bytes (r : BigbenLEDReport) : list Z :=
  [lr_reportId r; lr_reserved1 r; lr_ledState r] ++ lr_padding r.

Definition frame_bytes (f : OutputFrame) : list Z :=
  match f with
  | LEDFrame r => led_bytes r
  | RumbleFrame r => rumble_bytes r
  end.

(** The [switch] of [setReport] on a non-empty mapped payload: code,
    instance variables and the frame built. *)
Definition dispatch_output (iv : IVars) (data : list Z) (length : Z)
  : IOReturn * IVars * option OutputFrame :=
  let reportID := byte_at data 0 in
  if reportID =? BIGBEN_REPORT_ID_LED then
    if length >=? sizeof_BigbenLEDReport then
      match sendLEDToUSB iv (byte_at data 2) with
      | (r, iv', f) => (r, iv', option_map LEDFrame f)
      end
    else (kIOReturnUnderrun, iv, None)
  else if reportID =? BIGBEN_REPORT_ID_RUMBLE then
    if length >=? sizeof_BigbenRumbleReport then
      match sendRumbleToUSB (Some iv) (byte_at data 3) (byte_at data 2) with
      | (r, f) => (r, iv, option_map RumbleFrame f)
      end
    else (kIOReturnUnderrun, iv, None)
  else (kIOReturnUnsupported, iv, None).

(** [setReport(report, reportType, options, completionTimeout, action)],
    for allocated instance variables.  [report] is [None] for a null
    pointer, [action] tells whether a completion action was given. *)
Definition setReport (iv : IVars) (report : option MemoryDescriptor)
    (reportType : IOHIDReportType) (action : bool)
  : IOReturn * IVars * option OutputFrame * list Effect :=
  match report with
  | None => (kIOReturnBadArgument, iv, None, [])
  | Some m =>
    if negb (is_output reportType) then (kIOReturnUnsupported, iv, None, [])
    else if negb (is_success (Map_ret m)) then (Map_ret m, iv, None, [])
    else if mem_length m <? 1 then (kIOReturnUnderrun, iv, None, [])
    else
      match dispatch_output iv (mem_bytes m) (mem_length m) with
      | (r, iv', f) =>
        (r, iv', f, if action then [CompleteReport r (mem_length m)] else [])
      end
  end.

(** [getReport(report, reportType, options, completionTimeout, action)]:
    the returned code, the report copied into the caller's buffer (when
    the copy is reached) and the effects.  [iv] is [None] for null
    instance variables. *)
Definition getReport (iv : option IVars) (report : option MemoryDescriptor)
    (reportType : IOHIDReportType) (options : Z) (action : bool)
  : IOReturn * option BigbenHIDReport * list Effect :=
  match report with
  | None => (kIOReturnBadArgument, None, [])
  | Some m =>
    if negb (is_input reportType) then (kIOReturnUnsupported, None, [])
    else
      let reportID := uint8 (Z.land options 0xFF) in
      if negb (reportID =? 0) && negb (reportID =? BIGBEN_REPORT_ID_INPUT)
      then (kIOReturnUnsupported, None, [])
      else
        let reportToSend :=
          match iv with
          | Some v =>
            if hasValidReport v then lastReport v
            else InputTranslator.initializeNeutralReport
          | None => InputTranslator.initializeNeutralReport
          end in
        if negb (is_success (Map_ret m)) then (Map_ret m, None, [])
        else if mem_length m <? sizeof_BigbenHIDReport
        then (kIOReturnNoSpace, None, [])
        else
          (kIOReturnSuccess, Some reportToSend,
           if action
           then [CompleteReport kIOReturnSuccess sizeof_BigbenHIDReport]
           else [])
  end.

(** What the runtime answers during [handleInputReport]. *)
Record InputHost := mkInputHost {
  Create_reportBuffer : IOReturn * bool;
  Map_reportBuffer : IOReturn * Z;
  handleReport_ret : IOReturn;
  mach_absolute_time : Z
}.

(** [handleInputReport(inputData, length)].  [iv] is [None] for null
    instance variables (they are then returned as they came), [inputData]
    is [None] for a null pointer. *)
Definition handleInputReport (h : InputHost) (iv : option IVars)
    (inputData : option (list Z)) (length : Z)
  : IOReturn * option IVars * list Effect :=
  match iv with
  | None => (kIOReturnNotReady, None, [])
  | Some v =>
    if negb (isStarted v) then (kIOReturnNotReady, iv, [])
    else
      match inputData with
      | None => (kIOReturnBadArgument, iv, [])
      | Some data =>
        if length <? sizeof_BigbenInputReport then (kIOReturnUnderrun, iv, [])
        else
          let proprietaryReport := as_BigbenInputReport data in
          if negb (in_reportId proprietaryReport =? BIGBEN_REPORT_ID_INPUT)
          then (kIOReturnBadArgument, iv, [])
          else
            let hidReport := InputTranslator.translate (translator v) proprietaryReport in
            let v' :=
              {| usbDriver := usbDriver v;
                 reportDescriptor := reportDescriptor v;
                 currentLEDState := currentLEDState v;
                 isStarted := isStarted v;
                 translator := translator v;
                 lastReport := hidReport;
                 hasValidReport := true |} in
            if negb (is_success (fst (Create_reportBuffer h)))
               || negb (snd (Create_reportBuffer h))
            then (fst (Create_reportBuffer h), Some v', [])
            else
              if is_success (fst (Map_reportBuffer h))
                 && negb (snd (Map_reportBuffer h) =? 0)
              then (handleReport_ret h, Some v',
                    [HandleReport (mach_absolute_time h) hidReport])
              else (fst (Map_reportBuffer h), Some v', [])
      end
  end.

End BigbenHIDDeviceIO.

(* ===================================================================== *)
(** ** [BigbenUSBDriver.cpp]: output reports and report queries *)
(* ===================================================================== *)

Module BigbenUSBDriverReports.
Import CInt Protocol IOKit BigbenUSBDriver.
Import BigbenHIDDeviceIO (IOHIDReportType, kIOHIDReportTypeInput,
  kIOHIDReportTypeOutput, kIOHIDReportTypeFeature, is_input, is_output,
  MemoryDescriptor, mkMemory, Map_ret, mem_bytes, mem_length, byte_at).

(** What the transport answers during [SendOutputReport]: the code of
    [Map] on the output buffer and of [AsyncIO] on the output pipe. *)
Record OutputHost := mkOutputHost {
  Map_outputBuffer : IOReturn;
  AsyncIO_output : IOReturn
}.

(** [outputPipe->AsyncIO(outputBuffer, 8, writeAction, 0)] with the
    eight bytes the output buffer holds at the call, and the code it
    returned. *)
Inductive OutputEffect : Type :=
| OutputAsyncIO (frame : list Z) (ret : IOReturn).

(** [SendOutputReport(data, length)].  The instance variables are not
    changed. *)
Definition SendOutputReport (h : OutputHost) (s : IVars)
    (data : list Z) (length : Z) : IOReturn * list OutputEffect :=
  if negb (outputPipe s) || negb (outputBuffer s) then (kIOReturnNotFound, [])
  else if length >? kBigbenOutputReportSize then (kIOReturnBadArgument, [])
  else if negb (is_success (Map_outputBuffer h)) then (Map_outputBuffer h, [])
  else
    let frame :=
      firstn (Z.to_nat length) data
      ++ (if length <? kBigbenOutputReportSize
          then repeat 0 (Z.to_nat (kBigbenOutputReportSize - length))
          else []) in
    if negb (is_success (AsyncIO_output h))
    then (AsyncIO_output h, [OutputAsyncIO frame (AsyncIO_output h)])
    else (kIOReturnSuccess, [OutputAsyncIO frame (AsyncIO_output h)]).

(** [setReport(report, reportType, options)] *)
Definition setReport (h : OutputHost) (s : IVars)
    (report : option MemoryDescriptor) (reportType : IOHIDReportType)
    (options : Z) : IOReturn * list OutputEffect :=
  match report with
  | None => (kIOReturnBadArgument, [])
  | Some m =>
    if negb (is_output reportType) then (kIOReturnUnsupported, [])
    else
      let reportID := uint8 (Z.land options 0xFF) in
      if negb (is_success (Map_ret m)) then (Map_ret m, [])
      else
        let data := mem_bytes m in
        let length := mem_length m in
        if (reportID =? BIGBEN_REPORT_ID_LED)
           || ((length >? 0) && (byte_at data 0 =? BIGBEN_REPORT_ID_LED))
        then SendOutputReport h s data length
        else
          if (reportID =? BIGBEN_REPORT_ID_RUMBLE)
             || ((length >? 0) && (byte_at data 0 =? BIGBEN_REPORT_ID_RUMBLE))
          then SendOutputReport h s data length
          else (kIOReturnUnsupported, [])
  end.

(** [getReport(report, reportType, options)]: the returned code and the
    bytes [memcpy] wrote at the start of the caller's buffer. *)
Definition getReport (s : IVars) (report : option MemoryDescriptor)
    (reportType : IOHIDReportType) (options : Z)
  : IOReturn * option (list Z) :=
  match report with
  | None => (kIOReturnBadArgument, None)
  | Some m =>
    let reportID := uint8 (Z.land options 0xFF) in
    if is_input reportType && (reportID =? BIGBEN_REPORT_ID_INPUT) then
      if negb (hasLastReport s) then (kIOReturnNotReady, None)
      else
        if negb (is_success (Map_ret m)) then (Map_ret m, None)
        else
          let copyLength :=
            if mem_length m <? sizeof_BigbenInputReport
            then mem_length m else sizeof_BigbenInputReport in
          (kIOReturnSuccess, Some (firstn (Z.to_nat copyLength) (lastReport s)))
    else (kIOReturnUnsupported, None)
  end.

End BigbenUSBDriverReports.

(* ===================================================================== *)
(** ** [BigbenUSB.c]: the user-space library *)
(* ===================================================================== *)

Module BigbenUSB.
Import CInt.

(** [LIBUSB_ERROR_TIMEOUT] of [libusb.h]. *)
Definition LIBUSB_ERROR_TIMEOUT : Z := -7.

(** The XInput report of [BigbenUSB.h] (packed, 20 bytes). *)
Record BigbenInputReport := mkXInput {
  report_id : Z;
  report_size : Z;
  buttons : Z;
  left_trigger : Z;
  right_trigger : Z;
  left_stick_x : Z;
  left_stick_y : Z;
  right_stick_x : Z;
  right_stick_y : Z;
  reserved : list Z
}.

(** [data[i]] of the 64-byte receive array. *)
Definition at_ (data : list Z) (i : nat) : Z := nth i data 0.

(** [data[i] | (data[i+1] << 8)], computed on [int]. *)
Definition le16 (data : list Z) (i : nat) : Z :=
  Z.lor (at_ data i) (Z.shiftl (at_ data (S i)) 8).

(** The assignments of [bigben_poll] for [transferred >= 14]. *)
Definition parse (data : list Z) (report : BigbenInputReport) : BigbenInputReport :=
  {| report_id := at_ data 0;
     report_size := at_ data 1;
     buttons := uint16 (le16 data 2);
     left_trigger := at_ data 4;
     right_trigger := at_ data 5;
     left_stick_x := int16 (le16 data 6);
     left_stick_y := int16 (le16 data 8);
     right_stick_x := int16 (le16 data 10);
     right_stick_y := int16 (le16 data 12);
     reserved := reserved report |}.

(** One interrupt transfer as libusb completes it: the returned code,
    the receive array and the number of bytes transferred. *)
Record Transfer := mkTransfer {
  t_ret : Z;
  t_data : list Z;
  t_transferred : Z
}.

(** [bigben_poll(controller, report, timeout_ms)].  [handle] is [None]
    for a null controller and [Some false] for a controller without a
    device handle; [report] is [None] for a null pointer.  The result is
    the returned code and [*report] afterwards. *)
Definition bigben_poll (handle : option bool) (report : option BigbenInputReport)
    (t : Transfer) : Z * option BigbenInputReport :=
  match handle, report with
  | Some true, Some rep =>
    if t_ret t =? LIBUSB_ERROR_TIMEOUT then (t_ret t, report)
    else if t_ret t <? 0 then (t_ret t, report)
    else
      if t_transferred t >=? 14 then (0, Some (parse (t_data t) rep))
      else (0, report)
  | _, _ => (-1, report)
  end.

(** The bounds of [int] (32 bits on the targets of this library). *)
Definition INT_MAX : Z := 2147483647.
Definition INT_MIN : Z := -2147483648.

(** The two file-scope variables: [usb_ctx] (kept as "is not null") and
    [init_count], an [int]. *)
Record Globals := mkGlobals {
  usb_ctx : bool;
  init_count : Z
}.

Inductive LibCall : Type :=
| libusb_init
| libusb_exit.

(** What [libusb_init(&usb_ctx)] does: its code and whether it left a
    context in [usb_ctx]. *)
Record InitAnswer := mkInitAnswer {
  init_ret : Z;
  init_ctx : bool
}.

(** [bigben_init()].  [init_count++] on [INT_MAX] overflows a signed
    [int]; C leaves that undefined, and the result is [None] there. *)
Definition bigben_init (a : InitAnswer) (g : Globals)
  : option (Z * Globals * list LibCall) :=
  if INT_MAX <=? init_count g then None
  else
    if init_count g >? 0
    then Some (0, {| usb_ctx := usb_ctx g; init_count := init_count g + 1 |}, [])
    else
      if init_ret a <? 0
      then Some (init_ret a,
                 {| usb_ctx := init_ctx a; init_count := init_count g + 1 - 1 |},
                 [libusb_init])
      else Some (0, {| usb_ctx := init_ctx a; init_count := init_count g + 1 |},
                 [libusb_init]).

(** [bigben_cleanup()].  [--init_count] on [INT_MIN] overflows likewise
    and gives [None]. *)
Definition bigben_cleanup (g : Globals) : option (Globals * list LibCall) :=
  if init_count g <=? INT_MIN then None
  else
    if init_count g - 1 >? 0
    then Some ({| usb_ctx := usb_ctx g; init_count := init_count g - 1 |}, [])
    else
      if usb_ctx g
      then Some ({| usb_ctx := false; init_count := 0 |}, [libusb_exit])
      else Some ({| usb_ctx := false; init_count := 0 |}, []).

(** [n] calls of [bigben_init] answered by [a], and [n] calls of
    [bigben_cleanup]: the globals and the library calls, in order. *)
Fixpoint init_times (a : InitAnswer) (n : nat) (g : Globals)
  : option (Globals * list LibCall) :=
  match n with
  | O => Some (g, [])
  | S n' =>
    match bigben_init a g with
    | Some (_, g1, c1) =>
      match init_times a n' g1 with
      | Some (g2, c2) => Some (g2, c1 ++ c2)
      | None => None
      end
    | None => None
    end
  end.

Fixpoint cleanup_times (n : nat) (g : Globals) : option (Globals * list LibCall) :=
  match n with
  | O => Some (g, [])
  | S n' =>
    match bigben_cleanup g with
    | Some (g1, c1) =>
      match cleanup_times n' g1 with
      | Some (g2, c2) => Some (g2, c1 ++ c2)
      | None => None
      end
    | None => None
    end
  end.

End BigbenUSB.

(* ===================================================================== *)
(** ** Checking a property on every byte *)
(* ===================================================================== *)

Module Bytes.
Import CInt.

(** The integers [0 .. n-1]. *)
Definition upto (n : nat) : list Z := map Z.of_nat (seq 0 n).

(** [P] holds of every value of a [uint8_t]. *)
Definition all_bytes (P : Z -> bool) : bool := forallb P (upto 256).

(** [P] holds of every pair of [uint8_t] values. *)
Definition all_byte_pairs (P : Z -> Z -> bool) : bool :=
  all_bytes (fun a => all_bytes (P a)).

End Bytes.

(* ===================================================================== *)
(** ** Values that fit their C types *)
(* ===================================================================== *)

Module WellFormed.
Import CInt Protocol InputTranslator.
Import BigbenHIDDevice.

(** A proprietary report whose byte fields are bytes and whose button
    field is a 16-bit value. *)
Definition input_ok (i : BigbenInputReport) : Prop :=
  is_uint8 (in_leftStickX i) /\ is_uint8 (in_leftStickY i)
  /\ is_uint8 (in_rightStickX i) /\ is_uint8 (in_rightStickY i)
  /\ is_uint8 (in_dpad i) /\ is_uint16 (in_buttons i)
  /\ is_uint8 (in_leftTrigger i) /\ is_uint8 (in_rightTrigger i).

(** A configuration held in two [uint8_t] members. *)
Definition config_ok (tr : InputTranslator.t) : Prop :=
  is_uint8 (m_deadzone tr) /\ is_uint8 (m_triggerDeadzone tr).

(** With a deadzone of at most 127, [translate] keeps both extremes of
    each of the four stick axes. *)
Definition keeps_extremes (tr : InputTranslator.t) : Prop :=
  forall i : BigbenInputReport,
    let o := translate tr i in
    (in_leftStickX i = 255 -> leftStickX o = 255)
    /\ (in_leftStickX i = 0 -> leftStickX o = 0)
    /\ (in_leftStickY i = 255 -> leftStickY o = 255)
    /\ (in_leftStickY i = 0 -> leftStickY o = 0)
    /\ (in_rightStickX i = 255 -> rightStickX o = 255)
    /\ (in_rightStickX i = 0 -> rightStickX o = 0)
    /\ (in_rightStickY i = 255 -> rightStickY o = 255)
    /\ (in_rightStickY i = 0 -> rightStickY o = 0).

(** The fields [setReport] never assigns. *)
Definition same_but_led (iv iv' : IVars) : Prop :=
  usbDriver iv' = usbDriver iv
  /\ reportDescriptor iv' = reportDescriptor iv
  /\ isStarted iv' = isStarted iv
  /\ translator iv' = translator iv
  /\ lastReport iv' = lastReport iv
  /\ hasValidReport iv' = hasValidReport iv.

(** The report identifier [getReport] reads from [options] is 0 or 1. *)
Definition input_id (options : Z) : Prop :=
  uint8 (Z.land options 0xFF) = 0
  \/ uint8 (Z.land options 0xFF) = BIGBEN_REPORT_ID_INPUT.

End WellFormed.

(* ===================================================================== *)
(** ** Sample devices, buffers and answers *)
(* ===================================================================== *)

Module Samples.
Import CInt Protocol IOKit.

(** A 64-byte input report: left stick pushed right (200), D-pad right,
    buttons A and Start (bits 0 and 9), right trigger fully pressed. *)
Definition pressed : list Z :=
  [1; 200; 128; 128; 128; 2; 1; 2; 0; 255] ++ repeat 0 54.

(** The HID device after [init] and a [Start] in which everything
    succeeds. *)
Definition hid_started : BigbenHIDDevice.IVars :=
  snd (fst (BigbenHIDDeviceIO.Start
              (BigbenHIDDeviceIO.mkStartHost kIOReturnSuccess true
                 (kIOReturnSuccess, true) kIOReturnSuccess)
              BigbenHIDDeviceIO.init)).

(** A runtime that delivers reports, and one that cannot allocate the
    report buffer. *)
Definition input_host : BigbenHIDDeviceIO.InputHost :=
  BigbenHIDDeviceIO.mkInputHost (kIOReturnSuccess, true)
    (kIOReturnSuccess, 4096) kIOReturnSuccess 7.
Definition starved_host : BigbenHIDDeviceIO.InputHost :=
  BigbenHIDDeviceIO.mkInputHost (kIOReturnNoMemory, false)
    (kIOReturnSuccess, 4096) kIOReturnSuccess 7.

(** A caller's buffer of [n] zero bytes that maps. *)
Definition buffer (n : nat) : BigbenHIDDeviceIO.MemoryDescriptor :=
  BigbenHIDDeviceIO.mkMemory kIOReturnSuccess (repeat 0 n).

(** A runtime in which every set-up call succeeds except that the
    device has no output pipe. *)
Definition provider_without_output : BigbenUSBDriver.Provider :=
  BigbenUSBDriver.mkProvider kIOReturnSuccess kIOReturnSuccess true
    kIOReturnSuccess (kIOReturnSuccess, true) (kIOReturnSuccess, true)
    (kIOReturnSuccess, true) (kIOReturnNotFound, false)
    (kIOReturnSuccess, true) (kIOReturnSuccess, true)
    (kIOReturnSuccess, true) true kIOReturnSuccess.

(** An output transport on which every call succeeds. *)
Definition output_host : BigbenUSBDriverReports.OutputHost :=
  BigbenUSBDriverReports.mkOutputHost kIOReturnSuccess kIOReturnSuccess.

End Samples.

(* ===================================================================== *)
(** ** Counting over a run of the read cycle *)
(* ===================================================================== *)

Module Accounting.
Import CInt Protocol IOKit BigbenUSBDriver Trace.

(** The number of reads submitted and of reports delivered in a list of
    effects. *)
Definition arms (e : list Effect) : nat := length (filter is_arm e).
Definition deliveries (e : list Effect) : nat := length (filter is_delivery e).

(** The completions [ReadComplete] counts as errors: a status other than
    success, aborted and not responding, or a successful read of fewer
    than 64 bytes. *)
Definition is_error_completion (c : Completion) : bool :=
  if is_disconnect (c_status c) then false
  else if is_success (c_status c)
       then c_actualByteCount c <? sizeof_BigbenInputReport
       else true.

Definition error_completions (cs : list Completion) : nat :=
  length (filter is_error_completion cs).

(** The cached report, when there is one, carries the input identifier. *)
Definition cache_ok (s : IVars) : Prop :=
  hasLastReport s = true -> nth 0 (lastReport s) 0 = BIGBEN_REPORT_ID_INPUT.

(** The three statistics hold values of a [uint64_t]. *)
Definition counters_ok (s : IVars) : Prop :=
  0 <= reportsReceived s < 18446744073709551616
  /\ 0 <= reportErrors s < 18446744073709551616
  /\ 0 <= outputReportsSent s < 18446744073709551616.

(** The eight object pointers of two states agree. *)
Definition same_objects (s s' : IVars) : Prop :=
  interface s' = interface s /\ inputPipe s' = inputPipe s
  /\ outputPipe s' = outputPipe s /\ inputBuffer s' = inputBuffer s
  /\ outputBuffer s' = outputBuffer s /\ hidDescriptor s' = hidDescriptor s
  /\ readAction s' = readAction s /\ writeAction s' = writeAction s.

(** Every object pointer is null. *)
Definition released (s : IVars) : Prop :=
  interface s = false /\ inputPipe s = false /\ outputPipe s = false
  /\ inputBuffer s = false /\ outputBuffer s = false
  /\ hidDescriptor s = false /\ readAction s = false /\ writeAction s = false.

(** The answers [Start] needs to succeed: every set-up call of the input
    side and of the descriptor, the first read, and, when the output pipe
    exists, its buffer and action. *)
Definition start_answers_ok (p : Provider) (h : Host) : bool :=
  is_success (super_Start p)
  && cast_interface p
  && is_success (interface_Open p)
  && negb (creation_failed (CopyPipe_input p))
  && negb (creation_failed (Create_inputBuffer p))
  && negb (creation_failed (CreateActionReadComplete p))
  && (creation_failed (CopyPipe_output p)
      || (negb (creation_failed (Create_outputBuffer p))
          && negb (creation_failed (CreateActionWriteComplete p))))
  && negb (creation_failed (Create_hidDescriptor p))
  && cast_hidDescriptor p
  && is_success (Map_hidDescriptor p)
  && is_success (AsyncIO_input h).

(** What [Start] leaves behind, by its returned code: on success a
    started, polling, connected driver with its input objects, one read
    submitted and accepted, and the service registered; on failure a
    driver neither started nor polling nor connected, no service
    registered and at most one read submitted. *)
Definition start_post (r : IOReturn) (s : IVars) (e : list Effect) : Prop :=
  (r = kIOReturnSuccess ->
   isStarted s = true /\ isPolling s = true /\ deviceConnected s = true
   /\ inputPipe s = true /\ inputBuffer s = true /\ readAction s = true
   /\ hidDescriptor s = true
   /\ e = [InputAsyncIO kIOReturnSuccess; RegisterService])
  /\ (r <> kIOReturnSuccess ->
      isStarted s = false /\ isPolling s = false /\ deviceConnected s = false
      /\ ~ In RegisterService e /\ (arms e <= 1)%nat).

End Accounting.

(* ===================================================================== *)
(** ** A sample run of the read cycle *)
(* ===================================================================== *)

Module SampleRun.
Import CInt Protocol IOKit BigbenUSBDriver.

(** Five completions on a transport that accepts every read: a full
    report, a transfer error, a short read, an abort, and a full-size
    buffer carrying identifier 2. *)
Definition completions : list Completion :=
  [ mkCompletion (Scenario.host 1) kIOReturnSuccess 64;
    mkCompletion (Scenario.host 1) (kIOReturnOther 5) 0;
    mkCompletion (Scenario.host 1) kIOReturnSuccess 20;
    mkCompletion (Scenario.host 1) kIOReturnAborted 0;
    mkCompletion (Scenario.host 2) kIOReturnSuccess 64 ].

End SampleRun.
(* ===================================================================== *)
(** * Properties *)
(* ===================================================================== *)

(** ** Facts on the integer conversions *)

Module CIntFacts.
Import CInt.

Lemma uint8_id z : is_uint8 z -> uint8 z = z.
Proof. unfold is_uint8, uint8; intros; apply Z.mod_small; lia. Qed.

Lemma uint16_id z : is_uint16 z -> uint16 z = z.
Proof. unfold is_uint16, uint16; intros; apply Z.mod_small; lia. Qed.

Lemma int16_id z : -32768 <= z <= 32767 -> int16 z = z.
Proof. unfold int16; intros; rewrite Z.mod_small; lia. Qed.

Lemma uint64_id z : 0 <= z < 18446744073709551616 -> uint64 z = z.
Proof. unfold uint64; intros; apply Z.mod_small; lia. Qed.

(** Masking with thirteen ones keeps a value below [2^13]. *)
Lemma land_0x1FFF_mod z : Z.land z 0x1FFF = z mod 8192.
Proof. change 0x1FFF with (Z.ones 13); rewrite Z.land_ones by lia; reflexivity. Qed.

Lemma land_0x1FFF_range z : 0 <= Z.land z 0x1FFF <= 8191.
Proof.
  rewrite land_0x1FFF_mod.
  pose proof (Z.mod_pos_bound z 8192 ltac:(lia)); lia.
Qed.

End CIntFacts.

(** ** The translator *)

Module InputTranslatorSpec.
Import CInt CIntFacts Protocol InputTranslator.

(** Turns the boolean tests of the C code into hypotheses. *)
Ltac cmp :=
  repeat match goal with
  | |- context [?a >? ?b] => rewrite (Z.gtb_ltb a b)
  | |- context [?a <? ?b] => destruct (Z.ltb_spec a b); try lia
  | |- context [?a =? ?b] => destruct (Z.eqb_spec a b); try lia
  end.

(** *** Buttons *)

Lemma translateButtons_land b : translateButtons b = Z.land b 0x1FFF.
Proof.
  unfold translateButtons.
  apply uint16_id; unfold is_uint16.
  pose proof (land_0x1FFF_range b); lia.
Qed.

Lemma translateButtons_high_bits b i :
  13 <= i -> Z.testbit (translateButtons b) i = false.
Proof.
  intros Hi; rewrite translateButtons_land.
  change 0x1FFF with (Z.ones 13).
  rewrite Z.land_spec, Z.ones_spec_high by lia.
  apply andb_false_r.
Qed.

Lemma translateButtons_low_bits b i :
  0 <= i < 13 -> Z.testbit (translateButtons b) i = Z.testbit b i.
Proof.
  intros Hi; rewrite translateButtons_land.
  change 0x1FFF with (Z.ones 13).
  rewrite Z.land_spec, Z.ones_spec_low by lia.
  apply andb_true_r.
Qed.

(** C8: for every 16-bit button value [b], [translateButtons b] is
    [b & 0x1FFF]: the low 13 bits pass through unchanged, bits 13 to 15
    are cleared, and [translateButtons 0xFFFF = 0x1FFF]. *)
Theorem C8_translateButtons_mask (b : Z) :
  is_uint16 b ->
  translateButtons b = Z.land b 0x1FFF
  /\ (forall i, 0 <= i < 13 ->
        Z.testbit (translateButtons b) i = Z.testbit b i)
  /\ (forall i, 13 <= i <= 15 -> Z.testbit (translateButtons b) i = false)
  /\ translateButtons 0xFFFF = 0x1FFF.
Proof.
  intros _; repeat split.
  - apply translateButtons_land.
  - intros i Hi; now apply translateButtons_low_bits.
  - intros i Hi; apply translateButtons_high_bits; lia.
Qed.

Lemma C8_translateButtons_mask_witness :
  is_uint16 0xA5F3
  /\ translateButtons 0xA5F3 = 0x05F3
  /\ Z.testbit (translateButtons 0xA5F3) 15 = false.
Proof.
  assert (H : is_uint16 0xA5F3) by (unfold is_uint16; lia).
  split; [exact H|].
  destruct (C8_translateButtons_mask 0xA5F3 H) as (E & _ & Hhigh & _).
  split; [rewrite E; reflexivity | apply Hhigh; lia].
Defined.

(** *** D-pad *)

(** C9: for every 8-bit direction code [d], the hat value is [d] itself
    when [d <= 8] and the neutral constant [8] when [d > 8]. *)
Theorem C9_translateDPadToHat_identity_or_neutral (d : Z) :
  is_uint8 d ->
  (d <= 8 -> translateDPadToHat d = d)
  /\ (d > 8 -> translateDPadToHat d = 8).
Proof.
  intros _; unfold translateDPadToHat, BIGBEN_DPAD_NEUTRAL,
    INPUT_TRANSLATOR_HAT_NEUTRAL.
  split; intros Hd; cmp; reflexivity.
Qed.

Lemma C9_translateDPadToHat_identity_or_neutral_witness :
  is_uint8 200 /\ translateDPadToHat 200 = 8.
Proof.
  assert (H : is_uint8 200) by (unfold is_uint8; lia).
  split; [exact H|].
  apply (C9_translateDPadToHat_identity_or_neutral 200 H); lia.
Defined.

(** *** Stick deadzone *)

Lemma applyDeadzone_max dz : 0 <= dz <= 127 -> applyDeadzone 255 dz = 255.
Proof.
  intros Hdz; unfold applyDeadzone, INPUT_TRANSLATOR_AXIS_CENTER,
    INPUT_TRANSLATOR_AXIS_MIN, INPUT_TRANSLATOR_AXIS_MAX.
  change (int16 (255 - 128)) with 127.
  replace (127 <? dz) with false by (symmetry; apply Z.ltb_ge; lia).
  rewrite andb_false_r.
  assert (Hq : (if (dz >? 0) && (dz <? 128)
                then if int16 (127 - dz) >? 0
                     then if 127 >? 0
                          then int16 (int16 (127 - dz) * 127 ÷ int16 (127 - dz))
                          else int16 (int16 (127 + dz) * 127 ÷ int16 (127 - dz))
                     else 127
                else 127) = 127).
  { rewrite (int16_id (127 - dz)) by lia.
    destruct ((dz >? 0) && (dz <? 128)); [|reflexivity].
    destruct (Z.gtb_spec (127 - dz) 0); [|reflexivity].
    change (127 >? 0) with true; cbv iota.
    rewrite (Z.mul_comm (127 - dz) 127), Z.quot_mul by lia.
    reflexivity. }
  cbv zeta. rewrite Hq. reflexivity.
Qed.

Lemma applyDeadzone_min dz : 0 <= dz <= 127 -> applyDeadzone 0 dz = 0.
Proof.
  intros Hdz; unfold applyDeadzone, INPUT_TRANSLATOR_AXIS_CENTER,
    INPUT_TRANSLATOR_AXIS_MIN, INPUT_TRANSLATOR_AXIS_MAX.
  change (int16 (0 - 128)) with (-128).
  replace (-128 >? - dz) with false by (symmetry; rewrite Z.gtb_ltb; apply Z.ltb_ge; lia).
  cbv zeta; rewrite andb_false_l.
  change (-128 >? 0) with false; cbv iota.
  rewrite (int16_id (127 - dz)), (int16_id (-128 + dz)) by lia.
  set (q := (-128 + dz) * 127 ÷ (127 - dz)).
  assert (Hoff : -16129 <= (if (dz >? 0) && (dz <? 128)
                 then if 127 - dz >? 0 then int16 q else -128
                 else -128) <= -128).
  { destruct ((dz >? 0) && (dz <? 128)); [|lia].
    destruct (Z.gtb_spec (127 - dz) 0); [|lia].
    assert (Hq : -16129 <= q <= -128).
    { unfold q.
      replace ((-128 + dz) * 127) with (- ((128 - dz) * 127)) by ring.
      rewrite Z.quot_opp_l by lia.
      pose proof (Z.quot_le_lower_bound ((128 - dz) * 127) (127 - dz) 128
                    ltac:(lia) ltac:(lia)).
      pose proof (Z.quot_le_upper_bound ((128 - dz) * 127) (127 - dz) 16129
                    ltac:(lia) ltac:(lia)).
      lia. }
    rewrite int16_id; lia. }
  set (off := if (dz >? 0) && (dz <? 128) then _ else _) in *.
  rewrite (int16_id (off + 128)) by lia.
  destruct (Z.ltb_spec (off + 128) 0); [reflexivity|].
  replace (off + 128) with 0 by lia. reflexivity.
Qed.

(** C7: for every stick deadzone [0 <= dz <= 127] the physical extremes
    are preserved: [applyDeadzone 255 dz = 255] and
    [applyDeadzone 0 dz = 0]. *)
Theorem C7_applyDeadzone_extremes (dz : Z) :
  0 <= dz <= 127 ->
  applyDeadzone 255 dz = 255 /\ applyDeadzone 0 dz = 0.
Proof.
  intros Hdz; split; [now apply applyDeadzone_max | now apply applyDeadzone_min].
Qed.

Lemma C7_applyDeadzone_extremes_witness :
  0 <= 12 <= 127 /\ applyDeadzone 255 12 = 255 /\ applyDeadzone 0 12 = 0.
Proof.
  split; [lia | apply (C7_applyDeadzone_extremes 12); lia].
Defined.

(** C3, as the specification states it, fails: with stick deadzone 10
    and input 200 the result is not 197. *)
Lemma C3_scenario3_not_197 :
  ~ (128 < applyDeadzone 200 10 <= 255
     /\ applyDeadzone 200 10 = ((200 - 128 - 10) * 127 ÷ 117) + 128
     /\ applyDeadzone 200 10 = 197).
Proof. intros (_ & _ & H); vm_compute in H; discriminate H. Qed.

(** C3, amended: with stick deadzone 10 and input 200, [applyDeadzone]
    returns a value strictly greater than 128 and at most 255, equal to
    [((200-128-10)*127/117)+128] under integer division, which is 195;
    [translate] with deadzone 10 stores that value in [leftStickX] of
    the report built from a neutral input whose [leftStickX] is 200. *)
Theorem C3_scenario3_is_195 :
  128 < applyDeadzone 200 10 <= 255
  /\ applyDeadzone 200 10 = ((200 - 128 - 10) * 127 ÷ 117) + 128
  /\ applyDeadzone 200 10 = ((200 - 128 - 10) * 127 / 117) + 128
  /\ applyDeadzone 200 10 = 195
  /\ leftStickX (translate (new_with 10)
                   (mkInputReport 1 200 128 128 128 8 0 0 0 (repeat 0 54)))
     = 195.
Proof.
  assert (E : applyDeadzone 200 10 = 195) by (vm_compute; reflexivity).
  rewrite E; repeat split; try lia; try reflexivity.
Qed.

(** *** Trigger deadzone *)

(** C10: with trigger deadzone 255, [applyTriggerDeadzone v 255] is 0
    for every [v < 255] and is 255, unchanged, for [v = 255]; the
    rescaling branch is not taken. *)
Theorem C10_applyTriggerDeadzone_255 (v : Z) :
  is_uint8 v ->
  (v < 255 -> applyTriggerDeadzone v 255 = 0)
  /\ (v = 255 -> applyTriggerDeadzone v 255 = v)
  /\ ((255 >? 0) && (255 <? 255) = false).
Proof.
  intros _; unfold applyTriggerDeadzone; repeat split.
  - intros Hv; destruct (Z.ltb_spec v 255); [reflexivity | lia].
  - intros ->; reflexivity.
Qed.

Lemma C10_applyTriggerDeadzone_255_witness :
  is_uint8 254 /\ applyTriggerDeadzone 254 255 = 0.
Proof.
  assert (H : is_uint8 254) by (unfold is_uint8; lia).
  split; [exact H|].
  apply (C10_applyTriggerDeadzone_255 254 H); lia.
Defined.

End InputTranslatorSpec.

(** ** Output frames *)

Module BigbenHIDDeviceSpec.
Import CInt Protocol IOKit BigbenHIDDevice.

(** C6: for every rumble command with weak intensity [w] and strong
    intensity [s], the 8-byte frame [sendRumbleToUSB] builds has
    identifier 0x02, second byte 0x08, weak-motor flag 1 if [w] is
    nonzero and 0 otherwise, strong-motor field [s] unchanged, duration
    0xFF and zero padding. *)
Theorem C6_rumble_frame (iv : IVars) (s w : Z) :
  is_uint8 s -> is_uint8 w -> usbDriver iv = true ->
  exists frame,
    sendRumbleToUSB (Some iv) s w = (kIOReturnSuccess, Some frame)
    /\ rr_reportId frame = 0x02
    /\ rr_reserved1 frame = 0x08
    /\ rr_rightMotorOn frame = (if w =? 0 then 0 else 1)
    /\ rr_leftMotorForce frame = s
    /\ rr_duration frame = 0xFF
    /\ rr_padding frame = [0; 0; 0]
    /\ rumble_bytes frame = [0x02; 0x08; if w =? 0 then 0 else 1; s; 0xFF; 0; 0; 0]
    /\ Z.of_nat (length (rumble_bytes frame)) = BIGBEN_OUTPUT_REPORT_SIZE.
Proof.
  intros _ Hw Hdrv; unfold sendRumbleToUSB; rewrite Hdrv; cbn [negb].
  eexists; split; [reflexivity|].
  assert (E : (if w >? 0 then 1 else 0) = (if w =? 0 then 0 else 1)).
  { unfold is_uint8 in Hw.
    destruct (Z.gtb_spec w 0), (Z.eqb_spec w 0); lia. }
  cbn [rr_reportId rr_reserved1 rr_rightMotorOn rr_leftMotorForce
       rr_duration rr_padding rumble_bytes app].
  rewrite E; repeat split; reflexivity.
Qed.

Lemma C6_rumble_frame_witness :
  exists frame,
    sendRumbleToUSB (Some Scenario.hid) 200 37 = (kIOReturnSuccess, Some frame)
    /\ rumble_bytes frame = [0x02; 0x08; 1; 200; 0xFF; 0; 0; 0].
Proof.
  destruct (C6_rumble_frame Scenario.hid 200 37) as (frame & Hrun & H);
    [unfold is_uint8; lia | unfold is_uint8; lia | reflexivity |].
  exists frame; split; [exact Hrun|].
  destruct H as (_ & _ & _ & _ & _ & _ & Hbytes & _); exact Hbytes.
Defined.

End BigbenHIDDeviceSpec.

(** ** The read cycle *)

Module BigbenUSBDriverSpec.
Import CInt CIntFacts Protocol IOKit BigbenUSBDriver Trace.
Local Open Scope drv_scope.

Ltac run :=
  cbv [ReadComplete rearm ParseInputReport handleReport StartInputPolling
       StopInputPolling inputPipe_AsyncIO incr_reportErrors
       incr_reportsReceived deref bind get modify emit ret deliver].

(** *** The entry points, case by case *)

Lemma rearm_spec h s :
  rearm h s =
  if isPolling s && deviceConnected s then
    if inputPipe s then
      Some (tt,
            if is_success (AsyncIO_input h) then s else set_isPolling false s,
            [InputAsyncIO (AsyncIO_input h)])
    else None
  else Some (tt, s, []).
Proof.
  run.
  destruct (isPolling s && deviceConnected s); [|reflexivity].
  destruct (inputPipe s); [|reflexivity].
  destruct (is_success (AsyncIO_input h)); reflexivity.
Qed.

(** The disconnect path: nothing happens. *)
Lemma ReadComplete_disconnect h status n s :
  is_disconnect status = true ->
  ReadComplete h status n s = Some (tt, s, []).
Proof.
  unfold is_disconnect, ReadComplete; intros ->; reflexivity.
Qed.

(** Any other error: counted, then the re-arm. *)
Lemma ReadComplete_error h status n s :
  is_disconnect status = false -> is_success status = false ->
  ReadComplete h status n s =
  match rearm h (set_reportErrors (uint64 (reportErrors s + 1)) s) with
  | Some (_, s', e) => Some (tt, s', e)
  | None => None
  end.
Proof.
  unfold is_disconnect; intros Hd Hs.
  unfold ReadComplete; rewrite Hd, Hs; cbn [negb].
  unfold bind at 1, incr_reportErrors, modify.
  destruct (rearm h _) as [[[[] s'] e]|]; reflexivity.
Qed.

(** A short read: counted as an error, then the re-arm. *)
Lemma ReadComplete_short h n s :
  n < sizeof_BigbenInputReport ->
  ReadComplete h kIOReturnSuccess n s =
  match rearm h (set_reportErrors (uint64 (reportErrors s + 1)) s) with
  | Some (_, s', e) => Some (tt, s', e)
  | None => None
  end.
Proof.
  intros Hn; unfold ReadComplete; cbn [is_aborted is_not_responding is_success orb negb].
  replace (n <? sizeof_BigbenInputReport) with true by (symmetry; now apply Z.ltb_lt).
  unfold bind at 1, incr_reportErrors, modify.
  destruct (rearm h _) as [[[[] s'] e]|]; reflexivity.
Qed.

(** A full-size successful read whose buffer maps: parsed, counted,
    delivered, then the re-arm. *)
Lemma ReadComplete_full h n s :
  sizeof_BigbenInputReport <= n ->
  inputBuffer s = true ->
  is_success (fst (Map_inputBuffer h)) = true ->
  snd (Map_inputBuffer h) <> 0 ->
  ReadComplete h kIOReturnSuccess n s =
  match rearm h (set_reportsReceived
                   (uint64 (reportsReceived (parsed (inputData h) s) + 1))
                   (parsed (inputData h) s)) with
  | Some (_, s', e) =>
    Some (tt, s', HandleReport (mach_absolute_time h) (inputData h) n :: e)
  | None => None
  end.
Proof.
  intros Hn Hbuf Hmap Haddr.
  unfold ReadComplete; cbn [is_aborted is_not_responding is_success orb negb].
  replace (n <? sizeof_BigbenInputReport) with false by (symmetry; now apply Z.ltb_ge).
  rewrite Hmap.
  replace (snd (Map_inputBuffer h) =? 0) with false by (symmetry; now apply Z.eqb_neq).
  cbn [negb andb].
  unfold bind at 1, deref; rewrite Hbuf.
  unfold ParseInputReport, parsed.
  replace (n <? sizeof_BigbenInputReport) with false by (symmetry; now apply Z.ltb_ge).
  destruct (nth 0 (inputData h) 0 =? BIGBEN_REPORT_ID_INPUT); cbn [negb];
    cbv [bind modify incr_reportsReceived handleReport emit ret app];
    match goal with |- context [rearm h ?x] =>
      destruct (rearm h x) as [[[[] s'] e]|] end; reflexivity.
Qed.

(** A full-size successful read whose buffer does not map: only the
    re-arm. *)
Lemma ReadComplete_unmapped h n s :
  sizeof_BigbenInputReport <= n ->
  inputBuffer s = true ->
  is_success (fst (Map_inputBuffer h)) && negb (snd (Map_inputBuffer h) =? 0) = false ->
  ReadComplete h kIOReturnSuccess n s =
  match rearm h s with
  | Some (_, s', e) => Some (tt, s', e)
  | None => None
  end.
Proof.
  intros Hn Hbuf Hmap.
  unfold ReadComplete; cbn [is_aborted is_not_responding is_success orb negb].
  replace (n <? sizeof_BigbenInputReport) with false by (symmetry; now apply Z.ltb_ge).
  rewrite Hmap.
  unfold bind at 1, deref; rewrite Hbuf; unfold ret.
  destruct (rearm h s) as [[[[] s'] e]|]; reflexivity.
Qed.


(** *** Setters and the fields they leave alone *)

Lemma is_success_inv r : is_success r = true -> r = kIOReturnSuccess.
Proof. destruct r; simpl; intros H; try discriminate H; reflexivity. Qed.

Lemma parsed_flags data s :
  isPolling (parsed data s) = isPolling s
  /\ deviceConnected (parsed data s) = deviceConnected s
  /\ inputBuffer (parsed data s) = inputBuffer s
  /\ inputPipe (parsed data s) = inputPipe s
  /\ reportErrors (parsed data s) = reportErrors s
  /\ reportsReceived (parsed data s) = reportsReceived s.
Proof.
  unfold parsed; destruct (nth 0 data 0 =? BIGBEN_REPORT_ID_INPUT);
    repeat split; reflexivity.
Qed.

(** A mismatched identifier keeps the cache as it was. *)
Lemma parsed_mismatch data s :
  nth 0 data 0 <> BIGBEN_REPORT_ID_INPUT -> parsed data s = s.
Proof.
  intros H; unfold parsed.
  destruct (Z.eqb_spec (nth 0 data 0) BIGBEN_REPORT_ID_INPUT); [contradiction|reflexivity].
Qed.

(** *** A completion in the [Stopped] state *)

(** Outside [Polling] the re-arm does nothing. *)
Lemma rearm_not_polling h s :
  isPolling s = false -> rearm h s = Some (tt, s, []).
Proof. intros H; rewrite rearm_spec, H; reflexivity. Qed.

Lemma ReadComplete_not_polling h status n s :
  isPolling s = false -> inputBuffer s = true ->
  exists s' e,
    ReadComplete h status n s = Some (tt, s', e)
    /\ isPolling s' = false
    /\ deviceConnected s' = deviceConnected s
    /\ inputBuffer s' = true
    /\ existsb is_arm e = false
    /\ (is_disconnect status = true -> s' = s /\ e = []).
Proof.
  intros Hpoll Hbuf.
  destruct (is_disconnect status) eqn:Hd.
  { exists s, []; rewrite ReadComplete_disconnect by exact Hd.
    repeat split; auto. }
  destruct (is_success status) eqn:Hs.
  2:{ rewrite ReadComplete_error by assumption.
      rewrite rearm_not_polling by exact Hpoll.
      do 2 eexists; split; [reflexivity|].
      repeat split; auto; discriminate. }
  apply is_success_inv in Hs; subst status.
  destruct (Z.lt_ge_cases n sizeof_BigbenInputReport) as [Hn|Hn].
  { rewrite ReadComplete_short by exact Hn.
    rewrite rearm_not_polling by exact Hpoll.
    do 2 eexists; split; [reflexivity|].
    repeat split; auto; discriminate. }
  destruct (is_success (fst (Map_inputBuffer h))
            && negb (snd (Map_inputBuffer h) =? 0)) eqn:Hmap.
  2:{ rewrite ReadComplete_unmapped by assumption.
      rewrite rearm_not_polling by exact Hpoll.
      do 2 eexists; split; [reflexivity|].
      repeat split; auto; discriminate. }
  apply andb_true_iff in Hmap; destruct Hmap as [Hm Ha].
  apply negb_true_iff, Z.eqb_neq in Ha.
  rewrite ReadComplete_full by assumption.
  destruct (parsed_flags (inputData h) s) as (Pp & Pc & Pb & _).
  rewrite rearm_not_polling by (cbn [set_reportsReceived isPolling]; congruence).
  do 2 eexists; split; [reflexivity|].
  cbn [set_reportsReceived isPolling deviceConnected inputBuffer existsb is_arm orb].
  repeat split; try congruence; discriminate.
Qed.

Lemma deliver_not_polling cs : forall s,
  isPolling s = false -> inputBuffer s = true ->
  exists s' e,
    deliver cs s = Some (tt, s', e)
    /\ isPolling s' = false
    /\ deviceConnected s' = deviceConnected s
    /\ inputBuffer s' = true
    /\ existsb is_arm e = false
    /\ (forallb (fun c => is_disconnect (c_status c)) cs = true ->
        s' = s /\ e = []).
Proof.
  induction cs as [|c cs IH]; intros s Hpoll Hbuf.
  - exists s, []; repeat split; auto.
  - destruct (ReadComplete_not_polling (c_host c) (c_status c)
                (c_actualByteCount c) s Hpoll Hbuf)
      as (s1 & e1 & Hrun & Hp1 & Hc1 & Hb1 & Ha1 & Hd1).
    destruct (IH s1 Hp1 Hb1) as (s2 & e2 & Hrun2 & Hp2 & Hc2 & Hb2 & Ha2 & Hd2).
    exists s2, (e1 ++ e2).
    split.
    { cbn [deliver]; unfold bind; rewrite Hrun, Hrun2; reflexivity. }
    repeat split; try congruence.
    + rewrite existsb_app, Ha1, Ha2; reflexivity.
    + cbn [forallb] in H; apply andb_true_iff in H; destruct H as [Hc Hcs].
      destruct (Hd1 Hc), (Hd2 Hcs); congruence.
    + cbn [forallb] in H; apply andb_true_iff in H; destruct H as [Hc Hcs].
      destruct (Hd1 Hc) as [_ ->], (Hd2 Hcs) as [_ ->]; reflexivity.
Qed.

Lemma StopInputPolling_spec s :
  exists e,
    StopInputPolling s = Some (tt, set_isPolling false s, e)
    \/ (isPolling s = false /\ StopInputPolling s = Some (tt, s, e)).
Proof.
  run; destruct (isPolling s) eqn:Hp; cbn [negb].
  - destruct (inputPipe s); eexists; left; reflexivity.
  - exists []; right; split; reflexivity.
Qed.


(** [Stop] always completes, and leaves the channel neither polling nor
    connected without submitting a read. *)
Lemma Stop_spec p s :
  exists s1 e1,
    Stop p s = Some (super_Stop p, s1, e1)
    /\ isPolling s1 = false
    /\ deviceConnected s1 = false
    /\ existsb is_arm e1 = false.
Proof.
  destruct s as [i ip op ib ob hd ra wa st po dc lr hl rr re os].
  destruct po, ip, i;
    cbv [Stop StopInputPolling CleanupResources bind get modify emit ret
         negb app set_interface set_inputPipe set_outputPipe set_inputBuffer
         set_outputBuffer set_hidDescriptor set_readAction set_writeAction
         set_isStarted set_isPolling set_deviceConnected
         interface inputPipe outputPipe inputBuffer outputBuffer
         hidDescriptor readAction writeAction isStarted isPolling
         deviceConnected lastReport hasLastReport reportsReceived
         reportErrors outputReportsSent];
    do 2 eexists; (split; [reflexivity|]); repeat split.
Qed.

(** *** Scenario 5: a short read *)

(** C5: for every read completion with success status and fewer than
    64 bytes, while the channel is polling and connected, the error
    counter goes up by one, the host-report sink is not invoked and a
    new read is submitted to the input pipe (the only effect of the
    call); the channel stays in [Polling] exactly when the pipe accepts
    that read. *)
Theorem C5_short_read_counts_and_rearms (h : Host) (n : Z) (s : IVars) :
  n < 64 ->
  isPolling s = true -> deviceConnected s = true -> inputPipe s = true ->
  exists s' e,
    ReadComplete h kIOReturnSuccess n s = Some (tt, s', e)
    /\ reportErrors s' = uint64 (reportErrors s + 1)
    /\ (0 <= reportErrors s < 18446744073709551615 ->
        reportErrors s' = reportErrors s + 1)
    /\ existsb is_delivery e = false
    /\ e = [InputAsyncIO (AsyncIO_input h)]
    /\ existsb is_arm e = true
    /\ isPolling s' = is_success (AsyncIO_input h)
    /\ deviceConnected s' = true
    /\ reportsReceived s' = reportsReceived s
    /\ lastReport s' = lastReport s
    /\ hasLastReport s' = hasLastReport s.
Proof.
  intros Hn Hp Hc Hpipe.
  rewrite ReadComplete_short by exact Hn.
  rewrite rearm_spec.
  cbn [set_reportErrors isPolling deviceConnected inputPipe].
  rewrite Hp, Hc, Hpipe; cbn [andb].
  do 2 eexists; split; [reflexivity|].
  destruct (is_success (AsyncIO_input h));
    cbn [set_reportErrors set_isPolling reportErrors isPolling deviceConnected
         reportsReceived lastReport hasLastReport existsb is_delivery is_arm orb];
    repeat split; auto; intros; apply uint64_id; lia.
Qed.

Lemma C5_short_read_counts_and_rearms_witness :
  exists s',
    ReadComplete (Scenario.host 1) kIOReturnSuccess 10 Scenario.started
    = Some (tt, s', [InputAsyncIO kIOReturnSuccess])
    /\ reportErrors s' = 1.
Proof.
  destruct (C5_short_read_counts_and_rearms (Scenario.host 1) 10 Scenario.started)
    as (s' & e & Hrun & _ & Hone & _ & He & _);
    [lia | reflexivity | reflexivity | reflexivity |].
  exists s'; split.
  - rewrite Hrun, He; reflexivity.
  - rewrite Hone; [reflexivity | cbn; lia].
Defined.

(** *** A report with a foreign identifier *)

(** Whatever identifier the buffer carries, a full-size successful read
    whose buffer maps is counted as received and handed to the sink;
    the identifier only decides whether the cache is refreshed. *)
Lemma ReadComplete_full_any_identifier h n s :
  sizeof_BigbenInputReport <= n ->
  inputBuffer s = true -> isPolling s = true -> deviceConnected s = true ->
  inputPipe s = true ->
  is_success (fst (Map_inputBuffer h)) = true ->
  snd (Map_inputBuffer h) <> 0 ->
  exists s',
    ReadComplete h kIOReturnSuccess n s
    = Some (tt, s', [HandleReport (mach_absolute_time h) (inputData h) n;
                     InputAsyncIO (AsyncIO_input h)])
    /\ reportsReceived s' = uint64 (reportsReceived s + 1).
Proof.
  intros Hn Hbuf Hp Hc Hpipe Hm Ha.
  rewrite ReadComplete_full by assumption.
  destruct (parsed_flags (inputData h) s) as (Pp & Pc & _ & Ppipe & _ & Pr).
  rewrite rearm_spec.
  cbn [set_reportsReceived isPolling deviceConnected inputPipe].
  rewrite Pp, Pc, Ppipe, Hp, Hc, Hpipe; cbn [andb].
  eexists; split; [reflexivity|].
  destruct (is_success (AsyncIO_input h));
    cbn [set_reportsReceived set_isPolling reportsReceived]; congruence.
Qed.

(** C2, on the code: a successful 64-byte read whose payload carries
    report identifier 0x02 instead of 0x01 is not dropped.
    [ParseInputReport] leaves the cache alone, but [ReadComplete] still
    raises [reportsReceived] from 0 to 1 and hands the report to the
    host-report sink before re-arming. *)
Theorem C2_foreign_identifier_is_counted_and_delivered :
  nth 0 (inputData (Scenario.host 0x02)) 0 = 0x02
  /\ reportsReceived Scenario.started = 0
  /\ ReadComplete (Scenario.host 0x02) kIOReturnSuccess 64 Scenario.started
     = Some (tt, set_reportsReceived 1 Scenario.started,
             [HandleReport 1000 (Scenario.report 0x02) 64;
              InputAsyncIO kIOReturnSuccess])
  /\ hasLastReport (set_reportsReceived 1 Scenario.started) = false.
Proof. repeat split. Qed.

(** *** Scenario 4: the disconnect path *)

(** C1, on the code: in the state [Start] leaves (polling, connected,
    one read outstanding) a read completion with status "aborted" or
    "device not responding" returns at once.  No read is armed, but
    [isPolling] and [deviceConnected] both stay true: the channel is not
    moved to [Stopped] and not marked disconnected.  With [isPolling]
    still set and no read outstanding, [StartInputPolling] answers
    success without submitting a read, and a completion forced
    afterwards is not ignored: it is counted, cached, delivered and
    re-armed.  The other two ways [ReadComplete] can end without a read
    outstanding, a refused re-arm after an error status and after a
    report, both clear [isPolling]. *)
Theorem C1_disconnect_completion_leaves_channel_polling :
  Start Scenario.provider (Scenario.host 1) init
  = Some (kIOReturnSuccess, Scenario.started,
          [InputAsyncIO kIOReturnSuccess; RegisterService])
  /\ ReadComplete (Scenario.host 1) kIOReturnAborted 0 Scenario.started
     = Some (tt, Scenario.started, [])
  /\ ReadComplete (Scenario.host 1) kIOReturnNotResponding 0 Scenario.started
     = Some (tt, Scenario.started, [])
  /\ isPolling Scenario.started = true
  /\ deviceConnected Scenario.started = true
  /\ StartInputPolling (Scenario.host 1) Scenario.started
     = Some (kIOReturnSuccess, Scenario.started, [])
  /\ deliver [mkCompletion (Scenario.host 1) kIOReturnAborted 0;
              mkCompletion (Scenario.host 1) kIOReturnSuccess 64]
             Scenario.started
     = Some (tt,
             set_reportsReceived 1
               (set_hasLastReport true
                  (set_lastReport (Scenario.report 1) Scenario.started)),
             [HandleReport 1000 (Scenario.report 1) 64;
              InputAsyncIO kIOReturnSuccess])
  /\ ReadComplete Scenario.refusing_host kIOReturnUnderrun 0 Scenario.started
     = Some (tt, set_isPolling false (set_reportErrors 1 Scenario.started),
             [InputAsyncIO kIOReturnNotResponding])
  /\ ReadComplete Scenario.refusing_host kIOReturnSuccess 64 Scenario.started
     = Some (tt,
             set_isPolling false
               (set_reportsReceived 1
                  (set_hasLastReport true
                     (set_lastReport (Scenario.report 1) Scenario.started))),
             [HandleReport 1000 (Scenario.report 1) 64;
              InputAsyncIO kIOReturnNotResponding]).
Proof. repeat split. Qed.

(** *** Completions delivered after [stop()] *)

(** C4, on the code: [Stop] (the only caller of [StopInputPolling])
    aborts the outstanding read, clears the flags and releases every
    object, the input buffer included.  [ReadComplete] has no guard on
    entry, so of the completions the transport delivers afterwards only
    those with status "aborted" or "device not responding" are ignored.
    A late completion with an error status, or with fewer than 64 bytes,
    raises [reportErrors] from 0 to 1; a late successful completion of
    64 bytes calls [Map] on the released (null) input buffer.  Where the
    buffer is still in place, after [StopInputPolling] alone, the same
    completion raises [reportsReceived] from 0 to 1, refreshes the cache
    and hands the report to the host-report sink; only the re-arm is
    guarded by [isPolling]. *)
Theorem C4_late_completion_is_not_ignored :
  Stop Scenario.provider Scenario.started
  = Some (kIOReturnSuccess, Scenario.released,
          [InputAbort; InterfaceClose; SuperStop])
  /\ ReadComplete (Scenario.host 1) kIOReturnAborted 0 Scenario.released
     = Some (tt, Scenario.released, [])
  /\ reportErrors Scenario.released = 0
  /\ ReadComplete (Scenario.host 1) kIOReturnUnderrun 0 Scenario.released
     = Some (tt, set_reportErrors 1 Scenario.released, [])
  /\ ReadComplete (Scenario.host 1) kIOReturnSuccess 10 Scenario.released
     = Some (tt, set_reportErrors 1 Scenario.released, [])
  /\ inputBuffer Scenario.released = false
  /\ ReadComplete (Scenario.host 1) kIOReturnSuccess 64 Scenario.released = None
  /\ StopInputPolling Scenario.started
     = Some (tt, Scenario.stopped, [InputAbort])
  /\ ReadComplete (Scenario.host 1) kIOReturnAborted 0 Scenario.stopped
     = Some (tt, Scenario.stopped, [])
  /\ reportsReceived Scenario.stopped = 0
  /\ hasLastReport Scenario.stopped = false
  /\ ReadComplete (Scenario.host 1) kIOReturnSuccess 64 Scenario.stopped
     = Some (tt,
             set_reportsReceived 1
               (set_hasLastReport true
                  (set_lastReport (Scenario.report 1) Scenario.stopped)),
             [HandleReport 1000 (Scenario.report 1) 64]).
Proof. repeat split. Qed.

End BigbenUSBDriverSpec.

(* ===================================================================== *)
(** * Further properties of the code *)
(* ===================================================================== *)

Module BytesFacts.
Import CInt Bytes.

Lemma upto_In n z : 0 <= z < Z.of_nat n -> In z (upto n).
Proof.
  intros Hz; unfold upto.
  apply in_map_iff; exists (Z.to_nat z); split; [lia|].
  apply in_seq; lia.
Qed.

Lemma all_bytes_spec P :
  all_bytes P = true -> forall z, is_uint8 z -> P z = true.
Proof.
  unfold all_bytes, is_uint8; intros H z Hz.
  rewrite forallb_forall in H; apply H, upto_In; simpl; lia.
Qed.

Lemma all_byte_pairs_spec P :
  all_byte_pairs P = true ->
  forall a b, is_uint8 a -> is_uint8 b -> P a b = true.
Proof.
  unfold all_byte_pairs; intros H a b Ha Hb.
  apply (all_bytes_spec (P a)); [|exact Hb].
  apply (all_bytes_spec (fun a => all_bytes (P a))); assumption.
Qed.

End BytesFacts.

(** ** The shaping functions on their whole domain *)

Module ShapingSpec.
Import CInt CIntFacts Protocol InputTranslator Bytes BytesFacts.

(** One step of monotonicity, for every sample and every deadzone. *)
Lemma applyDeadzone_step v dz :
  is_uint8 v -> is_uint8 dz -> v < 255 ->
  applyDeadzone v dz <= applyDeadzone (v + 1) dz.
Proof.
  intros Hv Hdz Hlt.
  assert (H : all_byte_pairs
                (fun d x => (255 <=? x) || (applyDeadzone x d <=? applyDeadzone (x + 1) d))
              = true) by (vm_compute; reflexivity).
  pose proof (all_byte_pairs_spec _ H dz v Hdz Hv) as Hs; cbv beta in Hs.
  apply orb_true_iff in Hs; destruct Hs as [Hs|Hs];
    [apply Z.leb_le in Hs; lia | now apply Z.leb_le].
Qed.

(** X1: [applyDeadzone] is monotone in the sample: for every deadzone a
    larger raw axis value never gives a smaller shaped value. *)
Theorem X1_applyDeadzone_monotone (dz v1 v2 : Z) :
  is_uint8 dz -> is_uint8 v1 -> is_uint8 v2 -> v1 <= v2 ->
  applyDeadzone v1 dz <= applyDeadzone v2 dz.
Proof.
  intros Hdz Hv1 Hv2 Hle.
  assert (Hgen : forall n : nat, is_uint8 (v1 + Z.of_nat n) ->
                 applyDeadzone v1 dz <= applyDeadzone (v1 + Z.of_nat n) dz).
  { induction n as [|n IH]; intros Hn.
    - rewrite Z.add_0_r; lia.
    - unfold is_uint8 in *.
      replace (v1 + Z.of_nat (S n)) with (v1 + Z.of_nat n + 1) in * by lia.
      etransitivity; [apply IH; lia|].
      apply applyDeadzone_step; unfold is_uint8; lia. }
  replace v2 with (v1 + Z.of_nat (Z.to_nat (v2 - v1))) by lia.
  apply Hgen; unfold is_uint8 in *; lia.
Qed.

Lemma X1_applyDeadzone_monotone_witness :
  applyDeadzone 140 12 <= applyDeadzone 200 12.
Proof.
  apply (X1_applyDeadzone_monotone 12 140 200); unfold is_uint8; lia.
Defined.

(** X2: the shaped value stays a byte, stays on the side of the centre
    the raw value is on, and is never further from the centre than the
    raw value. *)
Theorem X2_applyDeadzone_contracts (v dz : Z) :
  is_uint8 v -> is_uint8 dz ->
  is_uint8 (applyDeadzone v dz)
  /\ (128 <= v -> 128 <= applyDeadzone v dz <= v)
  /\ (v <= 128 -> v <= applyDeadzone v dz <= 128).
Proof.
  intros Hv Hdz.
  assert (H : all_byte_pairs
                (fun d x =>
                   let y := applyDeadzone x d in
                   (0 <=? y) && (y <=? 255)
                   && (if 128 <=? x then (128 <=? y) && (y <=? x) else true)
                   && (if x <=? 128 then (x <=? y) && (y <=? 128) else true))
              = true) by (vm_compute; reflexivity).
  pose proof (all_byte_pairs_spec _ H dz v Hdz Hv) as Hs; cbv beta zeta in Hs.
  apply andb_true_iff in Hs; destruct Hs as [Hs Hlow].
  apply andb_true_iff in Hs; destruct Hs as [Hs Hhigh].
  apply andb_true_iff in Hs; destruct Hs as [H0 H255].
  apply Z.leb_le in H0, H255.
  split; [unfold is_uint8; lia|]. split; intros Hside.
  - destruct (Z.leb_spec 128 v); [|lia].
    apply andb_true_iff in Hhigh; destruct Hhigh as [Ha Hb].
    apply Z.leb_le in Ha, Hb; lia.
  - destruct (Z.leb_spec v 128); [|lia].
    apply andb_true_iff in Hlow; destruct Hlow as [Ha Hb].
    apply Z.leb_le in Ha, Hb; lia.
Qed.

Lemma X2_applyDeadzone_contracts_witness :
  is_uint8 (applyDeadzone 200 10) /\ 128 <= applyDeadzone 200 10 <= 200.
Proof.
  destruct (X2_applyDeadzone_contracts 200 10) as (Hr & Hhigh & _);
    [unfold is_uint8; lia | unfold is_uint8; lia |].
  split; [exact Hr | apply Hhigh; lia].
Defined.

(** X3: the stick shaping is symmetric about the centre: samples at the
    same distance [k <= 127] on either side of 128 are shaped to values
    at the same distance on either side of 128. *)
Theorem X3_applyDeadzone_symmetric (k dz : Z) :
  0 <= k <= 127 -> is_uint8 dz ->
  applyDeadzone (128 + k) dz - 128 = 128 - applyDeadzone (128 - k) dz.
Proof.
  intros Hk Hdz.
  assert (H : all_byte_pairs
                (fun d x =>
                   (127 <? x)
                   || (applyDeadzone (128 + x) d - 128
                       =? 128 - applyDeadzone (128 - x) d))
              = true) by (vm_compute; reflexivity).
  assert (Hk8 : is_uint8 k) by (unfold is_uint8; lia).
  pose proof (all_byte_pairs_spec _ H dz k Hdz Hk8) as Hs; cbv beta in Hs.
  apply orb_true_iff in Hs; destruct Hs as [Hs|Hs];
    [apply Z.ltb_lt in Hs; lia | now apply Z.eqb_eq].
Qed.

Lemma X3_applyDeadzone_symmetric_witness :
  applyDeadzone (128 + 72) 10 - 128 = 128 - applyDeadzone (128 - 72) 10.
Proof.
  apply (X3_applyDeadzone_symmetric 72 10); unfold is_uint8; lia.
Defined.

(** X4: for a deadzone of at most 126 the shaped value is the centre
    exactly when the sample is within [dz] of the centre, the edge
    included: the ramp starts at the centre on the edge of the deadzone
    and every sample beyond the edge is off-centre. *)
Theorem X4_applyDeadzone_centre_iff (v dz : Z) :
  is_uint8 v -> 0 <= dz <= 126 ->
  (applyDeadzone v dz = 128 <-> Z.abs (v - 128) <= dz).
Proof.
  intros Hv Hdz.
  assert (H : all_byte_pairs
                (fun d x =>
                   (126 <? d)
                   || Bool.eqb (applyDeadzone x d =? 128) (Z.abs (x - 128) <=? d))
              = true) by (vm_compute; reflexivity).
  assert (Hdz8 : is_uint8 dz) by (unfold is_uint8; lia).
  pose proof (all_byte_pairs_spec _ H dz v Hdz8 Hv) as Hs; cbv beta in Hs.
  apply orb_true_iff in Hs; destruct Hs as [Hs|Hs];
    [apply Z.ltb_lt in Hs; lia|].
  apply eqb_prop in Hs.
  rewrite <- Z.eqb_eq, <- Z.leb_le, Hs; reflexivity.
Qed.

Lemma X4_applyDeadzone_centre_iff_witness :
  applyDeadzone 140 12 = 128 /\ applyDeadzone 141 12 <> 128.
Proof.
  assert (Hv : forall v, 0 <= v <= 255 -> is_uint8 v) by (intros; assumption).
  split.
  - apply (X4_applyDeadzone_centre_iff 140 12); [apply Hv; lia | lia | simpl; lia].
  - intros E.
    apply (X4_applyDeadzone_centre_iff 141 12) in E; [simpl in E; lia | apply Hv; lia | lia].
Defined.

(** One step of monotonicity for the triggers. *)
Lemma applyTriggerDeadzone_step v dz :
  is_uint8 v -> is_uint8 dz -> v < 255 ->
  applyTriggerDeadzone v dz <= applyTriggerDeadzone (v + 1) dz.
Proof.
  intros Hv Hdz Hlt.
  assert (H : all_byte_pairs
                (fun d x => (255 <=? x)
                            || (applyTriggerDeadzone x d <=? applyTriggerDeadzone (x + 1) d))
              = true) by (vm_compute; reflexivity).
  pose proof (all_byte_pairs_spec _ H dz v Hdz Hv) as Hs; cbv beta in Hs.
  apply orb_true_iff in Hs; destruct Hs as [Hs|Hs];
    [apply Z.leb_le in Hs; lia | now apply Z.leb_le].
Qed.

(** X5: [applyTriggerDeadzone] is monotone in the trigger value, for
    every deadzone. *)
Theorem X5_applyTriggerDeadzone_monotone (dz v1 v2 : Z) :
  is_uint8 dz -> is_uint8 v1 -> is_uint8 v2 -> v1 <= v2 ->
  applyTriggerDeadzone v1 dz <= applyTriggerDeadzone v2 dz.
Proof.
  intros Hdz Hv1 Hv2 Hle.
  assert (Hgen : forall n : nat, is_uint8 (v1 + Z.of_nat n) ->
                 applyTriggerDeadzone v1 dz
                 <= applyTriggerDeadzone (v1 + Z.of_nat n) dz).
  { induction n as [|n IH]; intros Hn.
    - rewrite Z.add_0_r; lia.
    - unfold is_uint8 in *.
      replace (v1 + Z.of_nat (S n)) with (v1 + Z.of_nat n + 1) in * by lia.
      etransitivity; [apply IH; lia|].
      apply applyTriggerDeadzone_step; unfold is_uint8; lia. }
  replace v2 with (v1 + Z.of_nat (Z.to_nat (v2 - v1))) by lia.
  apply Hgen; unfold is_uint8 in *; lia.
Qed.

Lemma X5_applyTriggerDeadzone_monotone_witness :
  applyTriggerDeadzone 60 50 <= applyTriggerDeadzone 100 50.
Proof.
  apply (X5_applyTriggerDeadzone_monotone 50 60 100); unfold is_uint8; lia.
Defined.

(** X6: the trigger ramp covers the whole range: for every deadzone the
    shaped value is a byte not above the raw value, a fully pressed
    trigger (255) stays 255, and for a deadzone between 1 and 254 the
    threshold value itself is shaped to 0. *)
Theorem X6_applyTriggerDeadzone_ramp (v dz : Z) :
  is_uint8 v -> is_uint8 dz ->
  0 <= applyTriggerDeadzone v dz <= v
  /\ applyTriggerDeadzone 255 dz = 255
  /\ (1 <= dz <= 254 -> applyTriggerDeadzone dz dz = 0).
Proof.
  intros Hv Hdz.
  assert (H : all_byte_pairs
                (fun d x =>
                   (0 <=? applyTriggerDeadzone x d)
                   && (applyTriggerDeadzone x d <=? x)
                   && (applyTriggerDeadzone 255 d =? 255)
                   && (if (1 <=? d) && (d <=? 254)
                       then applyTriggerDeadzone d d =? 0 else true))
              = true) by (vm_compute; reflexivity).
  pose proof (all_byte_pairs_spec _ H dz v Hdz Hv) as Hs; cbv beta in Hs.
  apply andb_true_iff in Hs; destruct Hs as [Hs Hthr].
  apply andb_true_iff in Hs; destruct Hs as [Hs Hmax].
  apply andb_true_iff in Hs; destruct Hs as [H0 Hle].
  apply Z.leb_le in H0, Hle. apply Z.eqb_eq in Hmax.
  repeat split; try assumption.
  intros Hd.
  destruct (Z.leb_spec 1 dz); [|lia].
  destruct (Z.leb_spec dz 254); [|lia].
  now apply Z.eqb_eq.
Qed.

Lemma X6_applyTriggerDeadzone_ramp_witness :
  0 <= applyTriggerDeadzone 100 50 <= 100
  /\ applyTriggerDeadzone 255 50 = 255
  /\ applyTriggerDeadzone 50 50 = 0.
Proof.
  destruct (X6_applyTriggerDeadzone_ramp 100 50) as (Hr & Hmax & Hthr);
    [unfold is_uint8; lia | unfold is_uint8; lia |].
  split; [exact Hr|]. split; [exact Hmax | apply Hthr; lia].
Defined.

End ShapingSpec.

(** ** Whole reports *)

Module TranslateSpec.
Import CInt CIntFacts Protocol InputTranslator HIDButton Bytes BytesFacts WellFormed.

Lemma applyDeadzone_byte v dz :
  is_uint8 v -> is_uint8 dz -> is_uint8 (applyDeadzone v dz).
Proof.
  intros Hv Hdz.
  assert (H : all_byte_pairs
                (fun d x => (0 <=? applyDeadzone x d) && (applyDeadzone x d <=? 255))
              = true) by (vm_compute; reflexivity).
  pose proof (all_byte_pairs_spec _ H dz v Hdz Hv) as Hs; cbv beta in Hs.
  apply andb_true_iff in Hs; destruct Hs as [Ha Hb].
  apply Z.leb_le in Ha, Hb; unfold is_uint8; lia.
Qed.

Lemma applyTriggerDeadzone_byte v dz :
  is_uint8 v -> is_uint8 dz -> is_uint8 (applyTriggerDeadzone v dz).
Proof.
  intros Hv Hdz.
  assert (H : all_byte_pairs
                (fun d x => (0 <=? applyTriggerDeadzone x d)
                            && (applyTriggerDeadzone x d <=? 255))
              = true) by (vm_compute; reflexivity).
  pose proof (all_byte_pairs_spec _ H dz v Hdz Hv) as Hs; cbv beta in Hs.
  apply andb_true_iff in Hs; destruct Hs as [Ha Hb].
  apply Z.leb_le in Ha, Hb; unfold is_uint8; lia.
Qed.

Lemma applyDeadzone_centre dz : is_uint8 dz -> applyDeadzone 128 dz = 128.
Proof.
  intros Hdz.
  assert (H : all_bytes (fun d => applyDeadzone 128 d =? 128) = true)
    by (vm_compute; reflexivity).
  apply Z.eqb_eq, (all_bytes_spec _ H dz Hdz).
Qed.

Lemma applyTriggerDeadzone_released dz :
  is_uint8 dz -> applyTriggerDeadzone 0 dz = 0.
Proof.
  intros Hdz.
  assert (H : all_bytes (fun d => applyTriggerDeadzone 0 d =? 0) = true)
    by (vm_compute; reflexivity).
  apply Z.eqb_eq, (all_bytes_spec _ H dz Hdz).
Qed.

Lemma applyDeadzone_no_deadzone v : is_uint8 v -> applyDeadzone v 0 = v.
Proof.
  intros Hv.
  assert (H : all_bytes (fun x => applyDeadzone x 0 =? x) = true)
    by (vm_compute; reflexivity).
  apply Z.eqb_eq, (all_bytes_spec _ H v Hv).
Qed.

Lemma applyTriggerDeadzone_no_deadzone v : applyTriggerDeadzone v 0 = v \/ v < 0.
Proof.
  unfold applyTriggerDeadzone.
  destruct (Z.ltb_spec v 0); [right; assumption | left; reflexivity].
Qed.

Lemma translateDPadToHat_range d :
  is_uint8 d -> 0 <= translateDPadToHat d <= 8.
Proof.
  unfold is_uint8, translateDPadToHat, BIGBEN_DPAD_NEUTRAL,
    INPUT_TRANSLATOR_HAT_NEUTRAL; intros Hd.
  destruct (Z.gtb_spec d 8); lia.
Qed.

(** X7: whatever bytes the device sends and whatever the two deadzones
    are, [translate] produces a well-formed canonical report: identifier
    1, only the 13 button bits, every axis and trigger a byte, and a hat
    value between 0 and 8. *)
Theorem X7_translate_well_formed (tr : InputTranslator.t) (i : BigbenInputReport) :
  config_ok tr -> input_ok i ->
  let o := translate tr i in
  reportId o = 1
  /\ 0 <= buttons o <= 0x1FFF
  /\ is_uint8 (leftStickX o) /\ is_uint8 (leftStickY o)
  /\ is_uint8 (rightStickX o) /\ is_uint8 (rightStickY o)
  /\ is_uint8 (leftTrigger o) /\ is_uint8 (rightTrigger o)
  /\ 0 <= hatSwitch o <= 8.
Proof.
  intros (Hdz & Htz) (Hlx & Hly & Hrx & Hry & Hd & Hb & Hlt & Hrt).
  cbn [translate reportId buttons leftStickX leftStickY rightStickX
       rightStickY leftTrigger rightTrigger hatSwitch].
  split; [reflexivity|].
  split; [rewrite InputTranslatorSpec.translateButtons_land;
          apply land_0x1FFF_range|].
  repeat split;
    try (apply applyDeadzone_byte; assumption);
    try (apply applyTriggerDeadzone_byte; assumption);
    apply translateDPadToHat_range; assumption.
Qed.

Lemma X7_translate_well_formed_witness :
  0 <= buttons (translate new (mkInputReport 1 255 0 37 200 11 0xFFFF 9 250 []))
    <= 0x1FFF
  /\ 0 <= hatSwitch (translate new (mkInputReport 1 255 0 37 200 11 0xFFFF 9 250 []))
     <= 8.
Proof.
  destruct (X7_translate_well_formed new
              (mkInputReport 1 255 0 37 200 11 0xFFFF 9 250 []))
    as (_ & Hb & _ & _ & _ & _ & _ & _ & Hh).
  - unfold config_ok, is_uint8, new, INPUT_TRANSLATOR_DEFAULT_DEADZONE;
      cbn [m_deadzone m_triggerDeadzone]; lia.
  - unfold input_ok, is_uint8, is_uint16; simpl; lia.
  - split; assumption.
Defined.

(** X8: for every configuration, a report with centred sticks, released
    triggers, released D-pad and no button translates to exactly the
    neutral report of [initializeNeutralReport], whatever its identifier
    and reserved bytes are. *)
Theorem X8_translate_neutral (tr : InputTranslator.t) (id : Z) (rsv : list Z) :
  config_ok tr ->
  translate tr (mkInputReport id 128 128 128 128 8 0 0 0 rsv)
  = initializeNeutralReport.
Proof.
  intros (Hdz & Htz).
  unfold translate, initializeNeutralReport; cbn [in_buttons in_leftStickX
    in_leftStickY in_rightStickX in_rightStickY in_dpad in_leftTrigger
    in_rightTrigger].
  rewrite (applyDeadzone_centre _ Hdz), (applyTriggerDeadzone_released _ Htz).
  reflexivity.
Qed.

Lemma X8_translate_neutral_witness :
  translate (setTriggerDeadzone 30 (new_with 25))
            (mkInputReport 1 128 128 128 128 8 0 0 0 (repeat 0 54))
  = initializeNeutralReport.
Proof.
  apply (X8_translate_neutral (setTriggerDeadzone 30 (new_with 25))).
  unfold config_ok, is_uint8; simpl; lia.
Defined.

(** Testing one bit with a mask. *)
Lemma land_bit x b :
  0 <= b -> negb (Z.land x (Z.shiftl 1 b) =? 0) = Z.testbit x b.
Proof.
  intros Hb; rewrite Z.shiftl_1_l.
  assert (E : Z.land x (2 ^ b) = if Z.testbit x b then 2 ^ b else 0).
  { apply Z.bits_inj'; intros n Hn.
    rewrite Z.land_spec, Z.pow2_bits_eqb by lia.
    destruct (Z.eqb_spec b n) as [->|Hne].
    - destruct (Z.testbit x n); [rewrite Z.pow2_bits_true by lia|rewrite Z.bits_0];
        reflexivity.
    - rewrite andb_false_r.
      destruct (Z.testbit x b); [rewrite Z.pow2_bits_false by lia|rewrite Z.bits_0];
        reflexivity. }
  rewrite E; destruct (Z.testbit x b); [|reflexivity].
  assert (0 < 2 ^ b) by (apply Z.pow_pos_nonneg; lia).
  destruct (Z.eqb_spec (2 ^ b) 0); [lia | reflexivity].
Qed.

(** X9: after [translate], [isButtonPressed] answers for each of the 13
    buttons what the device reported in the same bit, and answers "not
    pressed" for the reserved buttons 14 to 16 and for every index above
    15, whatever the device put in bits 13 to 15. *)
Theorem X9_isButtonPressed_translate
    (tr : InputTranslator.t) (i : BigbenInputReport) (button : Z) :
  0 <= button ->
  isButtonPressed (Some (translate tr i)) button
  = (button <=? HID_BTN_HOME) && Z.testbit (in_buttons i) button.
Proof.
  intros Hb; unfold isButtonPressed, HID_BTN_RESERVED_16, HID_BTN_HOME.
  cbn [translate buttons].
  destruct (Z.gtb_spec button 15).
  - destruct (Z.leb_spec button 12); [lia | reflexivity].
  - rewrite land_bit by exact Hb.
    destruct (Z.leb_spec button 12); cbn [andb].
    + apply InputTranslatorSpec.translateButtons_low_bits; lia.
    + apply InputTranslatorSpec.translateButtons_high_bits; lia.
Qed.

Lemma X9_isButtonPressed_translate_witness :
  isButtonPressed
    (Some (translate new (mkInputReport 1 128 128 128 128 8 0xE201 0 0 [])))
    HID_BTN_START = true
  /\ isButtonPressed
       (Some (translate new (mkInputReport 1 128 128 128 128 8 0xE201 0 0 [])))
       HID_BTN_RESERVED_14 = false.
Proof.
  split.
  - rewrite (X9_isButtonPressed_translate new
               (mkInputReport 1 128 128 128 128 8 0xE201 0 0 []) HID_BTN_START);
      [reflexivity | unfold HID_BTN_START; lia].
  - rewrite (X9_isButtonPressed_translate new
               (mkInputReport 1 128 128 128 128 8 0xE201 0 0 []) HID_BTN_RESERVED_14);
      [reflexivity | unfold HID_BTN_RESERVED_14; lia].
Defined.

Lemma keeps_extremes_upto_127 tr : 0 <= m_deadzone tr <= 127 -> keeps_extremes tr.
Proof.
  intros Hdz i.
  pose proof (InputTranslatorSpec.applyDeadzone_max _ Hdz) as Hmax.
  pose proof (InputTranslatorSpec.applyDeadzone_min _ Hdz) as Hmin.
  cbn [translate leftStickX leftStickY rightStickX rightStickY].
  repeat match goal with
  | |- _ /\ _ => split
  | |- _ = _ -> _ => let E := fresh in intros E; rewrite E; assumption
  end.
Qed.

(** X10: whatever stick deadzone is requested through [setDeadzone] or
    the constructor (any byte, clamped to 127 by both), the stored
    deadzone is at most 127 and [translate] keeps the physical extremes
    of every stick axis: 255 stays 255 and 0 stays 0. *)
Theorem X10_clamped_deadzone_keeps_extremes
    (requested : Z) (tr : InputTranslator.t) :
  is_uint8 requested ->
  m_deadzone (setDeadzone requested tr) <= 127
  /\ m_deadzone (new_with requested) <= 127
  /\ keeps_extremes (setDeadzone requested tr)
  /\ keeps_extremes (new_with requested).
Proof.
  intros Hr.
  assert (Hdz : 0 <= (if requested >? 127 then 127 else requested) <= 127).
  { unfold is_uint8 in Hr; destruct (Z.gtb_spec requested 127); lia. }
  split; [cbn [setDeadzone m_deadzone]; lia|].
  split; [cbn [new_with m_deadzone]; lia|].
  split; apply keeps_extremes_upto_127; cbn [setDeadzone new_with m_deadzone];
    exact Hdz.
Qed.

Lemma X10_clamped_deadzone_keeps_extremes_witness :
  m_deadzone (setDeadzone 200 new) <= 127
  /\ leftStickX (translate (setDeadzone 200 new)
                   (mkInputReport 1 255 0 0 0 8 0 0 0 [])) = 255.
Proof.
  destruct (X10_clamped_deadzone_keeps_extremes 200 new)
    as (Hc & _ & Hk & _); [unfold is_uint8; lia|].
  split; [exact Hc|].
  destruct (Hk (mkInputReport 1 255 0 0 0 8 0 0 0 [])) as (Hmax & _).
  apply Hmax; reflexivity.
Defined.

(** X11: with both deadzones at 0 (the state of a zero-filled
    translator) [translate] copies the four stick axes and the two
    triggers unchanged. *)
Theorem X11_translate_without_deadzones (i : BigbenInputReport) :
  input_ok i ->
  let o := translate (mk 0 0) i in
  leftStickX o = in_leftStickX i /\ leftStickY o = in_leftStickY i
  /\ rightStickX o = in_rightStickX i /\ rightStickY o = in_rightStickY i
  /\ leftTrigger o = in_leftTrigger i /\ rightTrigger o = in_rightTrigger i.
Proof.
  intros (Hlx & Hly & Hrx & Hry & Hd & Hb & Hlt & Hrt).
  cbn [translate m_deadzone m_triggerDeadzone leftStickX leftStickY
       rightStickX rightStickY leftTrigger rightTrigger].
  repeat split; try (now apply applyDeadzone_no_deadzone).
  - destruct (applyTriggerDeadzone_no_deadzone (in_leftTrigger i));
      [assumption | unfold is_uint8 in Hlt; lia].
  - destruct (applyTriggerDeadzone_no_deadzone (in_rightTrigger i));
      [assumption | unfold is_uint8 in Hrt; lia].
Qed.

Lemma X11_translate_without_deadzones_witness :
  leftStickX (translate (mk 0 0) (mkInputReport 1 131 90 128 255 3 5 7 200 []))
  = 131.
Proof.
  destruct (X11_translate_without_deadzones
              (mkInputReport 1 131 90 128 255 3 5 7 200 [])) as (H & _).
  - unfold input_ok, is_uint8, is_uint16; simpl; lia.
  - exact H.
Defined.

End TranslateSpec.

(** ** The virtual HID device *)

Module BigbenHIDDeviceIOSpec.
Import CInt CIntFacts Protocol IOKit BigbenHIDDevice BigbenHIDDeviceIO WellFormed.
Import Samples.

(** X12: an LED output report of at least 8 bytes stores the requested
    mask (byte 2) in [currentLEDState] whether or not a USB driver is
    attached; the call answers "not ready" and builds no frame without
    one, and otherwise builds the frame 01 08 mask 00 00 00 00 00. *)
Theorem X12_setReport_LED_caches_requested_state
    (iv : IVars) (m : MemoryDescriptor) (action : bool) :
  is_success (Map_ret m) = true ->
  byte_at (mem_bytes m) 0 = BIGBEN_REPORT_ID_LED ->
  8 <= mem_length m ->
  exists iv' r f,
    setReport iv (Some m) kIOHIDReportTypeOutput action
    = (r, iv', f, if action then [CompleteReport r (mem_length m)] else [])
    /\ currentLEDState iv' = byte_at (mem_bytes m) 2
    /\ usbDriver iv' = usbDriver iv
    /\ lastReport iv' = lastReport iv
    /\ hasValidReport iv' = hasValidReport iv
    /\ isStarted iv' = isStarted iv
    /\ r = (if usbDriver iv then kIOReturnSuccess else kIOReturnNotReady)
    /\ option_map frame_bytes f
       = (if usbDriver iv
          then Some [0x01; 0x08; byte_at (mem_bytes m) 2; 0; 0; 0; 0; 0]
          else None).
Proof.
  intros Hmap Hid Hlen.
  unfold setReport; cbn [is_output negb]; rewrite Hmap; cbn [negb].
  replace (mem_length m <? 1) with false by (symmetry; apply Z.ltb_ge; lia).
  unfold dispatch_output; rewrite Hid, Z.eqb_refl.
  replace (mem_length m >=? sizeof_BigbenLEDReport) with true
    by (symmetry; unfold sizeof_BigbenLEDReport; apply Z.geb_le; lia).
  unfold sendLEDToUSB.
  destruct (usbDriver iv) eqn:Hdrv; cbn [negb option_map];
    do 3 eexists; (split; [reflexivity|]);
    cbn [currentLEDState usbDriver lastReport hasValidReport isStarted
         frame_bytes led_bytes lr_reportId lr_reserved1 lr_ledState
         lr_padding app option_map];
    repeat split; auto.
Qed.

Lemma X12_setReport_LED_caches_requested_state_witness :
  exists iv' f,
    setReport init (Some (mkMemory kIOReturnSuccess [1; 8; 5; 0; 0; 0; 0; 0]))
              kIOHIDReportTypeOutput false
    = (kIOReturnNotReady, iv', f, [])
    /\ currentLEDState iv' = 5.
Proof.
  destruct (X12_setReport_LED_caches_requested_state init
              (mkMemory kIOReturnSuccess [1; 8; 5; 0; 0; 0; 0; 0]) false)
    as (iv' & r & f & Hrun & Hled & _ & _ & _ & _ & Hr & _);
    [reflexivity | reflexivity | cbn; lia |].
  exists iv', f; split; [rewrite Hrun, Hr; reflexivity | exact Hled].
Defined.

(** X13: a rumble output report of at least 8 bytes, with a USB driver
    attached, builds the frame 02 08 w s FF 00 00 00 where [s] is byte 3
    of the payload and [w] is 1 if byte 2 is nonzero and 0 otherwise; the
    instance variables are unchanged, and sending the bytes of the built
    frame again builds the same frame. *)
Theorem X13_setReport_rumble_normal_form
    (iv : IVars) (m : MemoryDescriptor) (action : bool) :
  usbDriver iv = true ->
  is_success (Map_ret m) = true ->
  byte_at (mem_bytes m) 0 = BIGBEN_REPORT_ID_RUMBLE ->
  8 <= mem_length m ->
  is_uint8 (byte_at (mem_bytes m) 2) ->
  exists f,
    setReport iv (Some m) kIOHIDReportTypeOutput action
    = (kIOReturnSuccess, iv, Some f,
       if action then [CompleteReport kIOReturnSuccess (mem_length m)] else [])
    /\ frame_bytes f
       = [0x02; 0x08; if byte_at (mem_bytes m) 2 =? 0 then 0 else 1;
          byte_at (mem_bytes m) 3; 0xFF; 0; 0; 0]
    /\ setReport iv (Some (mkMemory kIOReturnSuccess (frame_bytes f)))
                 kIOHIDReportTypeOutput false
       = (kIOReturnSuccess, iv, Some f, []).
Proof.
  intros Hdrv Hmap Hid Hlen Hw.
  unfold setReport at 1; cbn [is_output negb]; rewrite Hmap; cbn [negb].
  replace (mem_length m <? 1) with false by (symmetry; apply Z.ltb_ge; lia).
  unfold dispatch_output; rewrite Hid.
  change (BIGBEN_REPORT_ID_RUMBLE =? BIGBEN_REPORT_ID_LED) with false.
  rewrite Z.eqb_refl; cbv iota.
  replace (mem_length m >=? sizeof_BigbenRumbleReport) with true
    by (symmetry; unfold sizeof_BigbenRumbleReport; apply Z.geb_le; lia).
  unfold sendRumbleToUSB; rewrite Hdrv; cbn [negb option_map].
  eexists; split; [reflexivity|].
  set (w := byte_at (mem_bytes m) 2) in *.
  assert (E : (if w >? 0 then 1 else 0) = (if w =? 0 then 0 else 1)).
  { unfold is_uint8 in Hw; destruct (Z.gtb_spec w 0), (Z.eqb_spec w 0); lia. }
  cbn [frame_bytes rumble_bytes rr_reportId rr_reserved1 rr_rightMotorOn
       rr_leftMotorForce rr_duration rr_padding app].
  rewrite E; split; [reflexivity|].
  unfold setReport; cbn [is_output negb Map_ret is_success mem_length mem_bytes
                         length Z.of_nat].
  unfold dispatch_output, byte_at; cbn [nth].
  change (BIGBEN_REPORT_ID_RUMBLE =? BIGBEN_REPORT_ID_LED) with false.
  cbn [Z.ltb Z.compare Pos.compare Pos.compare_cont Pos.of_succ_nat Pos.succ].
  unfold sendRumbleToUSB; rewrite Hdrv; cbn [negb option_map].
  destruct (Z.eqb_spec w 0); reflexivity.
Qed.


Lemma X13_setReport_rumble_normal_form_witness :
  exists f,
    setReport (setUSBDriver true init)
              (Some (mkMemory kIOReturnSuccess [2; 0; 77; 200; 3; 9; 9; 9]))
              kIOHIDReportTypeOutput false
    = (kIOReturnSuccess, setUSBDriver true init, Some f, [])
    /\ frame_bytes f = [0x02; 0x08; 1; 200; 0xFF; 0; 0; 0].
Proof.
  destruct (X13_setReport_rumble_normal_form (setUSBDriver true init)
              (mkMemory kIOReturnSuccess [2; 0; 77; 200; 3; 9; 9; 9]) false)
    as (f & Hrun & Hbytes & _);
    [reflexivity | reflexivity | reflexivity | cbn; lia
     | unfold is_uint8; cbn; lia |].
  exists f; split; [exact Hrun | exact Hbytes].
Defined.

Lemma same_but_led_refl iv : same_but_led iv iv.
Proof. repeat split. Qed.

(** Closes a case of [setReport] once the result is in sight. *)
Ltac fin action :=
  do 4 eexists; (split; [reflexivity|]);
  (split; [split; [first [intros _; discriminate | intros E; discriminate E]
                  |first [intros _; reflexivity
                         |intros H; exfalso; apply H; reflexivity]]|]);
  (split; [first [intros _; reflexivity
                 |intros H; exfalso; apply H; reflexivity]|]);
  (split; [repeat split; cbn; congruence|]);
  destruct action; cbn [length]; lia.

(** X14: [setReport] answers success exactly when it built a frame, and
    it builds one only with a USB driver attached; whatever it is given,
    it changes no instance variable other than [currentLEDState], and
    completes the action at most once. *)
Theorem X14_setReport_success_iff_frame
    (iv : IVars) (report : option MemoryDescriptor)
    (reportType : IOHIDReportType) (action : bool) :
  exists r iv' f e,
    setReport iv report reportType action = (r, iv', f, e)
    /\ (r = kIOReturnSuccess <-> f <> None)
    /\ (f <> None -> usbDriver iv = true)
    /\ same_but_led iv iv'
    /\ (length e <= 1)%nat.
Proof.
  unfold setReport, dispatch_output, sendLEDToUSB, sendRumbleToUSB.
  destruct report as [m|]; [|fin action].
  destruct (is_output reportType); cbn [negb]; [|fin action].
  destruct (is_success (Map_ret m)) eqn:Hmap; cbn [negb].
  2:{ do 4 eexists; split; [reflexivity|].
      split; [split; [intros E; rewrite E in Hmap; discriminate Hmap
                     |intros H; exfalso; apply H; reflexivity]|].
      split; [intros H; exfalso; apply H; reflexivity|].
      split; [apply same_but_led_refl | cbn [length]; lia]. }
  destruct (mem_length m <? 1); [fin action|].
  destruct (byte_at (mem_bytes m) 0 =? BIGBEN_REPORT_ID_LED).
  { destruct (mem_length m >=? sizeof_BigbenLEDReport); [|fin action].
    destruct (usbDriver iv) eqn:Hdrv; cbn [negb option_map]; fin action. }
  destruct (byte_at (mem_bytes m) 0 =? BIGBEN_REPORT_ID_RUMBLE); [|fin action].
  destruct (mem_length m >=? sizeof_BigbenRumbleReport); [|fin action].
  destruct (usbDriver iv) eqn:Hdrv; cbn [negb option_map]; fin action.
Qed.

Lemma getReport_accepted iv m options action :
  input_id options ->
  is_success (Map_ret m) = true ->
  sizeof_BigbenHIDReport <= mem_length m ->
  getReport iv (Some m) kIOHIDReportTypeInput options action
  = (kIOReturnSuccess,
     Some (match iv with
           | Some v => if hasValidReport v then lastReport v
                       else InputTranslator.initializeNeutralReport
           | None => InputTranslator.initializeNeutralReport
           end),
     if action then [CompleteReport kIOReturnSuccess sizeof_BigbenHIDReport]
     else []).
Proof.
  intros Hid Hmap Hlen; unfold getReport; cbn [is_input negb].
  replace (negb (uint8 (Z.land options 0xFF) =? 0)
           && negb (uint8 (Z.land options 0xFF) =? BIGBEN_REPORT_ID_INPUT))
    with false
    by (destruct Hid as [-> | ->]; reflexivity).
  rewrite Hmap; cbn [negb].
  replace (mem_length m <? sizeof_BigbenHIDReport) with false
    by (symmetry; apply Z.ltb_ge; exact Hlen).
  reflexivity.
Qed.

Lemma handleInputReport_accepted h v data n :
  isStarted v = true -> sizeof_BigbenInputReport <= n ->
  byte_at data 0 = BIGBEN_REPORT_ID_INPUT ->
  exists r v' e,
    handleInputReport h (Some v) (Some data) n = (r, Some v', e)
    /\ lastReport v'
       = InputTranslator.translate (translator v) (as_BigbenInputReport data)
    /\ hasValidReport v' = true
    /\ isStarted v' = true
    /\ translator v' = translator v
    /\ usbDriver v' = usbDriver v
    /\ currentLEDState v' = currentLEDState v.
Proof.
  intros Hst Hn Hid; unfold handleInputReport; rewrite Hst; cbn [negb].
  replace (n <? sizeof_BigbenInputReport) with false
    by (symmetry; apply Z.ltb_ge; exact Hn).
  cbn [as_BigbenInputReport in_reportId]; rewrite Hid, Z.eqb_refl; cbn [negb].
  destruct (negb (is_success (fst (Create_reportBuffer h)))
            || negb (snd (Create_reportBuffer h)));
    [|destruct (is_success (fst (Map_reportBuffer h))
                && negb (snd (Map_reportBuffer h) =? 0))];
    do 3 eexists; (split; [reflexivity|]);
    cbn [lastReport hasValidReport isStarted translator usbDriver
         currentLEDState]; repeat split; auto.
Qed.

(** X15: once the started device has accepted an input report (64
    bytes or more, identifier 1), [getReport] for the input report
    returns exactly the translation of that report, whether or not the
    delivery to the host succeeded (buffer creation, mapping and
    [handleReport] may all fail). *)
Theorem X15_handleInputReport_getReport_round_trip
    (h : InputHost) (v : IVars) (data : list Z) (n : Z)
    (m : MemoryDescriptor) (options : Z) :
  isStarted v = true -> sizeof_BigbenInputReport <= n ->
  byte_at data 0 = BIGBEN_REPORT_ID_INPUT ->
  input_id options -> is_success (Map_ret m) = true ->
  sizeof_BigbenHIDReport <= mem_length m ->
  exists r v' e,
    handleInputReport h (Some v) (Some data) n = (r, Some v', e)
    /\ getReport (Some v') (Some m) kIOHIDReportTypeInput options false
       = (kIOReturnSuccess,
          Some (InputTranslator.translate (translator v) (as_BigbenInputReport data)),
          []).
Proof.
  intros Hst Hn Hid Hopt Hmap Hlen.
  destruct (handleInputReport_accepted h v data n Hst Hn Hid)
    as (r & v' & e & Hrun & Hlast & Hvalid & _).
  exists r, v', e; split; [exact Hrun|].
  rewrite getReport_accepted by assumption.
  rewrite Hvalid, Hlast; reflexivity.
Qed.

Lemma X15_handleInputReport_getReport_round_trip_witness :
  exists r v' e,
    handleInputReport starved_host (Some hid_started) (Some pressed) 64
    = (r, Some v', e)
    /\ getReport (Some v') (Some (buffer 10)) kIOHIDReportTypeInput 1 false
       = (kIOReturnSuccess, Some (mkHIDReport 1 513 200 128 128 128 0 255 2), []).
Proof.
  destruct (X15_handleInputReport_getReport_round_trip
              starved_host hid_started pressed 64 (buffer 10) 1)
    as (r & v' & e & Hrun & Hget);
    [reflexivity | unfold sizeof_BigbenInputReport; lia | reflexivity
     | right; reflexivity | reflexivity | vm_compute; discriminate |].
  exists r, v', e; split; [exact Hrun|].
  rewrite Hget; reflexivity.
Defined.

(** X16: [handleInputReport] changes the instance variables or delivers
    something only for a started device given a non-null buffer of at
    least 64 bytes whose first byte is 1; then the cache holds the
    translation of that buffer, and a report handed to the host is that
    same translation. *)
Theorem X16_handleInputReport_touches_only_when_accepted
    (h : InputHost) (iv : option IVars) (inputData : option (list Z)) (n : Z)
    (r : IOReturn) (iv' : option IVars) (e : list Effect) :
  handleInputReport h iv inputData n = (r, iv', e) ->
  iv' <> iv \/ e <> [] ->
  exists v data v',
    iv = Some v /\ inputData = Some data /\ iv' = Some v'
    /\ isStarted v = true
    /\ sizeof_BigbenInputReport <= n
    /\ byte_at data 0 = BIGBEN_REPORT_ID_INPUT
    /\ lastReport v'
       = InputTranslator.translate (translator v) (as_BigbenInputReport data)
    /\ hasValidReport v' = true
    /\ (forall ts rep, In (HandleReport ts rep) e -> rep = lastReport v').
Proof.
  unfold handleInputReport; intros Hrun Hch.
  assert (Hno : forall r0, (r0, iv, @nil Effect) = (r, iv', e) -> False).
  { intros r0 E; injection E as _ <- <-; destruct Hch as [H|H]; now apply H. }
  destruct iv as [v|]; [|exfalso; eapply Hno; exact Hrun].
  destruct (isStarted v) eqn:Hst; cbn [negb] in Hrun;
    [|exfalso; eapply Hno; exact Hrun].
  destruct inputData as [data|]; [|exfalso; eapply Hno; exact Hrun].
  destruct (Z.ltb_spec n sizeof_BigbenInputReport);
    [exfalso; eapply Hno; exact Hrun|].
  cbn [as_BigbenInputReport in_reportId] in Hrun.
  destruct (Z.eqb_spec (byte_at data 0) BIGBEN_REPORT_ID_INPUT) as [Hid|Hid];
    cbn [negb] in Hrun; [|exfalso; eapply Hno; exact Hrun].
  destruct (negb (is_success (fst (Create_reportBuffer h)))
            || negb (snd (Create_reportBuffer h)));
    [|destruct (is_success (fst (Map_reportBuffer h))
                && negb (snd (Map_reportBuffer h) =? 0))];
    injection Hrun as <- <- <-;
    do 3 eexists; (split; [reflexivity|]); (split; [reflexivity|]);
    (split; [reflexivity|]);
    cbn [lastReport hasValidReport]; repeat split; auto;
    intros ts rep Hin; cbn [In] in Hin;
    repeat match goal with
    | Hin : _ \/ _ |- _ => destruct Hin as [Hin|Hin]
    | Hin : False |- _ => contradiction
    | Hin : HandleReport _ _ = HandleReport _ _ |- _ =>
      injection Hin as _ <-; reflexivity
    end.
Qed.

Lemma X16_handleInputReport_touches_only_when_accepted_witness :
  exists v',
    snd (fst (handleInputReport input_host (Some hid_started)
                (Some pressed) 64)) = Some v'
    /\ lastReport v' = mkHIDReport 1 513 200 128 128 128 0 255 2
    /\ snd (handleInputReport input_host (Some hid_started)
              (Some pressed) 64)
       = [HandleReport 7 (lastReport v')].
Proof.
  destruct (X16_handleInputReport_touches_only_when_accepted
              input_host (Some hid_started) (Some pressed) 64
              (fst (fst (handleInputReport input_host (Some hid_started)
                           (Some pressed) 64)))
              (snd (fst (handleInputReport input_host (Some hid_started)
                           (Some pressed) 64)))
              (snd (handleInputReport input_host (Some hid_started)
                      (Some pressed) 64)))
    as (v & data & v' & _ & _ & Hv' & _ & _ & _ & Hlast & _ & _);
    [reflexivity | right; vm_compute; discriminate |].
  exists v'; split; [exact Hv'|].
  clear - Hv'; vm_compute in Hv'; injection Hv' as <-; split; reflexivity.
Defined.

(** X17: [getReport] for the input report never fails for lack of
    data: while no report has been cached (or without instance
    variables) it copies the neutral report, provided the caller's
    buffer maps and holds the 10 bytes of a [BigbenHIDReport]; a shorter
    buffer gets "no space" and nothing is copied. *)
Theorem X17_getReport_defaults_to_neutral
    (iv : option IVars) (m : MemoryDescriptor) (options : Z) :
  input_id options -> is_success (Map_ret m) = true ->
  (forall v, iv = Some v -> hasValidReport v = false) ->
  (sizeof_BigbenHIDReport <= mem_length m ->
   getReport iv (Some m) kIOHIDReportTypeInput options false
   = (kIOReturnSuccess, Some InputTranslator.initializeNeutralReport, []))
  /\ (mem_length m < sizeof_BigbenHIDReport ->
      getReport iv (Some m) kIOHIDReportTypeInput options false
      = (kIOReturnNoSpace, None, [])).
Proof.
  intros Hid Hmap Hnone; split; intros Hlen.
  - rewrite getReport_accepted by assumption.
    destruct iv as [v|]; [rewrite (Hnone v eq_refl)|]; reflexivity.
  - unfold getReport; cbn [is_input negb].
    replace (negb (uint8 (Z.land options 0xFF) =? 0)
             && negb (uint8 (Z.land options 0xFF) =? BIGBEN_REPORT_ID_INPUT))
      with false
      by (destruct Hid as [-> | ->]; reflexivity).
    rewrite Hmap; cbn [negb].
    replace (mem_length m <? sizeof_BigbenHIDReport) with true
      by (symmetry; apply Z.ltb_lt; exact Hlen).
    reflexivity.
Qed.

Lemma X17_getReport_defaults_to_neutral_witness :
  getReport (Some hid_started) (Some (buffer 16)) kIOHIDReportTypeInput 0 false
  = (kIOReturnSuccess, Some (mkHIDReport 1 0 128 128 128 128 0 0 8), [])
  /\ getReport (Some hid_started) (Some (buffer 9)) kIOHIDReportTypeInput 0 false
     = (kIOReturnNoSpace, None, []).
Proof.
  destruct (X17_getReport_defaults_to_neutral (Some hid_started) (buffer 16) 0)
    as (Hfull & _);
    [left; reflexivity | reflexivity
     | intros v E; injection E as <-; reflexivity |].
  destruct (X17_getReport_defaults_to_neutral (Some hid_started) (buffer 9) 0)
    as (_ & Hshort);
    [left; reflexivity | reflexivity
     | intros v E; injection E as <-; reflexivity |].
  split; [apply Hfull | apply Hshort]; vm_compute; [discriminate | reflexivity].
Defined.

(** X18: [Start] makes the device accept input as soon as the parent's
    [Start] succeeds, whether or not the report descriptor could be
    cached and the service registered; after [Stop] the same input is
    refused with "not ready", nothing is delivered, and the report cached
    before the stop is kept. *)
Theorem X18_input_accepted_between_Start_and_Stop
    (hs : StartHost) (h : InputHost) (v : IVars) (data : list Z) (n : Z)
    (super_Stop : IOReturn) :
  is_success (super_Start hs) = true ->
  sizeof_BigbenInputReport <= n ->
  byte_at data 0 = BIGBEN_REPORT_ID_INPUT ->
  exists v1 r v2 e2,
    Start hs v = (kIOReturnSuccess, v1, [RegisterService])
    /\ handleInputReport h (Some v1) (Some data) n = (r, Some v2, e2)
    /\ lastReport v2
       = InputTranslator.translate (translator v) (as_BigbenInputReport data)
    /\ handleInputReport h (Some (snd (Stop super_Stop v2))) (Some data) n
       = (kIOReturnNotReady, Some (snd (Stop super_Stop v2)), [])
    /\ lastReport (snd (Stop super_Stop v2)) = lastReport v2
    /\ hasValidReport (snd (Stop super_Stop v2)) = true.
Proof.
  intros Hsuper Hn Hid.
  unfold Start; rewrite Hsuper; cbn [negb].
  match goal with
  | |- context [(kIOReturnSuccess, ?s, [RegisterService])] => set (v1 := s)
  end.
  destruct (handleInputReport_accepted h v1 data n eq_refl Hn Hid)
    as (r & v2 & e2 & Hrun & Hlast & Hvalid & _ & Htr & _).
  exists v1, r, v2, e2.
  split; [reflexivity|]. split; [exact Hrun|].
  split; [rewrite Hlast; reflexivity|].
  split; [reflexivity|]. split; [reflexivity | exact Hvalid].
Qed.

Lemma X18_input_accepted_between_Start_and_Stop_witness :
  exists v2,
    handleInputReport input_host (Some hid_started) (Some pressed) 64
    = (kIOReturnSuccess, Some v2, [HandleReport 7 (lastReport v2)])
    /\ handleInputReport input_host (Some (snd (Stop kIOReturnSuccess v2)))
                         (Some pressed) 64
       = (kIOReturnNotReady, Some (snd (Stop kIOReturnSuccess v2)), []).
Proof.
  destruct (X18_input_accepted_between_Start_and_Stop
              (mkStartHost kIOReturnSuccess true (kIOReturnSuccess, true)
                           kIOReturnSuccess)
              input_host init pressed 64 kIOReturnSuccess)
    as (v1 & r & v2 & e2 & Hstart & Hrun & _ & Hstop & _);
    [reflexivity | unfold sizeof_BigbenInputReport; lia | reflexivity |].
  injection Hstart as <-.
  exists v2; split; [|exact Hstop].
  change (handleInputReport input_host (Some hid_started) (Some pressed) 64
          = (r, Some v2, e2)) in Hrun.
  vm_compute in Hrun; injection Hrun as <- <- <-; reflexivity.
Defined.

End BigbenHIDDeviceIOSpec.

(** ** The read cycle over whole runs, the life cycle, output reports *)

Module BigbenUSBDriverRunSpec.
Import CInt CIntFacts Protocol IOKit BigbenUSBDriver Trace Accounting.
Import BigbenUSBDriverSpec.
Import BigbenHIDDeviceIO (IOHIDReportType, kIOHIDReportTypeInput,
  kIOHIDReportTypeOutput, kIOHIDReportTypeFeature, is_input, is_output,
  MemoryDescriptor, mkMemory, Map_ret, mem_bytes, mem_length, byte_at).
Import BigbenUSBDriverReports.
Local Open Scope drv_scope.

(** What one completion may change. *)
Lemma ReadComplete_frame h status n s s' e :
  ReadComplete h status n s = Some (tt, s', e) ->
  same_objects s s'
  /\ isStarted s' = isStarted s
  /\ deviceConnected s' = deviceConnected s
  /\ outputReportsSent s' = outputReportsSent s
  /\ (isPolling s' = true -> isPolling s = true)
  /\ (arms e <= 1)%nat
  /\ (deliveries e <= 1)%nat
  /\ (arms e = 1%nat -> isPolling s = true /\ deviceConnected s = true).
Proof.
  intros Hrun.
  assert (Hre : forall s0 s1 e1,
             same_objects s s0 -> isStarted s0 = isStarted s ->
             deviceConnected s0 = deviceConnected s ->
             outputReportsSent s0 = outputReportsSent s ->
             isPolling s0 = isPolling s ->
             rearm h s0 = Some (tt, s1, e1) ->
             same_objects s s1
             /\ isStarted s1 = isStarted s
             /\ deviceConnected s1 = deviceConnected s
             /\ outputReportsSent s1 = outputReportsSent s
             /\ (isPolling s1 = true -> isPolling s = true)
             /\ (arms e1 <= 1)%nat
             /\ deliveries e1 = 0%nat
             /\ (arms e1 = 1%nat -> isPolling s = true /\ deviceConnected s = true)).
  { intros s0 s1 e1 Ho Hst Hc Hout Hp Hr.
    rewrite rearm_spec in Hr.
    destruct (isPolling s0) eqn:Hp0, (deviceConnected s0) eqn:Hc0;
      cbn [andb] in Hr;
      try (injection Hr as <- <-; cbn; repeat split; try congruence;
           try lia; try apply Ho; discriminate).
    destruct (inputPipe s0); [|discriminate Hr].
    injection Hr as <- <-.
    destruct (is_success (AsyncIO_input h));
      cbn [set_isPolling isStarted deviceConnected outputReportsSent isPolling];
      (split; [exact Ho|]); cbn; repeat split; try congruence; lia. }
  destruct (is_disconnect status) eqn:Hd.
  { rewrite ReadComplete_disconnect in Hrun by exact Hd.
    injection Hrun as <- <-; cbn; repeat split; auto; try lia; discriminate. }
  assert (Hobj : forall v, same_objects s (set_reportErrors v s))
    by (intros; repeat split).
  destruct (is_success status) eqn:Hs.
  2:{ rewrite ReadComplete_error in Hrun by assumption.
      destruct (rearm h _) as [[[[] s1] e1]|] eqn:Hr; [|discriminate Hrun].
      injection Hrun as <- <-.
      destruct (Hre _ _ _ (Hobj _) eq_refl eq_refl eq_refl eq_refl Hr)
        as (H1 & H2 & H3 & H4 & H5 & H6 & H7 & H8).
      repeat split; try assumption; try apply H1; try apply H8; try assumption;
        rewrite H7; lia. }
  apply is_success_inv in Hs; subst status.
  destruct (Z.lt_ge_cases n sizeof_BigbenInputReport) as [Hn|Hn].
  { rewrite ReadComplete_short in Hrun by exact Hn.
    destruct (rearm h _) as [[[[] s1] e1]|] eqn:Hr; [|discriminate Hrun].
    injection Hrun as <- <-.
    destruct (Hre _ _ _ (Hobj _) eq_refl eq_refl eq_refl eq_refl Hr)
      as (H1 & H2 & H3 & H4 & H5 & H6 & H7 & H8).
    repeat split; try assumption; try apply H1; try apply H8; try assumption;
      rewrite H7; lia. }
  destruct (inputBuffer s) eqn:Hbuf.
  2:{ exfalso; revert Hrun.
      unfold ReadComplete; cbn [is_aborted is_not_responding is_success orb negb].
      replace (n <? sizeof_BigbenInputReport) with false
        by (symmetry; now apply Z.ltb_ge).
      unfold bind at 1, deref; rewrite Hbuf; discriminate. }
  destruct (is_success (fst (Map_inputBuffer h))
            && negb (snd (Map_inputBuffer h) =? 0)) eqn:Hmap.
  2:{ rewrite ReadComplete_unmapped in Hrun by assumption.
      destruct (rearm h s) as [[[[] s1] e1]|] eqn:Hr; [|discriminate Hrun].
      injection Hrun as <- <-.
      assert (Hself : same_objects s s) by (repeat split).
      destruct (Hre _ _ _ Hself eq_refl eq_refl eq_refl eq_refl Hr)
        as (H1 & H2 & H3 & H4 & H5 & H6 & H7 & H8).
      repeat split; try assumption; try apply H1; try apply H8; try assumption;
        rewrite H7; lia. }
  apply andb_true_iff in Hmap; destruct Hmap as [Hm Ha].
  apply negb_true_iff, Z.eqb_neq in Ha.
  rewrite ReadComplete_full in Hrun by assumption.
  destruct (rearm h _) as [[[[] s1] e1]|] eqn:Hr; [|discriminate Hrun].
  injection Hrun as <- <-.
  assert (Hpar : same_objects s (parsed (inputData h) s)
                 /\ isStarted (parsed (inputData h) s) = isStarted s
                 /\ deviceConnected (parsed (inputData h) s) = deviceConnected s
                 /\ outputReportsSent (parsed (inputData h) s) = outputReportsSent s
                 /\ isPolling (parsed (inputData h) s) = isPolling s).
  { unfold parsed; destruct (nth 0 (inputData h) 0 =? BIGBEN_REPORT_ID_INPUT);
      repeat split. }
  destruct Hpar as (P1 & P2 & P3 & P4 & P5).
  assert (Hobj2 : same_objects s
                    (set_reportsReceived
                       (uint64 (reportsReceived (parsed (inputData h) s) + 1))
                       (parsed (inputData h) s)))
    by (unfold same_objects in *; cbn [set_reportsReceived interface inputPipe
          outputPipe inputBuffer outputBuffer hidDescriptor readAction
          writeAction]; exact P1).
  destruct (Hre _ _ _ Hobj2 P2 P3 P4 P5 Hr)
    as (H1 & H2 & H3 & H4 & H5 & H6 & H7 & H8).
  unfold arms, deliveries in *; cbn [filter is_arm is_delivery length].
  repeat split; try assumption; try apply H1; try apply H8; try assumption;
    rewrite H7; lia.
Qed.


Lemma uint64_succ a k :
  uint64 (uint64 (a + k) + 1) = uint64 (a + (k + 1)).
Proof.
  unfold uint64; rewrite Z.add_mod_idemp_l by lia; f_equal; lia.
Qed.

Lemma rearm_counters h s s' e :
  rearm h s = Some (tt, s', e) ->
  reportsReceived s' = reportsReceived s
  /\ reportErrors s' = reportErrors s
  /\ lastReport s' = lastReport s
  /\ hasLastReport s' = hasLastReport s
  /\ deliveries e = 0%nat.
Proof.
  rewrite rearm_spec; intros Hr.
  destruct (isPolling s && deviceConnected s).
  - destruct (inputPipe s); [|discriminate Hr].
    injection Hr as <- <-.
    destruct (is_success (AsyncIO_input h)); repeat split.
  - injection Hr as <- <-; repeat split.
Qed.

Lemma rearm_total h s :
  inputPipe s = true -> exists s' e, rearm h s = Some (tt, s', e).
Proof.
  intros Hp; rewrite rearm_spec, Hp.
  destruct (isPolling s && deviceConnected s); do 2 eexists; reflexivity.
Qed.

Lemma uint64_range z : 0 <= uint64 z < 18446744073709551616.
Proof. unfold uint64; apply Z.mod_pos_bound; lia. Qed.

(** With the input pipe and buffer present a completion is always
    handled, and each counter moves as the completion says. *)
Lemma ReadComplete_counts h status n s :
  inputPipe s = true -> inputBuffer s = true -> counters_ok s ->
  exists s' e,
    ReadComplete h status n s = Some (tt, s', e)
    /\ reportsReceived s' = uint64 (reportsReceived s + Z.of_nat (deliveries e))
    /\ reportErrors s'
       = uint64 (reportErrors s
                 + Z.of_nat (error_completions [mkCompletion h status n]))
    /\ counters_ok s'
    /\ (cache_ok s -> cache_ok s').
Proof.
  intros Hpipe Hbuf (Hrr & Hre & Hos).
  unfold error_completions, is_error_completion;
    cbn [filter c_status c_actualByteCount].
  destruct (is_disconnect status) eqn:Hd.
  { exists s, []; rewrite ReadComplete_disconnect by exact Hd.
    cbn [deliveries filter length Z.of_nat].
    rewrite !Z.add_0_r, !uint64_id by assumption.
    repeat split; auto; lia. }
  destruct (is_success status) eqn:Hs.
  2:{ rewrite ReadComplete_error by assumption.
      destruct (rearm_total h (set_reportErrors (uint64 (reportErrors s + 1)) s) Hpipe)
        as (s1 & e1 & Hr).
      rewrite Hr; exists s1, e1; split; [reflexivity|].
      destruct (rearm_counters _ _ _ _ Hr) as (R1 & R2 & R3 & R4 & R5).
      pose proof (ReadComplete_frame h status n s s1 e1) as Hf.
      rewrite ReadComplete_error, Hr in Hf by assumption.
      destruct (Hf eq_refl) as (_ & _ & _ & Hout & _).
      rewrite R5, R1, R2; cbn [set_reportErrors reportsReceived reportErrors length Z.of_nat].
      rewrite Z.add_0_r, uint64_id by assumption.
      split; [reflexivity|]. split; [reflexivity|].
      split; [unfold counters_ok; rewrite R1, R2, Hout;
              cbn [set_reportErrors reportsReceived reportErrors];
              pose proof (uint64_range (reportErrors s + 1)); lia|].
      unfold cache_ok; rewrite R3, R4; auto. }
  apply is_success_inv in Hs; subst status.
  destruct (Z.ltb_spec n sizeof_BigbenInputReport) as [Hn|Hn].
  { rewrite ReadComplete_short by exact Hn.
    destruct (rearm_total h (set_reportErrors (uint64 (reportErrors s + 1)) s) Hpipe)
      as (s1 & e1 & Hr).
    rewrite Hr; exists s1, e1; split; [reflexivity|].
    destruct (rearm_counters _ _ _ _ Hr) as (R1 & R2 & R3 & R4 & R5).
    pose proof (ReadComplete_frame h kIOReturnSuccess n s s1 e1) as Hf.
    rewrite ReadComplete_short, Hr in Hf by assumption.
    destruct (Hf eq_refl) as (_ & _ & _ & Hout & _).
    rewrite R5, R1, R2; cbn [set_reportErrors reportsReceived reportErrors length Z.of_nat].
    rewrite Z.add_0_r, uint64_id by assumption.
    split; [reflexivity|]. split; [reflexivity|].
    split; [unfold counters_ok; rewrite R1, R2, Hout;
            cbn [set_reportErrors reportsReceived reportErrors];
            pose proof (uint64_range (reportErrors s + 1)); lia|].
    unfold cache_ok; rewrite R3, R4; auto. }
  cbn [length Z.of_nat]; rewrite Z.add_0_r, (uint64_id (reportErrors s)) by assumption.
  destruct (is_success (fst (Map_inputBuffer h))
            && negb (snd (Map_inputBuffer h) =? 0)) eqn:Hmap.
  2:{ rewrite ReadComplete_unmapped by assumption.
      destruct (rearm_total h s Hpipe) as (s1 & e1 & Hr).
      rewrite Hr; exists s1, e1; split; [reflexivity|].
      destruct (rearm_counters _ _ _ _ Hr) as (R1 & R2 & R3 & R4 & R5).
      pose proof (ReadComplete_frame h kIOReturnSuccess n s s1 e1) as Hf.
      rewrite ReadComplete_unmapped, Hr in Hf by assumption.
      destruct (Hf eq_refl) as (_ & _ & _ & Hout & _).
      rewrite R5, R1, R2; cbn [Z.of_nat].
      rewrite Z.add_0_r, uint64_id by assumption.
      split; [reflexivity|]. split; [reflexivity|].
      split; [unfold counters_ok; rewrite R1, R2, Hout; lia|].
      unfold cache_ok; rewrite R3, R4; auto. }
  apply andb_true_iff in Hmap; destruct Hmap as [Hm Ha].
  apply negb_true_iff, Z.eqb_neq in Ha.
  rewrite ReadComplete_full by assumption.
  destruct (parsed_flags (inputData h) s) as (_ & _ & _ & Ppipe & Perr & Prr).
  set (s0 := set_reportsReceived
               (uint64 (reportsReceived (parsed (inputData h) s) + 1))
               (parsed (inputData h) s)).
  assert (Hpipe0 : inputPipe s0 = true)
    by (unfold s0; cbn [set_reportsReceived inputPipe]; congruence).
  destruct (rearm_total h s0 Hpipe0) as (s1 & e1 & Hr).
  rewrite Hr; exists s1, (HandleReport (mach_absolute_time h) (inputData h) n :: e1).
  split; [reflexivity|].
  destruct (rearm_counters _ _ _ _ Hr) as (R1 & R2 & R3 & R4 & R5).
  pose proof (ReadComplete_frame h kIOReturnSuccess n s s1
                (HandleReport (mach_absolute_time h) (inputData h) n :: e1)) as Hf.
  rewrite ReadComplete_full in Hf by assumption.
  fold s0 in Hf; rewrite Hr in Hf.
  destruct (Hf eq_refl) as (_ & _ & _ & Hout & _).
  unfold deliveries in *; cbn [filter is_delivery length]; rewrite R5.
  rewrite R1, R2; unfold s0; cbn [set_reportsReceived reportsReceived reportErrors].
  rewrite Prr, Perr.
  split; [reflexivity|]. split; [reflexivity|].
  split; [unfold counters_ok; rewrite R1, R2, Hout; unfold s0;
          cbn [set_reportsReceived reportsReceived reportErrors];
          rewrite Perr;
          pose proof (uint64_range (reportsReceived (parsed (inputData h) s) + 1));
          lia|].
  unfold cache_ok; rewrite R3, R4; unfold s0;
    cbn [set_reportsReceived lastReport hasLastReport].
  unfold parsed.
  destruct (Z.eqb_spec (nth 0 (inputData h) 0) BIGBEN_REPORT_ID_INPUT) as [Hid|Hid];
    [|auto].
  intros _ _; cbn [set_hasLastReport set_lastReport lastReport].
  destruct (inputData h) as [|b rest]; [discriminate Hid | exact Hid].
Qed.


(** With the input pipe and buffer present a completion never faults. *)
Lemma ReadComplete_total h status n s :
  inputPipe s = true -> inputBuffer s = true ->
  exists s' e, ReadComplete h status n s = Some (tt, s', e).
Proof.
  intros Hpipe Hbuf.
  destruct (is_disconnect status) eqn:Hd.
  { exists s, []; now apply ReadComplete_disconnect. }
  destruct (is_success status) eqn:Hs.
  2:{ rewrite ReadComplete_error by assumption.
      destruct (rearm_total h (set_reportErrors (uint64 (reportErrors s + 1)) s) Hpipe)
        as (s1 & e1 & ->); do 2 eexists; reflexivity. }
  apply is_success_inv in Hs; subst status.
  destruct (Z.lt_ge_cases n sizeof_BigbenInputReport) as [Hn|Hn].
  { rewrite ReadComplete_short by exact Hn.
    destruct (rearm_total h (set_reportErrors (uint64 (reportErrors s + 1)) s) Hpipe)
      as (s1 & e1 & ->); do 2 eexists; reflexivity. }
  destruct (is_success (fst (Map_inputBuffer h))
            && negb (snd (Map_inputBuffer h) =? 0)) eqn:Hmap.
  2:{ rewrite ReadComplete_unmapped by assumption.
      destruct (rearm_total h s Hpipe) as (s1 & e1 & ->);
        do 2 eexists; reflexivity. }
  apply andb_true_iff in Hmap; destruct Hmap as [Hm Ha].
  apply negb_true_iff, Z.eqb_neq in Ha.
  rewrite ReadComplete_full by assumption.
  destruct (parsed_flags (inputData h) s) as (_ & _ & _ & Ppipe & _).
  match goal with |- context [rearm h ?x] =>
    destruct (rearm_total h x) as (s1 & e1 & ->)
  end; [cbn [set_reportsReceived inputPipe]; congruence|].
  do 2 eexists; reflexivity.
Qed.

(** A completion keeps the cache well-formed. *)
Lemma ReadComplete_cache h status n s s' e :
  ReadComplete h status n s = Some (tt, s', e) -> cache_ok s -> cache_ok s'.
Proof.
  intros Hrun Hc.
  assert (Hre : forall s0 s1 e1, rearm h s0 = Some (tt, s1, e1) ->
                                 cache_ok s0 -> cache_ok s1).
  { intros s0 s1 e1 Hr H0.
    destruct (rearm_counters _ _ _ _ Hr) as (_ & _ & R3 & R4 & _).
    unfold cache_ok; rewrite R3, R4; exact H0. }
  destruct (is_disconnect status) eqn:Hd.
  { rewrite ReadComplete_disconnect in Hrun by exact Hd.
    injection Hrun as <- _; exact Hc. }
  destruct (is_success status) eqn:Hs.
  2:{ rewrite ReadComplete_error in Hrun by assumption.
      destruct (rearm h _) as [[[[] s1] e1]|] eqn:Hr; [|discriminate Hrun].
      injection Hrun as <- _; eapply Hre; [exact Hr | exact Hc]. }
  apply is_success_inv in Hs; subst status.
  destruct (Z.lt_ge_cases n sizeof_BigbenInputReport) as [Hn|Hn].
  { rewrite ReadComplete_short in Hrun by exact Hn.
    destruct (rearm h _) as [[[[] s1] e1]|] eqn:Hr; [|discriminate Hrun].
    injection Hrun as <- _; eapply Hre; [exact Hr | exact Hc]. }
  destruct (inputBuffer s) eqn:Hbuf.
  2:{ exfalso; revert Hrun.
      unfold ReadComplete; cbn [is_aborted is_not_responding is_success orb negb].
      replace (n <? sizeof_BigbenInputReport) with false
        by (symmetry; now apply Z.ltb_ge).
      unfold bind at 1, deref; rewrite Hbuf; discriminate. }
  destruct (is_success (fst (Map_inputBuffer h))
            && negb (snd (Map_inputBuffer h) =? 0)) eqn:Hmap.
  2:{ rewrite ReadComplete_unmapped in Hrun by assumption.
      destruct (rearm h s) as [[[[] s1] e1]|] eqn:Hr; [|discriminate Hrun].
      injection Hrun as <- _; eapply Hre; [exact Hr | exact Hc]. }
  apply andb_true_iff in Hmap; destruct Hmap as [Hm Ha].
  apply negb_true_iff, Z.eqb_neq in Ha.
  rewrite ReadComplete_full in Hrun by assumption.
  destruct (rearm h _) as [[[[] s1] e1]|] eqn:Hr; [|discriminate Hrun].
  injection Hrun as <- _; eapply Hre; [exact Hr|].
  unfold cache_ok; cbn [set_reportsReceived lastReport hasLastReport].
  unfold parsed.
  destruct (Z.eqb_spec (nth 0 (inputData h) 0) BIGBEN_REPORT_ID_INPUT) as [Hid|Hid];
    [|exact Hc].
  intros _; cbn [set_hasLastReport set_lastReport lastReport].
  destruct (inputData h) as [|b rest]; [discriminate Hid | exact Hid].
Qed.

Lemma same_objects_refl s : same_objects s s.
Proof. repeat split. Qed.

Lemma same_objects_trans s1 s2 s3 :
  same_objects s1 s2 -> same_objects s2 s3 -> same_objects s1 s3.
Proof.
  unfold same_objects; intros (A1 & A2 & A3 & A4 & A5 & A6 & A7 & A8)
    (B1 & B2 & B3 & B4 & B5 & B6 & B7 & B8).
  repeat split; congruence.
Qed.

Lemma arms_app e1 e2 : arms (e1 ++ e2) = (arms e1 + arms e2)%nat.
Proof. unfold arms; rewrite filter_app, length_app; reflexivity. Qed.

Lemma deliveries_app e1 e2 :
  deliveries (e1 ++ e2) = (deliveries e1 + deliveries e2)%nat.
Proof. unfold deliveries; rewrite filter_app, length_app; reflexivity. Qed.

Lemma error_completions_cons c cs :
  error_completions (c :: cs)
  = (error_completions [c] + error_completions cs)%nat.
Proof.
  unfold error_completions; cbn [filter].
  destruct (is_error_completion c); reflexivity.
Qed.

(** A whole run, by induction on the completions. *)
Lemma deliver_run cs : forall s,
  inputPipe s = true -> inputBuffer s = true -> counters_ok s ->
  exists s' e,
    deliver cs s = Some (tt, s', e)
    /\ same_objects s s'
    /\ isStarted s' = isStarted s
    /\ deviceConnected s' = deviceConnected s
    /\ outputReportsSent s' = outputReportsSent s
    /\ (isPolling s' = true -> isPolling s = true)
    /\ (arms e <= length cs)%nat
    /\ (deliveries e <= length cs)%nat
    /\ reportsReceived s' = uint64 (reportsReceived s + Z.of_nat (deliveries e))
    /\ reportErrors s' = uint64 (reportErrors s + Z.of_nat (error_completions cs))
    /\ counters_ok s'
    /\ (cache_ok s -> cache_ok s').
Proof.
  induction cs as [|c cs IH]; intros s Hpipe Hbuf Hcnt.
  - exists s, []; split; [reflexivity|].
    destruct Hcnt as (Hrr & Hre & Hos).
    cbn [deliveries arms filter length error_completions Z.of_nat].
    rewrite !Z.add_0_r, !uint64_id by assumption.
    repeat split; auto; lia.
  - destruct c as [h status n].
    destruct (ReadComplete_counts h status n s Hpipe Hbuf Hcnt)
      as (s1 & e1 & Hrun & Hrr1 & Hre1 & Hcnt1 & Hcache1).
    destruct (ReadComplete_frame h status n s s1 e1 Hrun)
      as (Ho1 & Hst1 & Hc1 & Hout1 & Hp1 & Ha1 & Hd1 & _).
    assert (Hpipe1 : inputPipe s1 = true)
      by (destruct Ho1 as (_ & E & _); congruence).
    assert (Hbuf1 : inputBuffer s1 = true)
      by (destruct Ho1 as (_ & _ & _ & E & _); congruence).
    destruct (IH s1 Hpipe1 Hbuf1 Hcnt1)
      as (s2 & e2 & Hrun2 & Ho2 & Hst2 & Hc2 & Hout2 & Hp2 & Ha2 & Hd2
          & Hrr2 & Hre2 & Hcnt2 & Hcache2).
    exists s2, (e1 ++ e2); split.
    { cbn [deliver c_host c_status c_actualByteCount]; unfold bind.
      rewrite Hrun, Hrun2; reflexivity. }
    rewrite arms_app, deliveries_app, error_completions_cons.
    split; [eapply same_objects_trans; eassumption|].
    split; [congruence|]. split; [congruence|]. split; [congruence|].
    split; [auto|]. split; [cbn [length]; lia|]. split; [cbn [length]; lia|].
    split.
    { rewrite Hrr2, Hrr1; unfold uint64.
      rewrite Z.add_mod_idemp_l by lia; f_equal; lia. }
    split.
    { rewrite Hre2, Hre1; unfold uint64.
      rewrite Z.add_mod_idemp_l by lia; f_equal; lia. }
    split; [exact Hcnt2 | auto].
Qed.

(** A whole run keeps the frame of each completion. *)
Lemma deliver_frame cs : forall s,
  inputPipe s = true -> inputBuffer s = true ->
  exists s' e,
    deliver cs s = Some (tt, s', e)
    /\ same_objects s s'
    /\ isStarted s' = isStarted s
    /\ deviceConnected s' = deviceConnected s
    /\ (isPolling s' = true -> isPolling s = true)
    /\ (arms e <= length cs)%nat
    /\ (deliveries e <= length cs)%nat
    /\ (cache_ok s -> cache_ok s').
Proof.
  induction cs as [|c cs IH]; intros s Hpipe Hbuf.
  - exists s, []; split; [reflexivity|].
    cbn [arms deliveries filter length].
    repeat split; auto.
  - destruct c as [h status n].
    destruct (ReadComplete_total h status n s Hpipe Hbuf) as (s1 & e1 & Hrun).
    destruct (ReadComplete_frame h status n s s1 e1 Hrun)
      as (Ho1 & Hst1 & Hc1 & _ & Hp1 & Ha1 & Hd1 & _).
    pose proof (ReadComplete_cache h status n s s1 e1 Hrun) as Hcache1.
    assert (Hpipe1 : inputPipe s1 = true)
      by (destruct Ho1 as (_ & E & _); congruence).
    assert (Hbuf1 : inputBuffer s1 = true)
      by (destruct Ho1 as (_ & _ & _ & E & _); congruence).
    destruct (IH s1 Hpipe1 Hbuf1)
      as (s2 & e2 & Hrun2 & Ho2 & Hst2 & Hc2 & Hp2 & Ha2 & Hd2 & Hcache2).
    exists s2, (e1 ++ e2); split.
    { cbn [deliver c_host c_status c_actualByteCount]; unfold bind.
      rewrite Hrun, Hrun2; reflexivity. }
    rewrite arms_app, deliveries_app.
    split; [eapply same_objects_trans; eassumption|].
    split; [congruence|]. split; [congruence|].
    split; [auto|]. split; [cbn [length]; lia|]. split; [cbn [length]; lia|].
    auto.
Qed.

(** X19: while the input pipe and buffer exist, every run of
    completions is handled without fault and the read cycle keeps its
    frame: it arms at most one read per completion and delivers at most
    one report per completion, never turns polling back on, and never
    changes the connected flag, the started flag or an object pointer. *)
Theorem X19_read_cycle_frame (cs : list Completion) (s : IVars) :
  inputPipe s = true -> inputBuffer s = true ->
  exists s' e,
    deliver cs s = Some (tt, s', e)
    /\ (arms e <= length cs)%nat
    /\ (deliveries e <= length cs)%nat
    /\ (isPolling s' = true -> isPolling s = true)
    /\ deviceConnected s' = deviceConnected s
    /\ isStarted s' = isStarted s
    /\ same_objects s s'.
Proof.
  intros Hpipe Hbuf.
  destruct (deliver_frame cs s Hpipe Hbuf)
    as (s' & e & Hrun & Ho & Hst & Hc & Hp & Ha & Hd & _).
  exists s', e; repeat split; try assumption; apply Ho.
Qed.

Lemma X19_read_cycle_frame_witness :
  exists s' e,
    deliver SampleRun.completions Scenario.started = Some (tt, s', e)
    /\ (arms e <= 5)%nat /\ (deliveries e <= 5)%nat
    /\ deviceConnected s' = true.
Proof.
  destruct (X19_read_cycle_frame SampleRun.completions Scenario.started)
    as (s' & e & Hrun & Ha & Hd & _ & Hc & _);
    [reflexivity | reflexivity |].
  exists s', e; repeat split; assumption.
Defined.

(** X20: over every run the two statistics are exact: [reportsReceived]
    grows by the number of reports handed to the host-report sink and
    [reportErrors] by the number of completions with an error status or
    a short length (both as [uint64_t]); completions with status
    "aborted" or "not responding" count as neither. *)
Theorem X20_statistics_are_exact (cs : list Completion) (s : IVars) :
  inputPipe s = true -> inputBuffer s = true -> counters_ok s ->
  exists s' e,
    deliver cs s = Some (tt, s', e)
    /\ reportsReceived s' = uint64 (reportsReceived s + Z.of_nat (deliveries e))
    /\ reportErrors s' = uint64 (reportErrors s + Z.of_nat (error_completions cs))
    /\ outputReportsSent s' = outputReportsSent s.
Proof.
  intros Hpipe Hbuf Hcnt.
  destruct (deliver_run cs s Hpipe Hbuf Hcnt)
    as (s' & e & Hrun & _ & _ & _ & Hout & _ & _ & _ & Hrr & Hre & _).
  exists s', e; repeat split; assumption.
Qed.


Lemma X20_statistics_are_exact_witness :
  exists s' e,
    deliver SampleRun.completions Scenario.started = Some (tt, s', e)
    /\ reportsReceived s' = 2 /\ reportErrors s' = 2.
Proof.
  destruct (X20_statistics_are_exact SampleRun.completions Scenario.started)
    as (s' & e & Hrun & Hrr & Hre & _);
    [reflexivity | reflexivity | unfold counters_ok; cbn; lia |].
  exists s', e; split; [exact Hrun|].
  vm_compute in Hrun; injection Hrun as <- <-; split; reflexivity.
Defined.

(** [getReport] on a cached report. *)
Lemma getReport_cached s m options :
  hasLastReport s = true ->
  uint8 (Z.land options 0xFF) = BIGBEN_REPORT_ID_INPUT ->
  is_success (Map_ret m) = true ->
  getReport s (Some m) kIOHIDReportTypeInput options
  = (kIOReturnSuccess,
     Some (firstn (Z.to_nat (Z.min (mem_length m) 64)) (lastReport s))).
Proof.
  intros Hhas Hid Hmap; unfold getReport; cbn [is_input andb].
  rewrite Hid, Z.eqb_refl, Hhas, Hmap; cbn [negb].
  unfold sizeof_BigbenInputReport.
  destruct (Z.ltb_spec (mem_length m) 64);
    [rewrite Z.min_l by lia | rewrite Z.min_r by lia]; reflexivity.
Qed.

(** X21: the report [getReport] hands out always carries the input
    identifier: starting from a state whose cache is empty or holds an
    identifier-1 report, after any run of completions every successful
    [getReport] into a non-empty buffer returns bytes that begin with
    1. *)
Theorem X21_getReport_never_returns_foreign_report
    (cs : list Completion) (s : IVars) (m : MemoryDescriptor)
    (reportType : IOHIDReportType) (options : Z) (bytes : list Z) :
  inputPipe s = true -> inputBuffer s = true -> cache_ok s ->
  0 < mem_length m ->
  exists s' e,
    deliver cs s = Some (tt, s', e)
    /\ (getReport s' (Some m) reportType options
        = (kIOReturnSuccess, Some bytes) ->
        nth 0 bytes 0 = BIGBEN_REPORT_ID_INPUT).
Proof.
  intros Hpipe Hbuf Hcache Hlen.
  destruct (deliver_frame cs s Hpipe Hbuf)
    as (s' & e & Hrun & _ & _ & _ & _ & _ & _ & Hc).
  exists s', e; split; [exact Hrun|].
  specialize (Hc Hcache); unfold cache_ok in Hc.
  unfold getReport.
  destruct (is_input reportType
            && (uint8 (Z.land options 0xFF) =? BIGBEN_REPORT_ID_INPUT));
    [|discriminate].
  destruct (hasLastReport s') eqn:Hhas; cbn [negb]; [|discriminate].
  destruct (is_success (Map_ret m)); cbn [negb]; [|intros E; discriminate E].
  intros E; injection E as <-.
  specialize (Hc eq_refl).
  set (k := Z.to_nat _).
  assert (Hk : (0 < k)%nat).
  { unfold k, sizeof_BigbenInputReport.
    destruct (Z.ltb_spec (mem_length m) 64); lia. }
  destruct (lastReport s') as [|b rest]; [discriminate Hc|].
  destruct k; [lia | exact Hc].
Qed.

Lemma X21_getReport_never_returns_foreign_report_witness :
  exists s' e,
    deliver SampleRun.completions Scenario.started = Some (tt, s', e)
    /\ getReport s' (Some (Samples.buffer 4)) kIOHIDReportTypeInput 1
       = (kIOReturnSuccess, Some [1; 128; 128; 128]).
Proof.
  destruct (X21_getReport_never_returns_foreign_report
              SampleRun.completions Scenario.started (Samples.buffer 4)
              kIOHIDReportTypeInput 1 [1; 128; 128; 128])
    as (s' & e & Hrun & _);
    [reflexivity | reflexivity | intros H; discriminate H | cbn; lia |].
  exists s', e; split; [exact Hrun|].
  vm_compute in Hrun; injection Hrun as <- <-; reflexivity.
Defined.

(** X22: a full-size successful read with identifier 1 is what
    [getReport] returns next: the first [min(length, 64)] bytes of the
    caller's buffer receive the first bytes of the report just read. *)
Theorem X22_ReadComplete_getReport_round_trip
    (h : Host) (n : Z) (s : IVars) (m : MemoryDescriptor) (options : Z) :
  inputPipe s = true -> inputBuffer s = true ->
  sizeof_BigbenInputReport <= n ->
  is_success (fst (Map_inputBuffer h)) = true -> snd (Map_inputBuffer h) <> 0 ->
  nth 0 (inputData h) 0 = BIGBEN_REPORT_ID_INPUT ->
  uint8 (Z.land options 0xFF) = BIGBEN_REPORT_ID_INPUT ->
  is_success (Map_ret m) = true ->
  exists s' e,
    ReadComplete h kIOReturnSuccess n s = Some (tt, s', e)
    /\ getReport s' (Some m) kIOHIDReportTypeInput options
       = (kIOReturnSuccess,
          Some (firstn (Z.to_nat (Z.min (mem_length m) 64)) (inputData h))).
Proof.
  intros Hpipe Hbuf Hn Hm Ha Hid Hopt Hmap.
  rewrite ReadComplete_full by assumption.
  destruct (parsed_flags (inputData h) s) as (_ & _ & _ & Ppipe & _).
  set (s0 := set_reportsReceived _ _).
  assert (Hpipe0 : inputPipe s0 = true)
    by (unfold s0; cbn [set_reportsReceived inputPipe]; congruence).
  destruct (rearm_total h s0 Hpipe0) as (s1 & e1 & Hr).
  rewrite Hr; do 2 eexists; split; [reflexivity|].
  destruct (rearm_counters _ _ _ _ Hr) as (_ & _ & R3 & R4 & _).
  assert (Hlast : lastReport s1 = firstn 64 (inputData h)
                  /\ hasLastReport s1 = true).
  { rewrite R3, R4; unfold s0, parsed; rewrite Hid, Z.eqb_refl.
    split; reflexivity. }
  destruct Hlast as [Hlast Hhas].
  rewrite getReport_cached, Hlast by assumption.
  rewrite firstn_firstn; do 3 f_equal.
  pose proof (Nat2Z.is_nonneg (length (mem_bytes m))).
  unfold mem_length in *; lia.
Qed.

Lemma X22_ReadComplete_getReport_round_trip_witness :
  exists s' e,
    ReadComplete (Scenario.host 1) kIOReturnSuccess 64 Scenario.started
    = Some (tt, s', e)
    /\ getReport s' (Some (Samples.buffer 6)) kIOHIDReportTypeInput 1
       = (kIOReturnSuccess, Some [1; 128; 128; 128; 128; 8]).
Proof.
  destruct (X22_ReadComplete_getReport_round_trip
              (Scenario.host 1) 64 Scenario.started (Samples.buffer 6) 1)
    as (s' & e & Hrun & Hget);
    [reflexivity | reflexivity | unfold sizeof_BigbenInputReport; lia
     | reflexivity | cbn; lia | reflexivity | reflexivity | reflexivity |].
  exists s', e; split; [exact Hrun | rewrite Hget; reflexivity].
Defined.

End BigbenUSBDriverRunSpec.

Module BigbenUSBDriverLifeSpec.
Import CInt CIntFacts Protocol IOKit BigbenUSBDriver Trace Accounting.
Import BigbenUSBDriverSpec.
Local Open Scope drv_scope.

Lemma or_stop_spec step k s :
  or_stop step k s
  = match step s with
    | None => None
    | Some (r, s1, e1) =>
      if is_success r
      then match k s1 with
           | Some (r2, s2, e2) => Some (r2, s2, e1 ++ e2)
           | None => None
           end
      else Some (r, s1, e1 ++ [SuperStop])
    end.
Proof.
  unfold or_stop, bind.
  destruct (step s) as [[[r s1] e1]|]; [|reflexivity].
  destruct (is_success r); cbn [negb]; [reflexivity|].
  unfold emit, ret; cbn [app]; reflexivity.
Qed.

Lemma creation_error_not_success r fallback :
  creation_failed r = true -> fallback <> kIOReturnSuccess ->
  is_success (creation_error r fallback) = false.
Proof.
  unfold creation_failed, creation_error; intros Hf Hfb.
  destruct (is_success (fst r)) eqn:Hs; cbn [negb] in *; [|exact Hs].
  destruct fallback; try reflexivity; now contradiction Hfb.
Qed.

(** A failed [Start]: the flags are as [init] left them. *)
Ltac failed_code :=
  split;
  [intros E; exfalso;
   first [discriminate E
         |match goal with
          | H : is_success _ = false |- _ => rewrite E in H; discriminate H
          end]
  |intros E; discriminate E].

Ltac failed_post :=
  split;
  [intros E; exfalso;
   first [discriminate E
         |match goal with
          | H : is_success _ = false |- _ => rewrite E in H; discriminate H
          end]
  |intros _; cbv [arms filter is_arm length In app];
   repeat split; try reflexivity; try assumption; try lia;
   intros Hin;
   repeat match goal with
   | Hin : _ \/ _ |- _ => destruct Hin as [Hin|Hin]
   | Hin : False |- _ => contradiction
   | Hin : _ = RegisterService |- _ => discriminate Hin
   end].

Ltac failed_start :=
  do 3 eexists; (split; [reflexivity|]);
  split; [failed_code | failed_post].

Ltac failed_tail :=
  do 3 eexists; (split; [reflexivity|]);
  split; [failed_code | split; [failed_post | reflexivity]].

Ltac failed_early :=
  do 3 eexists; (split; [reflexivity|]);
  split; [failed_code | split; [failed_post | intros _; reflexivity]].

(** The last two steps of [Start] and its epilogue, from a state whose
    input side is set up. *)
Lemma Start_tail p h s :
  inputPipe s = true -> inputBuffer s = true -> readAction s = true ->
  isPolling s = false -> isStarted s = false -> deviceConnected s = false ->
  exists r s' e,
    or_stop (CreateHIDReportDescriptor p)
      (or_stop (StartInputPolling h)
         (modify (set_isStarted true) ;;
          modify (set_deviceConnected true) ;;
          emit RegisterService ;;
          ret kIOReturnSuccess)) s
    = Some (r, s', e)
    /\ (r = kIOReturnSuccess <->
        negb (creation_failed (Create_hidDescriptor p))
        && cast_hidDescriptor p
        && is_success (Map_hidDescriptor p)
        && is_success (AsyncIO_input h) = true)
    /\ start_post r s' e
    /\ outputBuffer s' = outputBuffer s.
Proof.
  intros Hpipe Hbuf Hact Hpoll Hst Hconn.
  unfold start_post.
  rewrite or_stop_spec.
  unfold CreateHIDReportDescriptor at 1, bind at 1, modify at 1.
  destruct (creation_failed (Create_hidDescriptor p)) eqn:Hc.
  { unfold ret.
    rewrite (creation_error_not_success _ kIOReturnNoMemory Hc) by discriminate.
    pose proof (creation_error_not_success _ kIOReturnNoMemory Hc
                  ltac:(discriminate)) as Hne.
    cbn [negb andb app set_hidDescriptor isStarted isPolling deviceConnected].
    failed_tail. }
  destruct (cast_hidDescriptor p) eqn:Hcast; cbn [negb andb];
    [|unfold ret; cbn [is_success app set_hidDescriptor isStarted isPolling
                       deviceConnected]; failed_tail].
  destruct (is_success (Map_hidDescriptor p)) eqn:Hmap; cbn [negb andb];
    [|unfold ret; rewrite Hmap;
      cbn [app set_hidDescriptor isStarted isPolling deviceConnected];
      failed_tail].
  unfold ret at 1; cbn [is_success app].
  rewrite or_stop_spec.
  unfold StartInputPolling, bind at 1, get.
  cbn [set_hidDescriptor inputPipe inputBuffer readAction isPolling].
  rewrite Hpipe, Hbuf, Hact, Hpoll; cbn [negb orb].
  unfold inputPipe_AsyncIO, deref, bind, emit, ret, modify.
  cbn [set_hidDescriptor inputPipe]; rewrite Hpipe.
  destruct (is_success (AsyncIO_input h)) eqn:Hio; cbn [negb app];
    [|rewrite Hio;
      cbn [app set_hidDescriptor isStarted isPolling deviceConnected];
      failed_tail].
  cbn [is_success app].
  apply is_success_inv in Hio; rewrite Hio.
  do 3 eexists; split; [reflexivity|].
  split; [split; reflexivity|].
  split; [|reflexivity].
  split; [intros _|intros Hne; exfalso; apply Hne; reflexivity].
  cbn [set_deviceConnected set_isStarted set_isPolling set_hidDescriptor
       isStarted isPolling deviceConnected inputPipe inputBuffer readAction
       hidDescriptor].
  cbn [snd] in Hc.
  unfold creation_failed in Hc; apply orb_false_iff in Hc; destruct Hc as [_ Hc].
  apply negb_false_iff in Hc.
  repeat split; try assumption; try exact Hi.
Qed.


(** The fields the endpoint set-up leaves alone. *)
Lemma SetupInterruptInEndpoint_spec p s :
  interface s = true ->
  exists r s',
    SetupInterruptInEndpoint p s = Some (r, s', [])
    /\ is_success r
       = negb (creation_failed (CopyPipe_input p))
         && negb (creation_failed (Create_inputBuffer p))
         && negb (creation_failed (CreateActionReadComplete p))
    /\ (is_success r = true ->
        inputPipe s' = true /\ inputBuffer s' = true /\ readAction s' = true)
    /\ interface s' = interface s /\ isPolling s' = isPolling s
    /\ isStarted s' = isStarted s /\ deviceConnected s' = deviceConnected s
    /\ outputBuffer s' = outputBuffer s.
Proof.
  intros Hi.
  unfold SetupInterruptInEndpoint, bind at 1, get; rewrite Hi; cbn [negb].
  unfold bind at 1, modify at 1.
  destruct (creation_failed (CopyPipe_input p)) eqn:H1; cbn [negb andb].
  { unfold ret; do 2 eexists; split; [reflexivity|].
    rewrite (creation_error_not_success _ kIOReturnNotFound H1) by discriminate.
    repeat split; try discriminate; try exact Hi. }
  unfold bind at 1, modify at 1.
  destruct (creation_failed (Create_inputBuffer p)) eqn:H2; cbn [negb andb].
  { unfold ret; do 2 eexists; split; [reflexivity|].
    rewrite (creation_error_not_success _ kIOReturnNoMemory H2) by discriminate.
    repeat split; try discriminate; try exact Hi. }
  unfold bind at 1, modify at 1.
  destruct (creation_failed (CreateActionReadComplete p)) eqn:H3; cbn [negb andb].
  { unfold ret; do 2 eexists; split; [reflexivity|].
    rewrite (creation_error_not_success _ kIOReturnNoMemory H3) by discriminate.
    repeat split; try discriminate; try exact Hi. }
  unfold ret; do 2 eexists; split; [reflexivity|].
  unfold creation_failed in H1, H2, H3.
  apply orb_false_iff in H1, H2, H3.
  destruct H1 as [_ H1], H2 as [_ H2], H3 as [_ H3].
  apply negb_false_iff in H1, H2, H3.
  cbn [is_success set_readAction set_inputBuffer set_inputPipe inputPipe
       inputBuffer readAction interface isPolling isStarted deviceConnected].
  repeat split; try assumption; try exact Hi.
Qed.

Lemma SetupInterruptOutEndpoint_spec p s :
  interface s = true ->
  exists r s',
    SetupInterruptOutEndpoint p s = Some (r, s', [])
    /\ is_success r
       = creation_failed (CopyPipe_output p)
         || (negb (creation_failed (Create_outputBuffer p))
             && negb (creation_failed (CreateActionWriteComplete p)))
    /\ (creation_failed (CopyPipe_output p) = true ->
        outputBuffer s' = outputBuffer s)
    /\ inputPipe s' = inputPipe s /\ inputBuffer s' = inputBuffer s
    /\ readAction s' = readAction s
    /\ interface s' = interface s /\ isPolling s' = isPolling s
    /\ isStarted s' = isStarted s /\ deviceConnected s' = deviceConnected s.
Proof.
  intros Hi.
  unfold SetupInterruptOutEndpoint, bind at 1, get; rewrite Hi; cbn [negb].
  unfold bind at 1, modify at 1.
  destruct (creation_failed (CopyPipe_output p)) eqn:H1; cbn [negb andb orb].
  { unfold ret; do 2 eexists; split; [reflexivity|]. repeat split; try exact Hi. }
  unfold bind at 1, modify at 1.
  destruct (creation_failed (Create_outputBuffer p)) eqn:H2; cbn [negb andb].
  { unfold ret; do 2 eexists; split; [reflexivity|].
    rewrite (creation_error_not_success _ kIOReturnNoMemory H2) by discriminate.
    repeat split; try discriminate; try exact Hi. }
  unfold bind at 1, modify at 1.
  destruct (creation_failed (CreateActionWriteComplete p)) eqn:H3; cbn [negb andb].
  { unfold ret; do 2 eexists; split; [reflexivity|].
    rewrite (creation_error_not_success _ kIOReturnNoMemory H3) by discriminate.
    repeat split; try discriminate; try exact Hi. }
  unfold ret; do 2 eexists; split; [reflexivity|].
  repeat split; try discriminate; try exact Hi.
Qed.

Lemma Start_from_init p h :
  exists r s e,
    Start p h init = Some (r, s, e)
    /\ (r = kIOReturnSuccess <-> start_answers_ok p h = true)
    /\ start_post r s e
    /\ (creation_failed (CopyPipe_output p) = true -> outputBuffer s = false).
Proof.
  unfold Start, start_answers_ok.
  destruct (is_success (super_Start p)) eqn:H0; cbn [negb andb];
    [|unfold ret, start_post; failed_early].
  unfold bind at 1, modify at 1.
  destruct (cast_interface p) eqn:H1; cbn [negb andb];
    [|unfold bind, emit, ret, start_post; cbn [app]; failed_early].
  set (s1 := set_interface true init).
  assert (I1 : interface s1 = true) by reflexivity.
  (* ConfigureDevice *)
  rewrite or_stop_spec.
  unfold ConfigureDevice at 1, bind at 1, get; rewrite I1; cbn [negb].
  unfold ret at 1; cbn [is_success app].
  (* OpenInterface *)
  rewrite or_stop_spec.
  unfold OpenInterface at 1, bind at 1, get; rewrite I1; cbn [negb].
  destruct (is_success (interface_Open p)) eqn:H2; cbn [negb andb];
    [|unfold ret, start_post; rewrite H2; cbn [app]; failed_early].
  unfold ret at 1; cbn [is_success app].
  (* SetupInterruptInEndpoint *)
  rewrite or_stop_spec.
  destruct (SetupInterruptInEndpoint_spec p s1 I1)
    as (r3 & s3 & Hrun3 & Hok3 & Hin3 & I3 & P3 & S3 & C3 & O3).
  rewrite Hrun3, <- Hok3.
  change (isPolling s1) with false in P3.
  change (isStarted s1) with false in S3.
  change (deviceConnected s1) with false in C3.
  change (outputBuffer s1) with false in O3.
  destruct (is_success r3) eqn:H3; cbn [andb app];
    [|unfold start_post; do 3 eexists; (split; [reflexivity|]);
      split; [failed_code | split; [failed_post | intros _; exact O3]]].
  destruct (Hin3 eq_refl) as (Hpipe3 & Hbuf3 & Hact3).
  (* SetupInterruptOutEndpoint *)
  rewrite or_stop_spec.
  destruct (SetupInterruptOutEndpoint_spec p s3 ltac:(congruence))
    as (r4 & s4 & Hrun4 & Hok4 & O4 & Hpipe4 & Hbuf4 & Hact4 & I4 & P4 & S4 & C4).
  rewrite Hrun4, <- Hok4.
  rewrite P3 in P4; rewrite S3 in S4; rewrite C3 in C4.
  destruct (is_success r4) eqn:H4; cbn [andb app];
    [|unfold start_post; do 3 eexists; (split; [reflexivity|]);
      split; [failed_code
             |split; [failed_post | intros Hout; rewrite (O4 Hout); exact O3]]].
  (* CreateHIDReportDescriptor, StartInputPolling and the epilogue *)
  destruct (Start_tail p h s4) as (r & s & e & Hrun & Hiff & Hpost & O5);
    try congruence.
  rewrite Hrun; exists r, s, e; split; [reflexivity|].
  split; [rewrite Hiff; reflexivity|].
  split; [exact Hpost|].
  intros Hout; rewrite O5, (O4 Hout); exact O3.
Qed.

(** X23: [Start] on a freshly initialised driver always returns; it
    returns success exactly when every set-up call of the input side and
    of the descriptor and the first read succeed (the output side only
    matters once its pipe exists).  On success the driver is started,
    polling and connected with its input objects in place, exactly one
    read is outstanding and the service has been registered; on failure
    it is neither started nor polling nor connected, no service has been
    registered and at most one read was submitted. *)
Theorem X23_Start_succeeds_iff_answers_ok (p : Provider) (h : Host) :
  exists r s e,
    Start p h init = Some (r, s, e)
    /\ (r = kIOReturnSuccess <-> start_answers_ok p h = true)
    /\ start_post r s e.
Proof.
  destruct (Start_from_init p h) as (r & s & e & Hrun & Hiff & Hpost & _).
  exists r, s, e; split; [exact Hrun|]. split; [exact Hiff | exact Hpost].
Qed.

(** X24: the output endpoint is optional: when the output pipe cannot
    be obtained [Start] still succeeds (if everything else does), and
    every later [SendOutputReport] answers "not found" without touching
    the transport. *)
Theorem X24_output_endpoint_is_optional
    (p : Provider) (h : Host) (oh : BigbenUSBDriverReports.OutputHost)
    (data : list Z) (length : Z) :
  creation_failed (CopyPipe_output p) = true ->
  start_answers_ok p h = true ->
  exists s e,
    Start p h init = Some (kIOReturnSuccess, s, e)
    /\ BigbenUSBDriverReports.SendOutputReport oh s data length
       = (kIOReturnNotFound, []).
Proof.
  intros Hout Hok.
  destruct (Start_from_init p h) as (r & s & e & Hrun & Hiff & _ & Hbuf).
  apply Hiff in Hok; subst r.
  exists s, e; split; [exact Hrun|].
  unfold BigbenUSBDriverReports.SendOutputReport.
  rewrite (Hbuf Hout); cbn [negb]; rewrite orb_true_r; reflexivity.
Qed.


Lemma X24_output_endpoint_is_optional_witness :
  exists s e,
    Start Samples.provider_without_output (Scenario.host 1) init
    = Some (kIOReturnSuccess, s, e)
    /\ BigbenUSBDriverReports.SendOutputReport Samples.output_host s
         [2; 8; 1; 200; 255; 0; 0; 0] 8
       = (kIOReturnNotFound, []).
Proof.
  apply (X24_output_endpoint_is_optional Samples.provider_without_output
           (Scenario.host 1) Samples.output_host [2; 8; 1; 200; 255; 0; 0; 0] 8);
    reflexivity.
Defined.

(** [Stop], field by field. *)
Lemma Stop_result p s :
  exists s' e,
    Stop p s = Some (super_Stop p, s', e)
    /\ released s'
    /\ isStarted s' = false /\ isPolling s' = false /\ deviceConnected s' = false
    /\ reportsReceived s' = reportsReceived s
    /\ reportErrors s' = reportErrors s
    /\ outputReportsSent s' = outputReportsSent s
    /\ lastReport s' = lastReport s /\ hasLastReport s' = hasLastReport s
    /\ arms e = 0%nat
    /\ existsb (fun x => match x with InputAbort => true | _ => false end) e
       = isPolling s && inputPipe s.
Proof.
  destruct s as [i ip op ib ob hd ra wa st po dc lr hl rr re os].
  destruct po, ip, i;
    cbv [Stop StopInputPolling CleanupResources bind get modify emit ret
         negb app set_interface set_inputPipe set_outputPipe set_inputBuffer
         set_outputBuffer set_hidDescriptor set_readAction set_writeAction
         set_isStarted set_isPolling set_deviceConnected released
         interface inputPipe outputPipe inputBuffer outputBuffer
         hidDescriptor readAction writeAction isStarted isPolling
         deviceConnected lastReport hasLastReport reportsReceived
         reportErrors outputReportsSent arms filter is_arm length existsb
         andb orb];
    do 2 eexists; (split; [reflexivity|]); repeat split.
Qed.

(** X25: [Stop] always completes and releases everything: afterwards
    every object pointer is null and the driver is neither started nor
    polling nor connected, while the statistics and the cached report
    are kept; it aborts the pipe exactly when it was polling with an
    input pipe, and submits no read.  A second [Stop] finds nothing left
    to do, and polling cannot be restarted without a new [Start]. *)
Theorem X25_Stop_releases_everything (p : Provider) (h : Host) (s : IVars) :
  exists s' e,
    Stop p s = Some (super_Stop p, s', e)
    /\ released s'
    /\ isStarted s' = false /\ isPolling s' = false /\ deviceConnected s' = false
    /\ reportsReceived s' = reportsReceived s
    /\ reportErrors s' = reportErrors s
    /\ outputReportsSent s' = outputReportsSent s
    /\ lastReport s' = lastReport s /\ hasLastReport s' = hasLastReport s
    /\ arms e = 0%nat
    /\ existsb (fun x => match x with InputAbort => true | _ => false end) e
       = isPolling s && inputPipe s
    /\ Stop p s' = Some (super_Stop p, s', [SuperStop])
    /\ StartInputPolling h s' = Some (kIOReturnNotReady, s', []).
Proof.
  destruct s as [i ip op ib ob hd ra wa st po dc lr hl rr re os].
  destruct po, ip, i;
    cbv [Stop StopInputPolling StartInputPolling CleanupResources bind get
         modify emit ret
         negb app set_interface set_inputPipe set_outputPipe set_inputBuffer
         set_outputBuffer set_hidDescriptor set_readAction set_writeAction
         set_isStarted set_isPolling set_deviceConnected released
         interface inputPipe outputPipe inputBuffer outputBuffer
         hidDescriptor readAction writeAction isStarted isPolling
         deviceConnected lastReport hasLastReport reportsReceived
         reportErrors outputReportsSent arms filter is_arm length existsb
         andb orb];
    do 2 eexists; (split; [reflexivity|]); repeat split.
Qed.

(** X26: a completion delivered after [Stop]: with status "aborted" or
    "not responding" it is ignored, with an error status or a short
    length it only raises the error counter, nothing being armed or
    delivered; but a successful completion of 64 bytes or more makes
    [ReadComplete] map the input buffer that [Stop] has released. *)
Theorem X26_completion_after_Stop
    (p : Provider) (h : Host) (status : IOReturn) (n : Z) (s : IVars) :
  exists s1 e1,
    Stop p s = Some (super_Stop p, s1, e1)
    /\ (is_disconnect status = true ->
        ReadComplete h status n s1 = Some (tt, s1, []))
    /\ (is_disconnect status = false -> is_success status = false ->
        ReadComplete h status n s1
        = Some (tt, set_reportErrors (uint64 (reportErrors s + 1)) s1, []))
    /\ (status = kIOReturnSuccess -> n < sizeof_BigbenInputReport ->
        ReadComplete h status n s1
        = Some (tt, set_reportErrors (uint64 (reportErrors s + 1)) s1, []))
    /\ (status = kIOReturnSuccess -> sizeof_BigbenInputReport <= n ->
        ReadComplete h status n s1 = None).
Proof.
  destruct (Stop_result p s)
    as (s1 & e1 & Hstop & Hrel & _ & Hpoll & _ & _ & Herr & _).
  exists s1, e1; split; [exact Hstop|].
  split; [intros Hd; now apply ReadComplete_disconnect|].
  split; [intros Hd Hs; rewrite ReadComplete_error by assumption;
          rewrite rearm_not_polling by exact Hpoll; rewrite Herr; reflexivity|].
  split; [intros -> Hn; rewrite ReadComplete_short by assumption;
          rewrite rearm_not_polling by exact Hpoll; rewrite Herr; reflexivity|].
  intros -> Hn.
  destruct Hrel as (_ & _ & _ & Hbuf & _).
  unfold ReadComplete; cbn [is_aborted is_not_responding is_success orb negb].
  replace (n <? sizeof_BigbenInputReport) with false
    by (symmetry; now apply Z.ltb_ge).
  unfold bind at 1, deref; rewrite Hbuf; reflexivity.
Qed.

(** X27: polling stopped with [StopInputPolling] can be restarted: the
    next [StartInputPolling] submits exactly one read and the channel is
    polling again; a further [StartInputPolling] is then a no-op that
    answers success. *)
Theorem X27_polling_restarts_after_StopInputPolling (h : Host) (s : IVars) :
  inputPipe s = true -> inputBuffer s = true -> readAction s = true ->
  is_success (AsyncIO_input h) = true ->
  exists s1 e1 s2,
    StopInputPolling s = Some (tt, s1, e1)
    /\ isPolling s1 = false
    /\ StartInputPolling h s1
       = Some (kIOReturnSuccess, s2, [InputAsyncIO kIOReturnSuccess])
    /\ isPolling s2 = true
    /\ StartInputPolling h s2 = Some (kIOReturnSuccess, s2, []).
Proof.
  intros Hpipe Hbuf Hact Hio.
  apply is_success_inv in Hio.
  assert (Hstart : forall s0, inputPipe s0 = true -> inputBuffer s0 = true ->
            readAction s0 = true -> isPolling s0 = false ->
            StartInputPolling h s0
            = Some (kIOReturnSuccess, set_isPolling true s0,
                    [InputAsyncIO kIOReturnSuccess])).
  { intros s0 H1 H2 H3 H4.
    unfold StartInputPolling, bind at 1, get.
    rewrite H1, H2, H3; cbn [negb orb]; rewrite H4.
    cbv [inputPipe_AsyncIO deref bind emit ret modify].
    rewrite H1, Hio; reflexivity. }
  assert (Hagain : forall s0, inputPipe s0 = true -> inputBuffer s0 = true ->
            readAction s0 = true -> isPolling s0 = true ->
            StartInputPolling h s0 = Some (kIOReturnSuccess, s0, [])).
  { intros s0 H1 H2 H3 H4.
    unfold StartInputPolling, bind at 1, get.
    rewrite H1, H2, H3; cbn [negb orb]; rewrite H4; reflexivity. }
  destruct (StopInputPolling_spec s) as (e1 & [Hstop | [Hp Hstop]]).
  - exists (set_isPolling false s), e1, (set_isPolling true (set_isPolling false s)).
    split; [exact Hstop|]. split; [reflexivity|].
    split; [apply Hstart; assumption || reflexivity|].
    split; [reflexivity|].
    apply Hagain; assumption || reflexivity.
  - exists s, e1, (set_isPolling true s).
    split; [exact Hstop|]. split; [exact Hp|].
    split; [apply Hstart; assumption|].
    split; [reflexivity|].
    apply Hagain; assumption || reflexivity.
Qed.

Lemma X27_polling_restarts_after_StopInputPolling_witness :
  exists s1 e1 s2,
    StopInputPolling Scenario.started = Some (tt, s1, e1)
    /\ StartInputPolling (Scenario.host 1) s1
       = Some (kIOReturnSuccess, s2, [InputAsyncIO kIOReturnSuccess])
    /\ isPolling s2 = true.
Proof.
  destruct (X27_polling_restarts_after_StopInputPolling
              (Scenario.host 1) Scenario.started)
    as (s1 & e1 & s2 & Hstop & _ & Hstart & Hp & _);
    [reflexivity | reflexivity | reflexivity | reflexivity |].
  exists s1, e1, s2; repeat split; assumption.
Defined.

End BigbenUSBDriverLifeSpec.

(** ** Output reports of the USB driver *)

Module BigbenUSBDriverReportsSpec.
Import CInt CIntFacts Protocol IOKit BigbenUSBDriver.
Import BigbenHIDDeviceIO (IOHIDReportType, kIOHIDReportTypeInput,
  kIOHIDReportTypeOutput, kIOHIDReportTypeFeature, is_input, is_output,
  MemoryDescriptor, mkMemory, Map_ret, mem_bytes, mem_length, byte_at).
Import BigbenUSBDriverReports.

(** X28: with the output endpoint present and the output buffer mapped,
    an output report of at most 8 bytes whose identifier (in [options]
    or in its first byte) is 1 or 2 is submitted once, as exactly 8
    bytes: the payload unchanged, followed by zeros; the call returns
    what the pipe answered.  A payload of more than 8 bytes is rejected
    with "bad argument" and nothing is submitted. *)
Theorem X28_output_frame_is_padded_payload
    (h : OutputHost) (s : IVars) (m : MemoryDescriptor) (options : Z) :
  outputPipe s = true -> outputBuffer s = true ->
  is_success (Map_ret m) = true -> is_success (Map_outputBuffer h) = true ->
  uint8 (Z.land options 0xFF) = BIGBEN_REPORT_ID_LED
  \/ uint8 (Z.land options 0xFF) = BIGBEN_REPORT_ID_RUMBLE
  \/ (mem_bytes m <> []
      /\ (byte_at (mem_bytes m) 0 = BIGBEN_REPORT_ID_LED
          \/ byte_at (mem_bytes m) 0 = BIGBEN_REPORT_ID_RUMBLE)) ->
  (mem_length m <= 8 ->
   exists frame,
     setReport h s (Some m) kIOHIDReportTypeOutput options
     = (AsyncIO_output h, [OutputAsyncIO frame (AsyncIO_output h)])
     /\ frame = mem_bytes m ++ repeat 0 (8 - length (mem_bytes m))
     /\ length frame = 8%nat)
  /\ (8 < mem_length m ->
      setReport h s (Some m) kIOHIDReportTypeOutput options
      = (kIOReturnBadArgument, [])).
Proof.
  intros Hpipe Hbuf Hmap Hobuf Hid.
  assert (Hsend : setReport h s (Some m) kIOHIDReportTypeOutput options
                  = SendOutputReport h s (mem_bytes m) (mem_length m)).
  { unfold setReport; cbn [is_output negb]; rewrite Hmap; cbn [negb].
    destruct Hid as [Hid | [Hid | (Hne & [Hid | Hid])]].
    - rewrite Hid, Z.eqb_refl; reflexivity.
    - rewrite Hid, Z.eqb_refl.
      destruct (_ || _); [reflexivity | rewrite orb_true_l; reflexivity].
    - replace (mem_length m >? 0) with true.
      + rewrite Hid, Z.eqb_refl, orb_true_r; reflexivity.
      + unfold mem_length; destruct (mem_bytes m); [now contradiction Hne|].
        cbn [length]; symmetry; apply Z.gtb_lt; lia.
    - replace (mem_length m >? 0) with true.
      + rewrite Hid, Z.eqb_refl, orb_true_r.
        destruct (_ || _); reflexivity.
      + unfold mem_length; destruct (mem_bytes m); [now contradiction Hne|].
        cbn [length]; symmetry; apply Z.gtb_lt; lia. }
  rewrite Hsend; unfold SendOutputReport, kBigbenOutputReportSize.
  rewrite Hpipe, Hbuf, Hobuf; cbn [negb orb].
  split; intros Hlen.
  - replace (mem_length m >? 8) with false
      by (symmetry; rewrite Z.gtb_ltb; apply Z.ltb_ge; lia).
    assert (Hn : (length (mem_bytes m) <= 8)%nat) by (unfold mem_length in Hlen; lia).
    assert (Hfirst : firstn (Z.to_nat (mem_length m)) (mem_bytes m) = mem_bytes m).
    { unfold mem_length; rewrite Nat2Z.id; apply firstn_all. }
    assert (Hpad : (if mem_length m <? 8
                    then repeat 0 (Z.to_nat (8 - mem_length m)) else [])
                   = repeat 0 (8 - length (mem_bytes m))).
    { unfold mem_length in *.
      destruct (Z.ltb_spec (Z.of_nat (length (mem_bytes m))) 8).
      - f_equal; lia.
      - replace (8 - length (mem_bytes m))%nat with 0%nat by lia; reflexivity. }
    rewrite Hfirst, Hpad.
    eexists; split.
    + destruct (is_success (AsyncIO_output h)) eqn:Hio; cbn [negb];
        [apply BigbenUSBDriverSpec.is_success_inv in Hio; rewrite Hio|]; reflexivity.
    + split; [reflexivity|].
      rewrite length_app, repeat_length; lia.
  - replace (mem_length m >? 8) with true
      by (symmetry; apply Z.gtb_lt; lia).
    reflexivity.
Qed.

Lemma X28_output_frame_is_padded_payload_witness :
  setReport Samples.output_host Scenario.started
            (Some (mkMemory kIOReturnSuccess [2; 8; 1; 200]))
            kIOHIDReportTypeOutput 0
  = (kIOReturnSuccess,
     [OutputAsyncIO [2; 8; 1; 200; 0; 0; 0; 0] kIOReturnSuccess]).
Proof.
  destruct (X28_output_frame_is_padded_payload Samples.output_host
              Scenario.started (mkMemory kIOReturnSuccess [2; 8; 1; 200]) 0)
    as ((frame & Hrun & Hframe & _) & _);
    [reflexivity | reflexivity | reflexivity | reflexivity
     | right; right; split; [discriminate | right; reflexivity]
     | cbn; lia |].
  rewrite Hrun, Hframe; reflexivity.
Defined.

End BigbenUSBDriverReportsSpec.

(** ** The user-space library *)

Module BigbenUSBSpec.
Import CInt CIntFacts Bytes BytesFacts BigbenUSB.

Lemma init_times_counted a n : forall c k,
  1 <= k -> k + Z.of_nat n <= INT_MAX ->
  init_times a n (mkGlobals c k) = Some (mkGlobals c (k + Z.of_nat n), []).
Proof.
  induction n as [|n IH]; intros c k Hk Hmax.
  - cbn [init_times Z.of_nat]; rewrite Z.add_0_r; reflexivity.
  - cbn [init_times]; unfold bigben_init; cbn [init_count usb_ctx].
    destruct (Z.leb_spec INT_MAX k); [lia|].
    destruct (Z.gtb_spec k 0); [|lia].
    rewrite IH by lia; cbn [app]; do 3 f_equal; lia.
Qed.

Lemma cleanup_times_counted n : forall c k,
  1 <= k ->
  cleanup_times n (mkGlobals c (k + Z.of_nat n)) = Some (mkGlobals c k, []).
Proof.
  induction n as [|n IH]; intros c k Hk.
  - cbn [cleanup_times Z.of_nat]; rewrite Z.add_0_r; reflexivity.
  - cbn [cleanup_times]; unfold bigben_cleanup; cbn [init_count usb_ctx].
    destruct (Z.leb_spec (k + Z.of_nat (S n)) INT_MIN); [unfold INT_MIN in *; lia|].
    destruct (Z.gtb_spec (k + Z.of_nat (S n) - 1) 0); [|lia].
    replace (k + Z.of_nat (S n) - 1) with (k + Z.of_nat n) by lia.
    rewrite IH by lia; reflexivity.
Qed.

(** The last of [k+1] cleanups, taken apart. *)
Lemma cleanup_times_last k : forall g g1 c1 g2 c2,
  cleanup_times k g = Some (g1, c1) ->
  bigben_cleanup g1 = Some (g2, c2) ->
  cleanup_times (S k) g = Some (g2, c1 ++ c2).
Proof.
  induction k as [|k IH]; intros g g1 c1 g2 c2 Hk Hlast.
  - cbn [cleanup_times] in Hk; injection Hk as <- <-.
    cbn [cleanup_times]; rewrite Hlast; cbn [app].
    rewrite app_nil_r; reflexivity.
  - cbn [cleanup_times] in Hk.
    destruct (bigben_cleanup g) as [[g0 c0]|] eqn:H0; [|discriminate Hk].
    destruct (cleanup_times k g0) as [[g' c']|] eqn:Hk'; [|discriminate Hk].
    injection Hk as <- <-.
    change (cleanup_times (S (S k)) g)
      with (match bigben_cleanup g with
            | Some (g1, c1) =>
              match cleanup_times (S k) g1 with
              | Some (g2, c2) => Some (g2, c1 ++ c2)
              | None => None
              end
            | None => None
            end).
    rewrite H0, (IH g0 g' c' g2 c2 Hk' Hlast), app_assoc; reflexivity.
Qed.

(** X29: the library is reference counted: of [n+1] successful calls
    of [bigben_init], as many as an [int] can count, only the first
    calls [libusb_init]; the first [n] calls of [bigben_cleanup] that
    follow only count down; the last one calls [libusb_exit] once and
    leaves the globals as they were before the first call.  At a count
    of [INT_MAX] one more [bigben_init] overflows [init_count]. *)
Theorem X29_init_cleanup_are_reference_counted (a : InitAnswer) (n : nat) :
  0 <= init_ret a -> init_ctx a = true -> Z.of_nat (S n) <= INT_MAX ->
  init_times a (S n) (mkGlobals false 0)
  = Some (mkGlobals true (Z.of_nat (S n)), [libusb_init])
  /\ cleanup_times n (mkGlobals true (Z.of_nat (S n)))
     = Some (mkGlobals true 1, [])
  /\ cleanup_times (S n) (mkGlobals true (Z.of_nat (S n)))
     = Some (mkGlobals false 0, [libusb_exit])
  /\ bigben_init a (mkGlobals true INT_MAX) = None.
Proof.
  intros Hret Hctx Hmax.
  assert (Hdown : cleanup_times n (mkGlobals true (Z.of_nat (S n)))
                  = Some (mkGlobals true 1, [])).
  { replace (Z.of_nat (S n)) with (1 + Z.of_nat n) by lia.
    apply cleanup_times_counted; lia. }
  split; [|split; [exact Hdown|split; [|reflexivity]]].
  - cbn [init_times]; unfold bigben_init at 1; cbn [init_count usb_ctx].
    change (INT_MAX <=? 0) with false; change (0 >? 0) with false; cbv iota.
    destruct (Z.ltb_spec (init_ret a) 0); [lia|].
    rewrite Hctx, init_times_counted by lia.
    cbn [app]; do 3 f_equal; lia.
  - rewrite (cleanup_times_last n _ _ _ (mkGlobals false 0) [libusb_exit] Hdown);
      reflexivity.
Qed.

Lemma X29_init_cleanup_are_reference_counted_witness :
  init_times (mkInitAnswer 0 true) 3 (mkGlobals false 0)
  = Some (mkGlobals true 3, [libusb_init])
  /\ cleanup_times 3 (mkGlobals true 3)
     = Some (mkGlobals false 0, [libusb_exit]).
Proof.
  destruct (X29_init_cleanup_are_reference_counted (mkInitAnswer 0 true) 2)
    as (Hup & _ & Hdown & _);
    [cbn; lia | reflexivity | unfold INT_MAX; cbn; lia |].
  split; [exact Hup | exact Hdown].
Defined.


Lemma at_byte data i : Forall is_uint8 data -> is_uint8 (at_ data i).
Proof.
  intros Hall; unfold at_.
  destruct (nth_in_or_default i data 0) as [Hin | ->].
  - rewrite Forall_forall in Hall; now apply Hall.
  - unfold is_uint8; lia.
Qed.

(** Two bytes joined low byte first, as an unsigned and as a signed
    16-bit value. *)
Lemma le16_value data i :
  Forall is_uint8 data ->
  le16 data i = at_ data i + 256 * at_ data (S i)
  /\ uint16 (le16 data i) = at_ data i + 256 * at_ data (S i)
  /\ int16 (le16 data i)
     = at_ data i + 256 * at_ data (S i)
       - (if at_ data (S i) <? 128 then 0 else 65536).
Proof.
  intros Hall.
  assert (H : all_byte_pairs
                (fun lo hi =>
                   (Z.lor lo (Z.shiftl hi 8) =? lo + 256 * hi)
                   && (uint16 (Z.lor lo (Z.shiftl hi 8)) =? lo + 256 * hi)
                   && (int16 (Z.lor lo (Z.shiftl hi 8))
                       =? lo + 256 * hi - (if hi <? 128 then 0 else 65536)))
              = true) by (vm_compute; reflexivity).
  pose proof (all_byte_pairs_spec _ H (at_ data i) (at_ data (S i))
                (at_byte data i Hall) (at_byte data (S i) Hall)) as Hs.
  cbv beta in Hs.
  apply andb_true_iff in Hs; destruct Hs as [Hs H3].
  apply andb_true_iff in Hs; destruct Hs as [H1 H2].
  unfold le16; repeat split; now apply Z.eqb_eq.
Qed.

(** X30: a transfer that succeeds with at least 14 bytes is decoded
    from the XInput layout: buttons from bytes 2-3 and the four stick
    axes from bytes 6-13, each low byte first, the sticks as signed
    16-bit values; the triggers are bytes 4 and 5.  A transfer that
    succeeds with fewer than 14 bytes also returns 0 but leaves the
    caller's report as it was. *)
Theorem X30_bigben_poll_decodes_little_endian
    (rep : BigbenInputReport) (t : Transfer) :
  0 <= t_ret t -> Forall is_uint8 (t_data t) ->
  (14 <= t_transferred t ->
   exists rep',
     bigben_poll (Some true) (Some rep) t = (0, Some rep')
     /\ buttons rep' = at_ (t_data t) 2 + 256 * at_ (t_data t) 3
     /\ left_trigger rep' = at_ (t_data t) 4
     /\ right_trigger rep' = at_ (t_data t) 5
     /\ left_stick_x rep'
        = at_ (t_data t) 6 + 256 * at_ (t_data t) 7
          - (if at_ (t_data t) 7 <? 128 then 0 else 65536)
     /\ left_stick_y rep'
        = at_ (t_data t) 8 + 256 * at_ (t_data t) 9
          - (if at_ (t_data t) 9 <? 128 then 0 else 65536)
     /\ right_stick_x rep'
        = at_ (t_data t) 10 + 256 * at_ (t_data t) 11
          - (if at_ (t_data t) 11 <? 128 then 0 else 65536)
     /\ right_stick_y rep'
        = at_ (t_data t) 12 + 256 * at_ (t_data t) 13
          - (if at_ (t_data t) 13 <? 128 then 0 else 65536)
     /\ -32768 <= left_stick_x rep' <= 32767)
  /\ (t_transferred t < 14 ->
      bigben_poll (Some true) (Some rep) t = (0, Some rep)).
Proof.
  intros Hret Hall; unfold bigben_poll, LIBUSB_ERROR_TIMEOUT.
  destruct (Z.eqb_spec (t_ret t) (-7)); [lia|].
  destruct (Z.ltb_spec (t_ret t) 0); [lia|].
  split; intros Hlen.
  - replace (t_transferred t >=? 14) with true
      by (symmetry; apply Z.geb_le; lia).
    eexists; split; [reflexivity|].
    cbn [parse buttons left_trigger right_trigger left_stick_x left_stick_y
         right_stick_x right_stick_y].
    destruct (le16_value (t_data t) 2 Hall) as (_ & Hb & _).
    destruct (le16_value (t_data t) 6 Hall) as (_ & _ & Hlx).
    destruct (le16_value (t_data t) 8 Hall) as (_ & _ & Hly).
    destruct (le16_value (t_data t) 10 Hall) as (_ & _ & Hrx).
    destruct (le16_value (t_data t) 12 Hall) as (_ & _ & Hry).
    rewrite Hb, Hlx, Hly, Hrx, Hry.
    repeat split; try reflexivity;
      pose proof (at_byte (t_data t) 6 Hall) as B6;
      pose proof (at_byte (t_data t) 7 Hall) as B7;
      unfold is_uint8 in B6, B7;
      destruct (Z.ltb_spec (at_ (t_data t) 7) 128); lia.
  - replace (t_transferred t >=? 14) with false; [reflexivity|].
    symmetry; destruct (Z.geb_spec (t_transferred t) 14); [lia | reflexivity].
Qed.

Lemma X30_bigben_poll_decodes_little_endian_witness :
  exists rep',
    bigben_poll (Some true) (Some (mkXInput 0 0 0 0 0 0 0 0 0 []))
      (mkTransfer 0 [0; 20; 0; 16; 255; 0; 0; 128; 255; 127; 1; 0; 255; 255] 14)
    = (0, Some rep')
    /\ buttons rep' = 4096 /\ left_stick_x rep' = -32768.
Proof.
  destruct (X30_bigben_poll_decodes_little_endian
              (mkXInput 0 0 0 0 0 0 0 0 0 [])
              (mkTransfer 0 [0; 20; 0; 16; 255; 0; 0; 128; 255; 127; 1; 0; 255; 255] 14))
    as ((rep' & Hrun & Hb & _ & _ & Hlx & _) & _);
    [cbn; lia
     | cbn [t_data]; repeat constructor; unfold is_uint8; lia
     | cbn; lia |].
  exists rep'; split; [exact Hrun|]. split; [rewrite Hb | rewrite Hlx]; reflexivity.
Defined.

End BigbenUSBSpec.
